(** * macc_net_generator: the prototxt generator for multiscale accumulator
      networks (scripts/nets/macc_net_generator.py)

    The script reads a small configuration file (network name, one line with
    the accumulator radius and circle ratio, then one directive per line) and
    writes two Caffe prototxt documents.  This development embeds the script
    function by function and proves the properties of its field-of-view and
    padding arithmetic, its handling of pooling and accumulator directives,
    its error paths and the agreement of the two documents.

    Modelling conventions.
    - The script is Python 2 code: [ceil(self.downsampling/2.0)] forces a
      float division where an integer one would be wrong, while
      [(kernel_size-1) / 2] relies on [/] being the integer (floor) division.
      Python integers are unbounded and modelled by [Z]; [Z.div] is the floor
      division.
    - Python floats are IEEE 754 doubles.  A finite double is kept as the
      fraction it stands for; [Py.round64] is the rounding to the nearest
      double (ties to even, subnormal numbers, overflow to an infinity) that
      [float(s)], the conversion of an integer and every float operation end
      with.  The field of view is a float in the script ([ceil] returns one):
      it is exact as long as the numbers stay within [2^53] and rounded
      beyond.
    - [exit()] after a printed error and uncaught exceptions are the two ways
      the script stops early; both are kept apart in the type [failure].
      Console output other than error messages is not modelled, but a
      [print] that can raise is.
    - The text written to a file is produced in two steps: each emitter
      builds the block as a tree of [entry] values, one per line of the
      script's template, and [render] prints the tree as the text the script
      concatenates. *)

From Stdlib Require Import ZArith QArith Qround String Ascii List Bool Lia.
From Stdlib Require DecimalString DecimalPos Qcanon.
From stdpp Require Import base option list gmap.

Import ListNotations.
Local Open Scope Z_scope.

(** String concatenation computes on a literal first argument. *)
#[local] Arguments String.append !s1 s2 : simpl nomatch.

(** ** Early termination *)

(** The two messages the script prints before it calls [exit()]. *)
Inductive message :=
| RequiredMissing (id : string) (data : list string)
| CannotCreate (specs : string).

Inductive failure :=
| SysExit (msg : message)   (* print(msg) then exit() *)
| ValueError                (* float() of a malformed literal, int() of nan *)
| OverflowError             (* int() of an infinity, a float from a huge int *)
| KeyError                  (* a dictionary without the key *)
| IndexError                (* a list shorter than the index *)
| TypeError                 (* None in arithmetic, %d of what is no number *)
| ZeroDivisionError.

Inductive res (A : Type) :=
| Ok (a : A)
| Fail (f : failure).
Arguments Ok {A} a.
Arguments Fail {A} f.

Definition bind {A B : Type} (c : res A) (k : A -> res B) : res B :=
  match c with
  | Ok a => k a
  | Fail f => Fail f
  end.

Notation "'let*' x := c 'in' k" := (bind c (fun x => k))
  (at level 10, x pattern, c at level 100, k at level 200).

(** A value that must not be None where it is used. *)
Definition need {A : Type} (o : option A) : res A :=
  match o with
  | Some a => Ok a
  | None => Fail TypeError
  end.

(** [d[k]] on a dictionary and [l[i]] on a list. *)
Definition getitem {V : Type} (d : gmap Z V) (k : Z) : res V :=
  match d !! k with
  | Some v => Ok v
  | None => Fail KeyError
  end.

Definition getindex {V : Type} (l : list V) (i : nat) : res V :=
  match l !! i with
  | Some v => Ok v
  | None => Fail IndexError
  end.

(** ** Python built-ins used by the script *)

Module Py.

(** Line feed and the double quote, written by their codes. *)
Definition nl : string := String "010"%char EmptyString.
Definition dq : string := String "034"%char EmptyString.

Definition cat (l : list string) : string :=
  fold_right String.append EmptyString l.

(** [s[n:]] and [s[:n]]: slices never raise. *)
Fixpoint drop_str (n : nat) (s : string) : string :=
  match n, s with
  | O, _ => s
  | S n', String _ s' => drop_str n' s'
  | S _, EmptyString => EmptyString
  end.

Fixpoint take_str (n : nat) (s : string) : string :=
  match n, s with
  | O, _ => EmptyString
  | S n', String c s' => String c (take_str n' s')
  | S _, EmptyString => EmptyString
  end.

(** [sub in s] on strings: substring test. *)
Fixpoint str_in (sub s : string) : bool :=
  String.prefix sub s ||
  match s with
  | EmptyString => false
  | String _ s' => str_in sub s'
  end.

(** Whitespace of [str.split()] without argument. *)
Definition is_space (c : ascii) : bool :=
  let n := nat_of_ascii c in
  (n =? 32)%nat || ((9 <=? n)%nat && (n <=? 13)%nat).

Definition flush (cur : string) : list string :=
  match cur with
  | EmptyString => []
  | _ => [cur]
  end.

(** [s.split()]: maximal runs of non-whitespace characters. *)
Fixpoint split_go (cur : string) (s : string) : list string :=
  match s with
  | EmptyString => flush cur
  | String c s' =>
      if is_space c then flush cur ++ split_go EmptyString s'
      else split_go (String.append cur (String c EmptyString)) s'
  end.

Definition split (s : string) : list string := split_go EmptyString s.

(** The lines of a text file as [readline] and the file iterator give them,
    each with its trailing line feed removed ([rstrip('\n')]). *)
Fixpoint lines_go (cur : string) (s : string) : list string :=
  match s with
  | EmptyString => flush cur
  | String c s' =>
      if Ascii.eqb c "010"%char then cur :: lines_go EmptyString s'
      else lines_go (String.append cur (String c EmptyString)) s'
  end.

Definition file_lines (text : string) : list string := lines_go EmptyString text.

(** *** Floats *)

(** A float is an IEEE 754 double.  A finite one is kept as the fraction it
    stands for, in lowest terms; the negative zero, the two infinities and
    the not-a-number are apart. *)
Inductive float :=
| FNum (q : Q)
| FNegZero
| FInf (neg : bool)
| FNaN.

Definition fzero (neg : bool) : float :=
  if neg then FNegZero else FNum (Qmake 0 1).

(** The literal [2.0]. *)
Definition two : float := FNum (Qmake 2 1).

(** Nearest integer to [n / d] for [0 < d], ties to even. *)
Definition round_div (n d : Z) : Z :=
  let f := n / d in
  let r := 2 * (n mod d) in
  if r <? d then f
  else if d <? r then f + 1
  else if Z.even f then f else f + 1.

(** [floor (log2 (n / d))] *)
Definition ilog2 (n d : positive) : Z :=
  let e := Z.log2 (Z.pos n) - Z.log2 (Z.pos d) in
  if (if 0 <=? e then Z.pos d * 2 ^ e <=? Z.pos n
      else Z.pos d <=? Z.pos n * 2 ^ (- e))
  then e else e - 1.

(** The double nearest to [n / d], ties to even, with the sign [neg]: 53
    bits with the exponent of [n / d], or the spacing [2^-1074] of the
    subnormal numbers below [2^-1022]; what rounds to [2^1024] or more is an
    infinity, what rounds to nothing a zero. *)
Definition round_mag (neg : bool) (n d : positive) : float :=
  let qe := Z.max (ilog2 n d) (-1022) - 52 in
  let m := if 0 <=? qe then round_div (Z.pos n) (Z.pos d * 2 ^ qe)
           else round_div (Z.pos n * 2 ^ (- qe)) (Z.pos d) in
  if m =? 0 then fzero neg
  else
    let v := if 0 <=? qe then Qmake (m * 2 ^ qe) 1
             else Qred (Qmake m (Z.to_pos (2 ^ (- qe)))) in
    if Qle_bool (Qmake (2 ^ 1024) 1) v then FInf neg
    else FNum (if neg then Qopp v else v).

Definition round_red (q : Q) : float :=
  match Qnum q with
  | Z0 => FNum (Qmake 0 1)
  | Z.pos n => round_mag false n (Qden q)
  | Z.neg n => round_mag true n (Qden q)
  end.

(** The double nearest to a real number given as a fraction. *)
Definition round64 (q : Q) : float := round_red (Qred q).

Definition is_neg (x : float) : bool :=
  match x with
  | FNum q => Qnum q <? 0
  | FNegZero => true
  | FInf neg => neg
  | FNaN => false
  end.

Definition is_zero (x : float) : bool :=
  match x with
  | FNum q => Qnum q =? 0
  | FNegZero => true
  | _ => false
  end.

Definition fneg (x : float) : float :=
  match x with
  | FNum q => if Qnum q =? 0 then FNegZero else FNum (Qopp q)
  | FNegZero => FNum (Qmake 0 1)
  | FInf neg => FInf (negb neg)
  | FNaN => FNaN
  end.

(** [x + y] and [x - y] on floats never raise. *)
Definition fadd (x y : float) : float :=
  match x, y with
  | FNaN, _ | _, FNaN => FNaN
  | FInf a, FInf b => if Bool.eqb a b then FInf a else FNaN
  | FInf a, _ => FInf a
  | _, FInf b => FInf b
  | FNegZero, _ => y
  | _, FNegZero => x
  | FNum p, FNum q => round64 (Qplus p q)
  end.

Definition fsub (x y : float) : float := fadd x (fneg y).

(** [x / y] on floats raises on a zero divisor and only then. *)
Definition fdiv (x y : float) : res float :=
  if is_zero y then Fail ZeroDivisionError
  else
    Ok match x, y with
       | FNaN, _ | _, FNaN => FNaN
       | FInf _, FInf _ => FNaN
       | FInf a, _ => FInf (xorb a (is_neg y))
       | _, FInf b => fzero (xorb (is_neg x) b)
       | FNum p, FNum q =>
           if Qnum p =? 0 then fzero (is_neg y) else round64 (Qdiv p q)
       | FNegZero, _ => fzero (negb (is_neg y))
       | _, FNegZero => FNaN
       end.

(** [ceil(x)] of the math module returns a float. *)
Definition ceil (x : float) : float :=
  match x with
  | FNum q =>
      let c := Qceiling q in
      if ((c =? 0) && (Qnum q <? 0))%bool then FNegZero else FNum (Qmake c 1)
  | _ => x
  end.

(** The conversion of an integer that stands next to a float. *)
Definition float_of_int (z : Z) : res float :=
  match round64 (Qmake z 1) with
  | FInf _ => Fail OverflowError
  | x => Ok x
  end.

(** [int(x)] on a float truncates toward zero. *)
Definition int_of_float (x : float) : res Z :=
  match x with
  | FNum q => Ok (Z.quot (Qnum q) (Z.pos (Qden q)))
  | FNegZero => Ok 0
  | FInf _ => Fail OverflowError
  | FNaN => Fail ValueError
  end.

(** A number is an integer or a float; an integer operand next to a float
    one is converted first. *)
Inductive num :=
| NInt (z : Z)
| NFloat (x : float).

Definition to_float (a : num) : res float :=
  match a with
  | NInt z => float_of_int z
  | NFloat x => Ok x
  end.

Definition add (a b : num) : res num :=
  match a, b with
  | NInt x, NInt y => Ok (NInt (x + y))
  | _, _ =>
      let* x := to_float a in
      let* y := to_float b in
      Ok (NFloat (fadd x y))
  end.

Definition sub (a b : num) : res num :=
  match a, b with
  | NInt x, NInt y => Ok (NInt (x - y))
  | _, _ =>
      let* x := to_float a in
      let* y := to_float b in
      Ok (NFloat (fsub x y))
  end.

(** [a / y] with a float divisor. *)
Definition div_float (a : num) (y : float) : res float :=
  let* x := to_float a in
  fdiv x y.

(** *** float(s) *)

Definition digit_of (c : ascii) : option Z :=
  let n := nat_of_ascii c in
  if ((48 <=? n)%nat && (n <=? 57)%nat)%bool then Some (Z.of_nat (n - 48)) else None.

(** Reads a maximal run of digits: the number read so far, how many digits
    were read, and the rest of the string. *)
Fixpoint read_digits (acc : Z) (cnt : nat) (s : string) : Z * nat * string :=
  match s with
  | EmptyString => (acc, cnt, s)
  | String c s' =>
      match digit_of c with
      | Some d => read_digits (10 * acc + d) (S cnt) s'
      | None => (acc, cnt, s)
      end
  end.

Definition read_sign (s : string) : bool * string :=
  match s with
  | String "-"%char s' => (true, s')
  | String "+"%char s' => (false, s')
  | _ => (false, s)
  end.

(** The optional exponent part, which must end the literal. *)
Definition read_exp (s : string) : option Z :=
  match s with
  | EmptyString => Some 0
  | String c s' =>
      if (Ascii.eqb c "e"%char || Ascii.eqb c "E"%char)%bool then
        let '(neg, s1) := read_sign s' in
        match read_digits 0 0 s1 with
        | (_, O, _) => None
        | (e, S _, EmptyString) => Some (if neg then - e else e)
        | (_, S _, String _ _) => None
        end
      else None
  end.

(** [m * 10^k] as a fraction. *)
Definition scale10 (m k : Z) : Q :=
  if 0 <=? k then Qmake (m * 10 ^ k) 1
  else Qmake m (Z.to_pos (10 ^ (- k))).

Definition lower (c : ascii) : ascii :=
  let n := nat_of_ascii c in
  if ((65 <=? n)%nat && (n <=? 90)%nat)%bool then ascii_of_nat (n + 32) else c.

Fixpoint lower_str (s : string) : string :=
  match s with
  | EmptyString => EmptyString
  | String c s' => String (lower c) (lower_str s')
  end.

(** The words [float] takes for an infinity and for the not-a-number, in
    any case. *)
Definition special (neg : bool) (s : string) : option float :=
  let w := lower_str s in
  if (String.eqb w "inf" || String.eqb w "infinity")%bool then Some (FInf neg)
  else if String.eqb w "nan" then Some FNaN
  else None.

(** A decimal literal after its sign: digits with an optional fraction (at
    least one digit in all) and an optional exponent, rounded to the nearest
    double. *)
Definition decimal (neg : bool) (s1 : string) : option float :=
  let '(ip, n1, s2) := read_digits 0 0 s1 in
  let '(m, n2, s3) :=
    match s2 with
    | String "."%char r => read_digits ip 0 r
    | _ => (ip, O, s2)
    end in
  if (n1 + n2 =? 0)%nat then None
  else
    match read_exp s3 with
    | None => None
    | Some e =>
        Some (if m =? 0 then fzero neg
              else round64 (scale10 (if neg then - m else m) (e - Z.of_nat n2)))
    end.

(** [float(s)] on a token, which has no white space: a sign, then one of
    the special words or a decimal literal.  [None] stands for the
    ValueError Python raises on anything else. *)
Definition float_of_string (s : string) : option float :=
  let '(neg, s1) := read_sign s in
  match special neg s1 with
  | Some x => Some x
  | None => decimal neg s1
  end.

(** *** The formats %d, %3d and %f *)

Definition fmt_d (z : Z) : string :=
  DecimalString.NilZero.string_of_int (Z.to_int z).

Fixpoint spaces (n : nat) : string :=
  match n with
  | O => EmptyString
  | S n' => String " "%char (spaces n')
  end.

Fixpoint zeros (n : nat) : string :=
  match n with
  | O => EmptyString
  | S n' => String "0"%char (zeros n')
  end.

Definition fmt_3d (z : Z) : string :=
  let s := fmt_d z in
  String.append (spaces (3 - String.length s)) s.

(** [%d] applied to a float converts it with [int] first.  Where [int]
    raises, on an infinity or the not-a-number, the [%] operator of Python 2
    drops that exception and raises its own TypeError ([%d format: a number
    is required, not float]). *)
Definition fmt_d_float (x : float) : res string :=
  match int_of_float x with
  | Ok z => Ok (fmt_d z)
  | Fail _ => Fail TypeError
  end.

Definition fmt_d_num (a : num) : res string :=
  match a with
  | NInt z => Ok (fmt_d z)
  | NFloat x => fmt_d_float x
  end.

(** Nearest integer, ties to even. *)
Definition round_half_even (q : Q) : Z := round_div (Qnum q) (Z.pos (Qden q)).

(** A string without the zeros it ends with. *)
Fixpoint strip_zeros (s : string) : string :=
  match s with
  | EmptyString => EmptyString
  | String c s' =>
      match strip_zeros s' with
      | EmptyString => if Ascii.eqb c "0"%char then EmptyString
                       else String c EmptyString
      | r => String c r
      end
  end.

(** [%g] of [n / d] where it is [10^50] or more: six significant digits,
    the zeros at their end dropped, and the exponent. *)
Definition fmt_g_large (n d : positive) : string :=
  let e := Z.of_nat (String.length (fmt_d (Z.pos n / Z.pos d))) - 1 in
  let m := round_div (Z.pos n) (Z.pos d * 10 ^ (e - 5)) in
  let '(m, e) := if m =? 1000000 then (100000, e + 1) else (m, e) in
  match fmt_d m with
  | EmptyString => EmptyString
  | String c rest =>
      cat [ String c EmptyString;
            match strip_zeros rest with
            | EmptyString => EmptyString
            | r => String "."%char r
            end;
            "e+"%string; fmt_d e ]
  end.

(** [%f]: six digits after the point, from the exact value of the double.
    Python 2 replaces [%f] by [%g] for a number whose absolute value is
    [1e50] or more. *)
Definition fmt_f (x : float) : string :=
  match x with
  | FNum q =>
      let sign := if Qnum q <? 0 then String "-"%char EmptyString
                  else EmptyString in
      if Qle_bool (Qmake (10 ^ 50) 1) (Qmake (Z.abs (Qnum q)) (Qden q)) then
        String.append sign
          (fmt_g_large (Z.to_pos (Z.abs (Qnum q))) (Qden q))
      else
        let a := Z.abs (round_half_even (Qmult q (Qmake 1000000 1))) in
        let frac := fmt_d (a mod 1000000) in
        cat [ sign;
              fmt_d (a / 1000000);
              String "."%char EmptyString;
              zeros (6 - String.length frac);
              frac ]
  | FNegZero => "-0.000000"%string
  | FInf neg => if neg then "-inf"%string else "inf"%string
  | FNaN => "nan"%string
  end.

End Py.

(** ** The prototxt text format *)

(** A value after [key: ]. *)
Inductive value :=
| VStr (s : string)      (* a quoted string *)
| VInt (z : Z)           (* an integer printed with %d *)
| VFloat (x : Py.float)  (* a float printed with %f *)
| VRaw (s : string).     (* text copied as it is: MAX, TRAIN, 0.33 *)

(** One line of a document, or a block [key { ... }] of lines. *)
#[warnings="-register-all"] Inductive entry :=
| Blank
| Comment (text : string)
| Field (key : string) (v : value)
| Raw (text : string)
| Sub (key : string) (body : list entry).

Definition render_value (v : value) : string :=
  match v with
  | VStr s => Py.cat [Py.dq; s; Py.dq]
  | VInt z => Py.fmt_d z
  | VFloat x => Py.fmt_f x
  | VRaw s => s
  end.

(** The text of an entry at indentation [ind]; blocks indent by two. *)
Fixpoint render (ind : nat) (e : entry) : string :=
  match e with
  | Blank => Py.nl
  | Comment t => Py.cat [Py.spaces ind; "# "%string; t; Py.nl]
  | Field k v => Py.cat [Py.spaces ind; k; ": "%string; render_value v; Py.nl]
  | Raw t => Py.cat [Py.spaces ind; t; Py.nl]
  | Sub k body =>
      Py.cat [Py.spaces ind; k; " {"%string; Py.nl;
              Py.cat (List.map (render (2 + ind)) body);
              Py.spaces ind; "}"%string; Py.nl]
  end.

(** The text of a whole document. *)
Definition render_doc (doc : list entry) : string :=
  Py.cat (List.map (render 0) doc).

Fixpoint dashes (n : nat) : string :=
  match n with
  | O => EmptyString
  | S n' => String "-"%char (dashes n')
  end.

(** *** Reading a block back *)

(** The values of all fields [key] of a block, in order. *)
Fixpoint fields (key : string) (body : list entry) : list value :=
  match body with
  | [] => []
  | Field k v :: rest =>
      if String.eqb k key then v :: fields key rest else fields key rest
  | _ :: rest => fields key rest
  end.

(** The first sub-block [key] of a block. *)
Fixpoint sub_block (key : string) (body : list entry) : option (list entry) :=
  match body with
  | [] => None
  | Sub k b :: rest =>
      if String.eqb k key then Some b else sub_block key rest
  | _ :: rest => sub_block key rest
  end.

(** The bodies of the [layer { ... }] blocks of a document, in order. *)
Fixpoint layers (doc : list entry) : list (list entry) :=
  match doc with
  | [] => []
  | Sub k b :: rest =>
      if String.eqb k "layer" then b :: layers rest else layers rest
  | _ :: rest => layers rest
  end.

Definition layer_name (body : list entry) : option value :=
  head (fields "name" body).

Definition layer_type (body : list entry) : option value :=
  head (fields "type" body).

Definition has_type (ty : string) (body : list entry) : bool :=
  match layer_type body with
  | Some (VStr t) => String.eqb t ty
  | _ => false
  end.

(** ** Error messages *)

(** The text of an error message.  [str(data)] is printed for tokens made of
    plain characters, each between single quotes. *)
Definition str_list (data : list string) : string :=
  Py.cat ["["%string;
          String.concat ", "%string
            (List.map (fun s => Py.cat ["'"%string; s; "'"%string]) data);
          "]"%string].

Definition message_text (m : message) : string :=
  match m with
  | RequiredMissing id data =>
      Py.cat ["ERROR: "%string; Py.dq; id; Py.dq; " is required in "%string;
              str_list data; "!"%string]
  | CannotCreate specs =>
      Py.cat ["ERROR: Accumulator of this scale cannot be created "%string;
              Py.dq; specs; Py.dq; "!"%string]
  end.

(** ** FUNCTIONS *)

(** get_value_float: the first token that contains [id] decides. *)
Definition get_value_float (data : list string) (id : string) (required : bool)
  : res (option Py.float) :=
  match List.find (Py.str_in id) data with
  | Some val =>
      match Py.float_of_string (Py.drop_str (String.length id) val) with
      | Some x => Ok (Some x)
      | None => Fail ValueError
      end
  | None =>
      if required then Fail (SysExit (RequiredMissing id data)) else Ok None
  end.

(** get_value_int: [int(val) if val is not None else None] *)
Definition get_value_int (data : list string) (id : string) (required : bool)
  : res (option Z) :=
  let* val := get_value_float data id required in
  match val with
  | Some x => let* z := Py.int_of_float x in Ok (Some z)
  | None => Ok None
  end.

(** ** CLASSES: MACCNetGenerator *)

(** The attributes of the generator object.  [name], [radius] and
    [circle_ratio] are set while the configuration is read; the others are
    the ones [reset] initialises.  The fields of view start as the integer 1
    and are floats once a convolution has computed one. *)
Record MACCNetGenerator := {
  bb_type : string;
  name : string;
  radius : Z;
  circle_ratio : Py.float;
  previous_layer : string;
  downsampling : Z;
  new_conv_id : Z;
  last_in_scale : gmap Z string;
  last_in_scale_fov : gmap Z Py.num;
  fov_base : Z;
  fov_previous : Py.num;
  fov_prev_downsampling : Py.num;
  accs : list string;
  acc_scales : list Z;
  acc_bbs_ideal : list Py.float
}.

Definition reset (self : MACCNetGenerator) : MACCNetGenerator :=
  {| bb_type := bb_type self;
     name := name self;
     radius := radius self;
     circle_ratio := circle_ratio self;
     previous_layer := "data";
     downsampling := 1;
     new_conv_id := 1;
     last_in_scale := ∅;
     last_in_scale_fov := ∅;
     fov_base := 1;
     fov_previous := Py.NInt 1;
     fov_prev_downsampling := Py.NInt 1;
     accs := [];
     acc_scales := [];
     acc_bbs_ideal := [] |}.

(** The suffix ['3' if self.bb_type == 'bb3txt' else ''] of the layer types. *)
Definition bb_suffix (self : MACCNetGenerator) : string :=
  if String.eqb (bb_type self) "bb3txt" then "3"%string else EmptyString.

(** The learning-rate blocks and the fillers of the train_val document. *)
Definition train_params : list entry :=
  [ Sub "param" [ Field "lr_mult" (VInt 1); Field "decay_mult" (VInt 1) ];
    Sub "param" [ Field "lr_mult" (VInt 2); Field "decay_mult" (VInt 0) ] ].

Definition train_fillers : list entry :=
  [ Sub "weight_filler" [ Field "type" (VStr "xavier") ];
    Sub "bias_filler" [ Field "type" (VStr "constant"); Field "value" (VInt 0) ] ].

(** _downsampling: the banner with the current downsampling factor. *)
Definition _downsampling (self : MACCNetGenerator) : list entry :=
  [ Comment (Py.cat [dashes 45; " x"%string; Py.fmt_3d (downsampling self);
                     " "%string; dashes 45; " #"%string]) ].

(** _layer_relu *)
Definition _layer_relu (self : MACCNetGenerator) : list entry :=
  [ Sub "layer"
      [ Field "name" (VStr (String.append "relu_" (previous_layer self)));
        Field "type" (VStr "ReLU");
        Field "bottom" (VStr (previous_layer self));
        Field "top" (VStr (previous_layer self)) ] ].

(** The arithmetic of _layer_conv. *)
Definition conv_pad (kernel_size : Z) (dilation : option Z) : Z :=
  match dilation with
  | Some d => ((kernel_size - 1) / 2) * (d + 1)
  | None => (kernel_size - 1) / 2
  end.

Definition conv_fov_base (self : MACCNetGenerator) (kernel_size : Z)
    (dilation : option Z) : Z :=
  match dilation with
  | Some d => fov_base self - 1 + ((d + 1) * (kernel_size - 1) + 1)
  | None => fov_base self - 1 + kernel_size
  end.

(** [ceil(self.downsampling/2.0)] *)
Definition half_up (ds : Z) : res Py.float :=
  let* half := Py.div_float (Py.NInt ds) Py.two in
  Ok (Py.ceil half).

(** [self.fov_base * self.downsampling + self.fov_prev_downsampling
     - ceil(self.downsampling/2.0)], from the left. *)
Definition conv_fov (fb ds : Z) (prev : Py.num) : res Py.num :=
  let* sum := Py.add (Py.NInt (fb * ds)) prev in
  let* c := half_up ds in
  Py.sub sum (Py.NFloat c).

(** The comment line that reports the field of view of a layer, from the
    three numbers as [%d] prints them. *)
Definition fov_comment (fov a b : string) : entry :=
  Comment (Py.cat [dashes 23; "  FOV "%string; fov; " x "%string;
                   fov; "  ("%string; a; "+"%string;
                   b; "="%string; fov; ")"%string]).

Definition conv_name (self : MACCNetGenerator) : string :=
  Py.cat ["conv_x"%string; Py.fmt_d (downsampling self); "_"%string;
          Py.fmt_d (new_conv_id self)].

(** The block of a convolution, from the field of view and the second
    summand of its comment as [%d] prints them. *)
Definition conv_block (self : MACCNetGenerator) (deploy : bool)
    (fov_text second_text : string) (num_output kernel_size : Z)
    (dilation : option Z) : list entry :=
  let nm := conv_name self in
  let fb := conv_fov_base self kernel_size dilation in
  [ Sub "layer"
      ([ fov_comment fov_text (Py.fmt_d (fb * downsampling self)) second_text;
         Field "name" (VStr nm);
         Field "type" (VStr "Convolution");
         Field "bottom" (VStr (previous_layer self));
         Field "top" (VStr nm) ]
       ++ (if deploy then [] else train_params)
       ++ [ Sub "convolution_param"
              ([ Field "num_output" (VInt num_output);
                 Field "kernel_size" (VInt kernel_size);
                 Field "pad" (VInt (conv_pad kernel_size dilation)) ]
               ++ match dilation with
                  | Some d => [ Field "dilation" (VInt (d + 1)) ]
                  | None => []
                  end
               ++ (if deploy then [] else train_fillers)) ]) ].

(** The generator after a convolution with the field of view [fov]. *)
Definition conv_state (self : MACCNetGenerator) (fov : Py.num)
    (kernel_size : Z) (dilation : option Z) : MACCNetGenerator :=
  {| bb_type := bb_type self;
     name := name self;
     radius := radius self;
     circle_ratio := circle_ratio self;
     previous_layer := conv_name self;
     downsampling := downsampling self;
     new_conv_id := new_conv_id self + 1;
     last_in_scale := <[downsampling self := conv_name self]> (last_in_scale self);
     last_in_scale_fov := <[downsampling self := fov]> (last_in_scale_fov self);
     fov_base := conv_fov_base self kernel_size dilation;
     fov_previous := fov;
     fov_prev_downsampling := fov_prev_downsampling self;
     accs := accs self;
     acc_scales := acc_scales self;
     acc_bbs_ideal := acc_bbs_ideal self |}.

(** The second half of _layer_conv, once the line is parsed.  The field of
    view is computed and printed on the console, then the second summand of
    the comment is computed and the block is built. *)
Definition conv_emit (self : MACCNetGenerator) (deploy : bool)
    (num_output kernel_size : Z) (dilation : option Z)
  : res (list entry * MACCNetGenerator) :=
  let fb := conv_fov_base self kernel_size dilation in
  let* fov := conv_fov fb (downsampling self) (fov_prev_downsampling self) in
  let* fov_text := Py.fmt_d_num fov in
  let* c := half_up (downsampling self) in
  let* second := Py.sub (fov_prev_downsampling self) (Py.NFloat c) in
  let* second_text := Py.fmt_d_num second in
  Ok (conv_block self deploy fov_text second_text num_output kernel_size dilation,
      conv_state self fov kernel_size dilation).

(** _layer_conv: the line is parsed ([o] and [k] are required, [d] is not),
    then the block is built. *)
Definition _layer_conv (self : MACCNetGenerator) (specs : string) (deploy : bool)
  : res (list entry * MACCNetGenerator) :=
  let data := Py.split (Py.drop_str 5 specs) in
  let* num_output := get_value_int data "o" true in
  let* kernel_size := get_value_int data "k" true in
  let* dilation := get_value_int data "d" false in
  let* k := need kernel_size in
  let* o := need num_output in
  conv_emit self deploy o k dilation.

(** _layer_pool: the state moves to the next scale first, then the banner
    and the pooling block are printed from the new state. *)
Definition _layer_pool (self : MACCNetGenerator) : list entry * MACCNetGenerator :=
  let ds := downsampling self * 2 in
  let nm := String.append "pool_x" (Py.fmt_d ds) in
  let self1 :=
    {| bb_type := bb_type self;
       name := name self;
       radius := radius self;
       circle_ratio := circle_ratio self;
       previous_layer := previous_layer self;
       downsampling := ds;
       new_conv_id := 1;
       last_in_scale := last_in_scale self;
       last_in_scale_fov := last_in_scale_fov self;
       fov_base := 1;
       fov_previous := fov_previous self;
       fov_prev_downsampling := fov_previous self;
       accs := accs self;
       acc_scales := acc_scales self;
       acc_bbs_ideal := acc_bbs_ideal self |} in
  let out :=
    _downsampling self1
    ++ [ Sub "layer"
           [ Field "name" (VStr nm);
             Field "type" (VStr "Pooling");
             Field "bottom" (VStr (previous_layer self1));
             Field "top" (VStr nm);
             Sub "pooling_param"
               [ Field "pool" (VRaw "MAX");
                 Field "kernel_size" (VInt 2);
                 Field "stride" (VInt 2) ] ] ] in
  (out,
   {| bb_type := bb_type self1;
      name := name self1;
      radius := radius self1;
      circle_ratio := circle_ratio self1;
      previous_layer := nm;
      downsampling := downsampling self1;
      new_conv_id := new_conv_id self1;
      last_in_scale := last_in_scale self1;
      last_in_scale_fov := last_in_scale_fov self1;
      fov_base := fov_base self1;
      fov_previous := fov_previous self1;
      fov_prev_downsampling := fov_prev_downsampling self1;
      accs := accs self1;
      acc_scales := acc_scales self1;
      acc_bbs_ideal := acc_bbs_ideal self1 |}).

(** [(2*self.radius+1) * scale * 1/self.circle_ratio]: one division of an
    integer by the circle ratio, a float. *)
Definition bb_ideal_of (self : MACCNetGenerator) (scale : Z) : res Py.float :=
  Py.div_float (Py.NInt ((2 * radius self + 1) * scale * 1)) (circle_ratio self).

(** The two comment lines of an accumulator, of its loss and of its decode
    block, from the field of view and the ideal size as [%d] prints them. *)
Definition scale_comment (scale : Z) (fov : string) : entry :=
  Comment (Py.cat [dashes 23; "  SCALE 1/"%string; Py.fmt_d scale;
                   "  (FOV "%string; fov; " x "%string; fov;
                   ")"%string]).

Definition ideal_comment (bb_ideal : string) : entry :=
  Comment (Py.cat [dashes 23; "  Ideal bounding box size: "%string;
                   bb_ideal; "x"%string;
                   bb_ideal; " px"%string]).

(** [k in d] on a dictionary. *)
Definition has_key {V : Type} (d : gmap Z V) (k : Z) : bool :=
  match d !! k with
  | Some _ => true
  | None => false
  end.

(** The number of output channels of an accumulator. *)
Definition macc_num_output (self : MACCNetGenerator) : Z :=
  if String.eqb (bb_type self) "bb3txt" then 8 else 5.

(** The block of an accumulator, from the field of view and the ideal size
    as [%d] prints them. *)
Definition acc_block (self : MACCNetGenerator) (deploy : bool) (scale : Z)
    (fov_text bb_text bottom : string) : list entry :=
  let nm := String.append "acc_x" (Py.fmt_d scale) in
  [ Sub "layer"
      ([ Comment (String.append (dashes 23) "  ACCUMULATOR");
         scale_comment scale fov_text;
         ideal_comment bb_text;
         Field "name" (VStr nm);
         Field "type" (VStr "Convolution");
         Field "bottom" (VStr bottom);
         Field "top" (VStr nm) ]
       ++ (if deploy then [] else train_params)
       ++ [ Sub "convolution_param"
              ([ Field "num_output" (VInt (macc_num_output self));
                 Field "kernel_size" (VInt 1) ]
               ++ (if deploy then [] else train_fillers)) ]) ].

(** The generator after an accumulator: it only gains the entry of the three
    accumulator lists. *)
Definition acc_state (self : MACCNetGenerator) (scale : Z) (bb_ideal : Py.float)
  : MACCNetGenerator :=
  {| bb_type := bb_type self;
     name := name self;
     radius := radius self;
     circle_ratio := circle_ratio self;
     previous_layer := previous_layer self;
     downsampling := downsampling self;
     new_conv_id := new_conv_id self;
     last_in_scale := last_in_scale self;
     last_in_scale_fov := last_in_scale_fov self;
     fov_base := fov_base self;
     fov_previous := fov_previous self;
     fov_prev_downsampling := fov_prev_downsampling self;
     accs := accs self ++ [String.append "acc_x" (Py.fmt_d scale)];
     acc_scales := acc_scales self ++ [scale];
     acc_bbs_ideal := acc_bbs_ideal self ++ [bb_ideal] |}.

(** _layer_macc: the accumulator block.  The field of view and the ideal
    size are printed on the console before the block is built. *)
Definition _layer_macc (self : MACCNetGenerator) (specs : string) (deploy : bool)
  : res (list entry * MACCNetGenerator) :=
  let data := Py.split (Py.drop_str 5 specs) in
  let* x := get_value_int data "x" true in
  match x with
  | None => Fail (SysExit (CannotCreate specs))
  | Some scale =>
      if negb (has_key (last_in_scale self) scale)
      then Fail (SysExit (CannotCreate specs))
      else
      let* bb_ideal := bb_ideal_of self scale in
      let* fov := getitem (last_in_scale_fov self) scale in
      let* fov_text := Py.fmt_d_num fov in
      let* bb_text := Py.fmt_d_float bb_ideal in
      let* bottom := getitem (last_in_scale self) scale in
      Ok (acc_block self deploy scale fov_text bb_text bottom,
          acc_state self scale bb_ideal)
  end.

(** Runs the computations of a list in order and stops at the first failure. *)
Fixpoint collect {A : Type} (l : list (res A)) : res (list A) :=
  match l with
  | [] => Ok []
  | c :: rest =>
      let* a := c in
      let* r := collect rest in
      Ok (a :: r)
  end.

(** The loss block of the i-th accumulator. *)
Definition loss_layer (self : MACCNetGenerator) (i : nat) : res entry :=
  let* scale := getindex (acc_scales self) i in
  let* fov := getitem (last_in_scale_fov self) scale in
  let* fov_text := Py.fmt_d_num fov in
  let* bb_ideal := getindex (acc_bbs_ideal self) i in
  let* bb_text := Py.fmt_d_float bb_ideal in
  let* acc := getindex (accs self) i in
  let nm := String.append "loss_x" (Py.fmt_d scale) in
  Ok (Sub "layer"
        [ scale_comment scale fov_text;
          ideal_comment bb_text;
          Field "name" (VStr nm);
          Field "type" (VStr (Py.cat ["BB"%string; bb_suffix self; "TXTLoss"%string]));
          Field "bottom" (VStr "label");
          Field "bottom" (VStr acc);
          Field "top" (VStr nm);
          Sub "accumulator_loss_param"
            [ Field "radius" (VInt (radius self));
              Field "downsampling" (VInt scale);
              Field "negative_ratio" (VInt 30);
              Field "circle_ratio" (VFloat (circle_ratio self));
              Field "bounds_overlap" (VRaw "0.33") ] ]).

(** _layer_loss *)
Definition _layer_loss (self : MACCNetGenerator) : res (list entry) :=
  let* ls := collect (List.map (loss_layer self) (seq 0 (length (accs self)))) in
  Ok ([ Blank;
        Comment (Py.cat [dashes 45; " LOSS "%string; dashes 45; " #"%string]) ]
      ++ ls).

(** The decode block of the i-th accumulator. *)
Definition bb_layer (self : MACCNetGenerator) (i : nat) : res entry :=
  let* scale := getindex (acc_scales self) i in
  let* fov := getitem (last_in_scale_fov self) scale in
  let* fov_text := Py.fmt_d_num fov in
  let* bb_ideal := getindex (acc_bbs_ideal self) i in
  let* bb_text := Py.fmt_d_float bb_ideal in
  let* acc := getindex (accs self) i in
  Ok (Sub "layer"
        [ scale_comment scale fov_text;
          ideal_comment bb_text;
          Field "name" (VStr (String.append "bb_x" (Py.fmt_d scale)));
          Field "type" (VStr (Py.cat ["BB"%string; bb_suffix self; "TXTBB"%string]));
          Field "bottom" (VStr acc);
          Field "top" (VStr acc);
          Sub "bbtxt_bb_param"
            [ Field "ideal_size" (VFloat bb_ideal);
              Field "downsampling" (VInt scale) ] ]).

(** _layer_bb *)
Definition _layer_bb (self : MACCNetGenerator) : res (list entry) :=
  let* ls := collect (List.map (bb_layer self) (seq 0 (length (accs self)))) in
  Ok ([ Blank;
        Comment (Py.cat [dashes 46; " BB "%string; dashes 46; " #"%string]) ]
      ++ ls).

(** _layer_input *)
Definition _layer_input : list entry :=
  [ Sub "layer"
      [ Field "name" (VStr "data");
        Field "type" (VStr "Input");
        Field "top" (VStr "data");
        Raw "input_param { shape: { dim: 1 dim: 3 dim: 128 dim: 256 } }" ] ].

(** _layer_data *)
Definition _layer_data (self : MACCNetGenerator) (phase : string) : list entry :=
  [ Sub "layer"
      [ Field "name" (VStr "data");
        Field "type" (VStr (Py.cat ["BB"%string; bb_suffix self; "TXTData"%string]));
        Field "top" (VStr "data");
        Field "top" (VStr "label");
        Sub "include" [ Field "phase" (VRaw phase) ];
        Sub "image_data_param"
          [ Field "source" (VStr EmptyString); Field "batch_size" (VInt 16) ];
        Sub "bbtxt_param"
          [ Field "width" (VInt 256);
            Field "height" (VInt 128);
            Field "reference_size_min" (VInt 60);
            Field "reference_size_max" (VInt 120) ] ] ].

(** _add_layer: dispatch on the first four characters of the line.  The
    result is the content of the output file after the call, and the
    generator or the failure that stopped the run. *)
Definition _add_layer (self : MACCNetGenerator) (line : string)
    (outfile : list entry) (deploy : bool)
  : list entry * res MACCNetGenerator :=
  let layer_type := Py.take_str 4 line in
  if String.eqb layer_type "conv" then
    match _layer_conv self line deploy with
    | Ok (out, self1) => (outfile ++ out ++ _layer_relu self1, Ok self1)
    | Fail f => (outfile, Fail f)
    end
  else if String.eqb layer_type "pool" then
    let '(out, self1) := _layer_pool self in
    (outfile ++ out, Ok self1)
  else if String.eqb layer_type "macc" then
    match _layer_macc self line deploy with
    | Ok (out, self1) => (outfile ++ out, Ok self1)
    | Fail f => (outfile, Fail f)
    end
  else (outfile, Ok self).

(** [for line in lines: self._add_layer(line, outfile, deploy)] *)
Fixpoint add_layers (self : MACCNetGenerator) (lines : list string)
    (outfile : list entry) (deploy : bool)
  : list entry * res MACCNetGenerator :=
  match lines with
  | [] => (outfile, Ok self)
  | line :: rest =>
      match _add_layer self line outfile deploy with
      | (outfile1, Ok self1) => add_layers self1 rest outfile1 deploy
      | (outfile1, Fail f) => (outfile1, Fail f)
      end
  end.

Definition structure_banner : list entry :=
  [ Blank;
    Comment (Py.cat [dashes 38; " NETWORK STRUCTURE "%string; dashes 39; " #"%string]) ].

(** What each [with] block writes before it goes through the lines. *)
Definition train_val_header (self : MACCNetGenerator) : list entry :=
  [ Field "name" (VStr (name self)); Blank ]
  ++ _layer_data self "TRAIN" ++ _layer_data self "TEST"
  ++ structure_banner ++ _downsampling self.

Definition deploy_header (self : MACCNetGenerator) : list entry :=
  [ Field "name" (VStr (name self)); Blank ]
  ++ _layer_input
  ++ structure_banner ++ _downsampling self.

(** The body of the first [with] block: the train_val document. *)
Definition train_val_pass (self : MACCNetGenerator) (lines : list string)
  : list entry * res MACCNetGenerator :=
  let self0 := reset self in
  match add_layers self0 lines (train_val_header self0) false with
  | (outfile1, Ok self1) =>
      match _layer_loss self1 with
      | Ok out => (outfile1 ++ out, Ok self1)
      | Fail f => (outfile1, Fail f)
      end
  | (outfile1, Fail f) => (outfile1, Fail f)
  end.

(** The body of the second [with] block: the deploy document. *)
Definition deploy_pass (self : MACCNetGenerator) (lines : list string)
  : list entry * res MACCNetGenerator :=
  let self0 := reset self in
  match add_layers self0 lines (deploy_header self0) true with
  | (outfile1, Ok self1) =>
      match _layer_bb self1 with
      | Ok out => (outfile1 ++ out, Ok self1)
      | Fail f => (outfile1, Fail f)
      end
  | (outfile1, Fail f) => (outfile1, Fail f)
  end.

(** What a run leaves behind: the files opened for writing, in order, each
    with the content written to it, and how the run ended. *)
Record run := {
  written : list (string * list entry);
  status : res unit
}.

(** __init__: only the two arguments are known. *)
Definition init (bb : string) : MACCNetGenerator :=
  reset {| bb_type := bb; name := EmptyString; radius := 0;
           circle_ratio := Py.FNum (Qmake 0 1); previous_layer := EmptyString;
           downsampling := 0; new_conv_id := 0; last_in_scale := ∅;
           last_in_scale_fov := ∅; fov_base := 0; fov_previous := Py.NInt 0;
           fov_prev_downsampling := Py.NInt 0; accs := []; acc_scales := [];
           acc_bbs_ideal := [] |}.

(** The generator once the first two lines of the configuration are read. *)
Definition configure (self : MACCNetGenerator) (nm : string) (r : Z) (c : Py.float)
  : MACCNetGenerator :=
  {| bb_type := bb_type self;
     name := nm;
     radius := r;
     circle_ratio := c;
     previous_layer := previous_layer self;
     downsampling := downsampling self;
     new_conv_id := new_conv_id self;
     last_in_scale := last_in_scale self;
     last_in_scale_fov := last_in_scale_fov self;
     fov_base := fov_base self;
     fov_previous := fov_previous self;
     fov_prev_downsampling := fov_prev_downsampling self;
     accs := accs self;
     acc_scales := acc_scales self;
     acc_bbs_ideal := acc_bbs_ideal self |}.

(** generate_prototxt_files, on the text of the configuration file.  The
    files are named relative to the output folder.  A required value is never
    None ([get_value_float_required] below), so the TypeError branch is not
    taken. *)
Definition generate_prototxt_files (self : MACCNetGenerator) (config : string) : run :=
  let infile := Py.file_lines config in
  let nm := nth 0 infile EmptyString in
  let data := Py.split (nth 1 infile EmptyString) in
  let lines := skipn 2 infile in
  match get_value_int data "r" true with
  | Fail f => {| written := []; status := Fail f |}
  | Ok r =>
      match get_value_float data "c" true with
      | Fail f => {| written := []; status := Fail f |}
      | Ok c =>
          match r, c with
          | Some r, Some c =>
              let self1 := configure self nm r c in
              let train_file := String.append nm "_train_val.prototxt" in
              let deploy_file := String.append nm "_deploy.prototxt" in
              match train_val_pass self1 lines with
              | (doc1, Fail f) =>
                  {| written := [(train_file, doc1)]; status := Fail f |}
              | (doc1, Ok self2) =>
                  match deploy_pass self2 lines with
                  | (doc2, Fail f) =>
                      {| written := [(train_file, doc1); (deploy_file, doc2)];
                         status := Fail f |}
                  | (doc2, Ok _) =>
                      {| written := [(train_file, doc1); (deploy_file, doc2)];
                         status := Ok tt |}
                  end
              end
          | _, _ => {| written := []; status := Fail TypeError |}
          end
      end
  end.

(** main, after the arguments were checked. *)
Definition main (config : string) (bb : string) : run :=
  generate_prototxt_files (init bb) config.

(** * What the properties are stated with *)

(** ** Configurations and what is read off a document *)

(** A configuration file from its lines. *)
Definition config_of (l : list string) : string :=
  Py.cat (List.map (fun s => String.append s Py.nl) l).

(** The sample of the script's docstring. *)
Definition sample_config : string :=
  config_of [ "my_beautiful_network"; "r1 c0.3";
              "conv k3      o64"; "conv k3  d2  o64"; "pool";
              "conv k3      o128"; "conv k3  d2  o128"; "pool";
              "conv k3      o256"; "conv k3  d2  o256"; "macc x4" ]%string.

(** The names of the layers of a document with one of the given types. *)
Definition names_of_types (tys : list string) (doc : list entry) : list (option value) :=
  List.map layer_name
    (List.filter (fun body => existsb (fun ty => has_type ty body) tys) (layers doc)).

(** The layers both documents share: the network itself. *)
Definition shared_layer_names (doc : list entry) : list (option value) :=
  names_of_types ["Convolution"; "ReLU"; "Pooling"]%string doc.

(** [ceil(ds / 2)] on integers. *)
Definition ceil_half (ds : Z) : Z := Qceiling (Qmake ds 2).

(** The integers up to [2^53], which floats hold exactly. *)
Definition exact_range (z : Z) : Prop := - 2 ^ 53 <= z <= 2 ^ 53.

(** The float that holds the integer [z]. *)
Definition whole (z : Z) : Py.num := Py.NFloat (Py.FNum (Qmake z 1)).

(** A number that holds the integer [z], as an integer or as a float. *)
Definition holds_int (a : Py.num) (z : Z) : Prop :=
  a = Py.NInt z \/ a = whole z.

(** The sizes at which the field of view of a convolution is computed
    without rounding: the downsampling factor [ds] is positive, and [ds],
    the two summands [fb * ds] and [b], their sum, the second summand of the
    comment and the field of view itself are within [2^53]. *)
Definition fov_in_range (fb ds b : Z) : Prop :=
  0 < ds /\ exact_range ds /\
  exact_range (fb * ds) /\ exact_range b /\ exact_range (fb * ds + b) /\
  exact_range (b - ceil_half ds) /\
  exact_range (fb * ds + b - ceil_half ds).

(** A number that [%d] prints. *)
Definition printable (a : Py.num) : Prop :=
  exists text, Py.fmt_d_num a = Ok text.

(** The first line of a block is the comment that reports the field of view
    [fov], as the sum of two numbers. *)
Definition reported_fov (fov : Py.num) (body : list entry) : Prop :=
  exists text a b rest,
    Py.fmt_d_num fov = Ok text /\
    body = Comment (Py.cat [ "-----------------------  FOV "%string; text;
                             " x "%string; text; "  ("%string; a; "+"%string; b;
                             "="%string; text; ")"%string ])
           :: rest.

(** The padding fields of the convolution blocks of a document. *)
Definition conv_pads (doc : list entry) : list (list value) :=
  List.map (fun body =>
              match sub_block "convolution_param" body with
              | Some cp => fields "pad" cp
              | None => []
              end)
           (layers doc).

(** The configuration read from the first two lines is never modified. *)
Definition same_config (a b : MACCNetGenerator) : Prop :=
  bb_type a = bb_type b /\ name a = name b /\
  radius a = radius b /\ circle_ratio a = circle_ratio b.

(** ** An invariant of the generator *)

(** The names the main chain of layers goes through. *)
Definition on_main_chain (nm : string) : Prop :=
  nm = "data"%string \/ String.prefix "conv_x" nm = true \/
  String.prefix "pool_x" nm = true.

(** The two tables have the same keys, the three accumulator lists have the
    same length, every recorded accumulator scale has a field of view, the
    previous layer is the input, a convolution or a pooling layer, and the
    table [last_in_scale] holds names of convolutions.  What was printed
    once can be printed again: the recorded fields of view and ideal sizes.
    The downsampling factor and the recorded scales are positive. *)
Definition consistent (self : MACCNetGenerator) : Prop :=
  (forall k, is_Some (last_in_scale self !! k)
             <-> is_Some (last_in_scale_fov self !! k)) /\
  length (acc_scales self) = length (accs self) /\
  length (acc_bbs_ideal self) = length (accs self) /\
  Forall (fun sc => is_Some (last_in_scale_fov self !! sc)) (acc_scales self) /\
  on_main_chain (previous_layer self) /\
  (forall k nm, last_in_scale self !! k = Some nm ->
                String.prefix "conv_x" nm = true) /\
  (forall k fov, last_in_scale_fov self !! k = Some fov -> printable fov) /\
  Forall (fun bb => printable (Py.NFloat bb)) (acc_bbs_ideal self) /\
  0 < downsampling self /\
  (forall k, is_Some (last_in_scale self !! k) -> 0 < k).

(** ** The scales at which convolutions were emitted *)

(** The downsampling factors at which the convolution directives of a run
    were emitted, in order. *)
Fixpoint conv_scales (self : MACCNetGenerator) (lines : list string) (deploy : bool)
  : list Z :=
  match lines with
  | [] => []
  | line :: rest =>
      match _add_layer self line [] deploy with
      | (_, Ok self1) =>
          (if String.eqb (Py.take_str 4 line) "conv" then [downsampling self] else [])
          ++ conv_scales self1 rest deploy
      | (_, Fail _) => []
      end
  end.

(** ** The demo configuration *)

Definition demo_config : string :=
  config_of [ "demo"; "r1 c0.5"; "conv k3 o8"; "pool"; "macc x2" ]%string.

(** The same with a convolution after the pooling layer. *)
Definition demo_config_conv : string :=
  config_of [ "demo"; "r1 c0.5"; "conv k3 o8"; "pool"; "conv k3 o8"; "macc x2" ]%string.

(** The bottoms of the layers of one type, and the ideal sizes of the decode
    layers. *)
Definition bottoms_of (ty : string) (doc : list entry) : list (list value) :=
  List.map (fields "bottom") (List.filter (has_type ty) (layers doc)).

Definition ideal_sizes (doc : list entry) : list (list value) :=
  List.map (fun body =>
              match sub_block "bbtxt_bb_param" body with
              | Some p => fields "ideal_size" p
              | None => []
              end)
           (List.filter (fun body =>
                           match sub_block "bbtxt_bb_param" body with
                           | Some _ => true
                           | None => false
                           end)
                        (layers doc)).

(** What the round trip is expected to give for a configuration: both
    documents, one pooling block, the convolution block of scale 1 and the
    accumulator of scale 2, its loss and decode blocks, ideal size 12. *)
Definition roundtrip_expected (config : string) : Prop :=
  exists train deploy,
    main config "bbtxt" =
      {| written := [ ("demo_train_val.prototxt"%string, train);
                      ("demo_deploy.prototxt"%string, deploy) ];
         status := Ok tt |} /\
    names_of_types ["Pooling"%string] train = [ Some (VStr "pool_x2") ] /\
    names_of_types ["Convolution"%string] train
      = [ Some (VStr "conv_x1_1"); Some (VStr "acc_x2") ] /\
    bottoms_of "BBTXTLoss" train = [ [VStr "label"; VStr "acc_x2"] ] /\
    bottoms_of "BBTXTBB" deploy = [ [VStr "acc_x2"] ] /\
    ideal_sizes deploy = [ [VFloat (Py.FNum (Qmake 12 1))] ].

(** ** The second line of the configuration *)

(** The characters of the strings [float] takes: those of a decimal
    literal and the letters of [inf], [infinity] and [nan]. *)
Definition float_char (c : ascii) : bool :=
  match Py.digit_of c with
  | Some _ => true
  | None =>
      existsb (Ascii.eqb c) (list_ascii_of_string "+-.eEinftyaINFTYA")
  end.

Fixpoint all_chars (p : ascii -> bool) (s : string) : bool :=
  match s with
  | EmptyString => true
  | String c s' => p c && all_chars p s'
  end.

Definition no_token_starts_with (id : string) (data : list string) : Prop :=
  forall t, In t data -> String.prefix id t = false.

Definition no_token_contains (id : string) (data : list string) : Prop :=
  forall t, In t data -> Py.str_in id t = false.

(** The run ends with the printed error of a missing required value. *)
Definition descriptive_abort (r : run) : Prop :=
  exists id data, status r = Fail (SysExit (RequiredMissing id data)).

(** ** Further notions: runs, blocks, names *)

(** The number of [pool] directives among the lines. *)
Definition pool_count (lines : list string) : nat :=
  length (List.filter (fun line => String.eqb (Py.take_str 4 line) "pool") lines).

(** The number of [macc] directives among the lines, and their scales in
    order, read from the [x] token of each. *)
Definition macc_count (lines : list string) : nat :=
  length (List.filter (fun line => String.eqb (Py.take_str 4 line) "macc") lines).

Definition macc_scales (lines : list string) : list Z :=
  flat_map (fun line =>
              if String.eqb (Py.take_str 4 line) "macc" then
                match get_value_int (Py.split (Py.drop_str 5 line)) "x" true with
                | Ok (Some scale) => [scale]
                | _ => []
                end
              else [])
           lines.

(** The exceptions of the number conversions: of [float] and [int], of an
    integer turned into a float, and of [%d] applied to a float. *)
Definition numeric (f : failure) : Prop :=
  f = ValueError \/ f = OverflowError \/ f = TypeError.

(** The ways a directive can stop a run: a number that cannot be converted
    or printed, a required token that is missing, an accumulator without a
    convolution of its scale, a circle ratio that is zero. *)
Definition directive_failure (self : MACCNetGenerator) (line : string)
    (f : failure) : Prop :=
  numeric f \/
  (exists id, In id ["o"; "k"; "x"]%string /\
              f = SysExit (RequiredMissing id (Py.split (Py.drop_str 5 line)))) \/
  f = SysExit (CannotCreate line) \/
  (f = ZeroDivisionError /\ Py.is_zero (circle_ratio self) = true).

(** The name of the accumulator of a scale. *)
Definition acc_name (scale : Z) : string := String.append "acc_x" (Py.fmt_d scale).

(** The accumulator names are the names of the recorded scales. *)
Definition accs_named (self : MACCNetGenerator) : Prop :=
  accs self = List.map acc_name (acc_scales self).

(** The body of a block. *)
Definition block_body (e : entry) : list entry :=
  match e with
  | Sub _ body => body
  | _ => []
  end.

(** The sub-blocks only the train_val document has. *)
Definition train_only (e : entry) : bool :=
  match e with
  | Sub k _ =>
      (String.eqb k "param" || String.eqb k "weight_filler"
       || String.eqb k "bias_filler")%bool
  | _ => false
  end.

(** An entry without its train-only sub-blocks, at any depth. *)
Fixpoint strip (e : entry) : entry :=
  match e with
  | Sub k body =>
      Sub k (List.filter (fun e' => negb (train_only e')) (List.map strip body))
  | _ => e
  end.

(** The number a sequence of decimal digits stands for, after the digits
    already counted in [acc]. *)
Fixpoint uint_value (d : Decimal.uint) (acc : Z) : Z :=
  match d with
  | Decimal.Nil => acc
  | Decimal.D0 l => uint_value l (10 * acc + 0)
  | Decimal.D1 l => uint_value l (10 * acc + 1)
  | Decimal.D2 l => uint_value l (10 * acc + 2)
  | Decimal.D3 l => uint_value l (10 * acc + 3)
  | Decimal.D4 l => uint_value l (10 * acc + 4)
  | Decimal.D5 l => uint_value l (10 * acc + 5)
  | Decimal.D6 l => uint_value l (10 * acc + 6)
  | Decimal.D7 l => uint_value l (10 * acc + 7)
  | Decimal.D8 l => uint_value l (10 * acc + 8)
  | Decimal.D9 l => uint_value l (10 * acc + 9)
  end.

(** The string does not go on with a digit. *)
Definition no_digit_ahead (s : string) : Prop :=
  match s with
  | EmptyString => True
  | String c _ => Py.digit_of c = None
  end.

(** The span of a [conv] line: its kernel size, or (d+1)*(k-1)+1 with a
    dilation; 0 when the line does not parse. *)
Definition conv_span (line : string) : Z :=
  let data := Py.split (Py.drop_str 5 line) in
  match get_value_int data "k" true, get_value_int data "d" false with
  | Ok (Some k), Ok (Some d) => (d + 1) * (k - 1) + 1
  | Ok (Some k), Ok None => k
  | _, _ => 0
  end.

Definition sum_spans (lines : list string) : Z :=
  fold_right (fun line acc => (conv_span line - 1) + acc) 0 lines.

(** The single string a field of a block holds, if it is one. *)
Definition the_field (key : string) (body : list entry) : option string :=
  match fields key body with
  | [VStr s] => Some s
  | _ => None
  end.

(** Follows the layers of a network from the layer [prev]: a ReLU works in
    place on [prev]; an accumulator reads a convolution and writes itself,
    off the chain; any other layer reads [prev], writes itself and becomes
    the next [prev].  The result is the last layer of the chain, or [None]
    when some layer is wired otherwise. *)
Fixpoint wired (prev : string) (ls : list (list entry)) : option string :=
  match ls with
  | [] => Some prev
  | body :: rest =>
      match the_field "name" body, the_field "type" body,
            the_field "bottom" body, the_field "top" body with
      | Some nm, Some ty, Some b, Some t =>
          if String.eqb ty "ReLU" then
            if (String.eqb b prev && String.eqb t prev)%bool
            then wired prev rest else None
          else if String.prefix "acc_x" nm then
            if (String.prefix "conv_x" b && String.eqb t nm)%bool
            then wired prev rest else None
          else
            if (String.eqb b prev && String.eqb t nm)%bool
            then wired nm rest else None
      | _, _, _, _ => None
      end
  end.

(** The name of the convolution number [id] of scale [ds]. *)
Definition conv_name_of (ds id : Z) : string :=
  Py.cat ["conv_x"%string; Py.fmt_d ds; "_"%string; Py.fmt_d id].

(** The scale and number under which each convolution directive of a run is
    emitted, in order. *)
Fixpoint conv_ids (self : MACCNetGenerator) (lines : list string) (deploy : bool)
  : list (Z * Z) :=
  match lines with
  | [] => []
  | line :: rest =>
      match _add_layer self line [] deploy with
      | (_, Ok self1) =>
          (if String.eqb (Py.take_str 4 line) "conv"
           then [(downsampling self, new_conv_id self)] else [])
          ++ conv_ids self1 rest deploy
      | (_, Fail _) => []
      end
  end.

(** The names of the convolution blocks of a document that are not
    accumulators, in order. *)
Fixpoint conv_names (ls : list (list entry)) : list string :=
  match ls with
  | [] => []
  | body :: rest =>
      match the_field "name" body, the_field "type" body with
      | Some nm, Some ty =>
          if (String.eqb ty "Convolution" && negb (String.prefix "acc_x" nm))%bool
          then nm :: conv_names rest else conv_names rest
      | _, _ => conv_names rest
      end
  end.

(** Order of the pairs (scale, number). *)
Definition before (p q : Z * Z) : Prop :=
  fst p < fst q \/ (fst p = fst q /\ snd p < snd q).

(** Every entry of the two tables stands for a convolution block of the
    document: the block with the recorded name reports the recorded field of
    view. *)
Definition tables_in_document (self : MACCNetGenerator) (doc : list entry) : Prop :=
  forall k nm fov,
    last_in_scale self !! k = Some nm ->
    last_in_scale_fov self !! k = Some fov ->
    exists body,
      In body (layers doc) /\
      the_field "name" body = Some nm /\
      the_field "type" body = Some "Convolution"%string /\
      reported_fov fov body.

(** * Proofs *)

(** One step through the look-ups of a loss or decode block. *)
Ltac lookup_step :=
  match goal with
  | |- context [bind (getindex ?l ?i) _] =>
      destruct (getindex l i); [|discriminate]; cbn [bind]
  | |- context [bind (getitem ?d ?k) _] =>
      destruct (getitem d k); [|discriminate]; cbn [bind]
  | |- context [bind (Py.fmt_d_num ?a) _] =>
      destruct (Py.fmt_d_num a); [|discriminate]; cbn [bind]
  | |- context [bind (Py.fmt_d_float ?a) _] =>
      destruct (Py.fmt_d_float a); [|discriminate]; cbn [bind]
  end.

(** ** Sample runs *)

Example split_demo :
  Py.split (Py.drop_str 5 "conv k3  d2  o64"%string) = ["k3"; "d2"; "o64"]%string.
Proof. reflexivity. Qed.

Example float_demo :
  Py.float_of_string "0.5"%string = Some (Py.FNum (Qmake 1 2)) /\
  Py.float_of_string "3"%string = Some (Py.FNum (Qmake 3 1)) /\
  Py.float_of_string "1.5e1"%string = Some (Py.FNum (Qmake 15 1)) /\
  Py.float_of_string ".25"%string = Some (Py.FNum (Qmake 1 4)) /\
  Py.float_of_string "0.1"%string
    = Some (Py.FNum (Qmake 3602879701896397 36028797018963968)) /\
  Py.float_of_string "9007199254740993"%string
    = Some (Py.FNum (Qmake 9007199254740992 1)) /\
  Py.float_of_string "1e400"%string = Some (Py.FInf false) /\
  Py.float_of_string "1e-400"%string = Some (Py.FNum (Qmake 0 1)) /\
  Py.float_of_string "-Inf"%string = Some (Py.FInf true) /\
  Py.float_of_string "nan"%string = Some Py.FNaN /\
  Py.float_of_string "r1"%string = None /\
  Py.float_of_string "."%string = None.
Proof. repeat split; vm_compute; reflexivity. Qed.

Example fmt_demo :
  Py.fmt_f (Py.FNum (Qmake 1 2)) = "0.500000"%string /\
  Py.fmt_f (Py.FNum (Qmake 12 1)) = "12.000000"%string /\
  option_map Py.fmt_f (Py.float_of_string "0.0000025") = Some "0.000003"%string /\
  option_map Py.fmt_f (Py.float_of_string "1e49")
    = Some "9999999999999999464902769475481793196872414789632.000000"%string /\
  option_map Py.fmt_f (Py.float_of_string "12345678e50") = Some "1.23457e+57"%string /\
  Py.fmt_d_float (Py.FInf false) = Fail TypeError /\
  Py.fmt_d 64 = "64"%string /\
  Py.fmt_3d 2 = "  2"%string /\
  Py.fmt_d_float (Py.FNum (Qmake 30 7)) = Ok "4"%string.
Proof. repeat split; vm_compute; reflexivity. Qed.

(** The division of the ideal size rounds: 7 / 0.28 is just below 25. *)
Example division_demo :
  exists c q,
    Py.float_of_string "0.28"%string = Some c /\
    Py.div_float (Py.NInt 7) c = Ok (Py.FNum q) /\
    Qlt q (Qmake 25 1) /\
    Py.fmt_d_float (Py.FNum q) = Ok "24"%string /\
    Py.fmt_f (Py.FNum q) = "25.000000"%string.
Proof.
  do 2 eexists. split; [vm_compute; reflexivity|].
  split; [vm_compute; reflexivity|].
  split; [reflexivity|]. split; vm_compute; reflexivity.
Qed.

Example sample_run :
  exists train deploy,
    main sample_config "bb3txt" =
      {| written := [ ("my_beautiful_network_train_val.prototxt"%string, train);
                      ("my_beautiful_network_deploy.prototxt"%string, deploy) ];
         status := Ok tt |} /\
    shared_layer_names train =
      List.map (fun s => Some (VStr s))
        [ "conv_x1_1"; "relu_conv_x1_1"; "conv_x1_2"; "relu_conv_x1_2"; "pool_x2";
          "conv_x2_1"; "relu_conv_x2_1"; "conv_x2_2"; "relu_conv_x2_2"; "pool_x4";
          "conv_x4_1"; "relu_conv_x4_1"; "conv_x4_2"; "relu_conv_x4_2"; "acc_x4" ]%string /\
    names_of_types ["BB3TXTLoss"%string] train = [ Some (VStr "loss_x4") ] /\
    names_of_types ["BB3TXTBB"%string] deploy = [ Some (VStr "bb_x4") ].
Proof. eexists. eexists. split; [ vm_compute; reflexivity | vm_compute; auto ]. Qed.

Lemma append_assoc (a b c : string) :
  String.append (String.append a b) c = String.append a (String.append b c).
Proof. induction a as [|ch a IH]; cbn; [reflexivity | f_equal; exact IH]. Qed.

Lemma append_nil_r (a : string) : String.append a EmptyString = a.
Proof. induction a as [|ch a IH]; cbn; [reflexivity | f_equal; exact IH]. Qed.

Lemma prefix_nil (s : string) : String.prefix EmptyString s = true.
Proof. destruct s; reflexivity. Qed.

Lemma prefix_append (a s : string) : String.prefix a (String.append a s) = true.
Proof.
  induction a as [|ch a IH]; cbn; [apply prefix_nil|].
  destruct (ascii_dec ch ch); [exact IH | congruence].
Qed.

(** The text of a block is the text of the script's template. *)
Example relu_text (self : MACCNetGenerator) :
  render_doc (_layer_relu self) =
  Py.cat [ "layer {"%string; Py.nl;
           "  name: "%string; Py.dq; "relu_"%string; previous_layer self; Py.dq; Py.nl;
           "  type: "%string; Py.dq; "ReLU"%string; Py.dq; Py.nl;
           "  bottom: "%string; Py.dq; previous_layer self; Py.dq; Py.nl;
           "  top: "%string; Py.dq; previous_layer self; Py.dq; Py.nl;
           "}"%string; Py.nl ].
Proof.
  unfold render_doc, _layer_relu. cbn.
  repeat (progress (rewrite ?append_assoc, ?append_nil_r; cbn)).
  reflexivity.
Qed.

(** The deploy text of [conv k3 d2 o64] as the first directive. *)
Example conv_text :
  exists out self',
    conv_emit (init "bbtxt") true 64 3 (Some 2) = Ok (out, self') /\
    render_doc out =
    Py.cat [ "layer {"%string; Py.nl;
             "  # -----------------------  FOV 7 x 7  (7+0=7)"%string; Py.nl;
             "  name: "%string; Py.dq; "conv_x1_1"%string; Py.dq; Py.nl;
             "  type: "%string; Py.dq; "Convolution"%string; Py.dq; Py.nl;
             "  bottom: "%string; Py.dq; "data"%string; Py.dq; Py.nl;
             "  top: "%string; Py.dq; "conv_x1_1"%string; Py.dq; Py.nl;
             "  convolution_param {"%string; Py.nl;
             "    num_output: 64"%string; Py.nl;
             "    kernel_size: 3"%string; Py.nl;
             "    pad: 3"%string; Py.nl;
             "    dilation: 3"%string; Py.nl;
             "  }"%string; Py.nl;
             "}"%string; Py.nl ].
Proof. do 2 eexists. split; [vm_compute; reflexivity|]. vm_compute. reflexivity. Qed.

(** The message of an accumulator without convolution. *)
Example cannot_create_text :
  message_text (CannotCreate "macc x2") =
  Py.cat [ "ERROR: Accumulator of this scale cannot be created "%string;
           Py.dq; "macc x2"%string; Py.dq; "!"%string ].
Proof. reflexivity. Qed.

(** ** Floats within 2^53 *)

Lemma Qred_int (z : Z) : Qred (Qmake z 1) = Qmake z 1.
Proof.
  apply Qcanon.Qred_identity. simpl. apply Z.gcd_1_r.
Qed.

Lemma Qred_of_int (q : Q) (z : Z) : Qeq q (Qmake z 1) -> Qred q = Qmake z 1.
Proof.
  intros H. rewrite (Qred_complete _ _ H). apply Qred_int.
Qed.

Lemma round_div_exact (a d : Z) : 0 < d -> Py.round_div (a * d) d = a.
Proof.
  intros Hd. unfold Py.round_div.
  rewrite Z.div_mul by lia. rewrite Z.mod_mul by lia.
  destruct (Z.ltb_spec (2 * 0) d); [reflexivity | lia].
Qed.

Lemma round_div_1 (a : Z) : Py.round_div a 1 = a.
Proof.
  rewrite <- (Z.mul_1_r a) at 1. apply round_div_exact. lia.
Qed.

Lemma not_huge (z : Z) :
  z <= 2 ^ 53 -> Qle_bool (Qmake (2 ^ 1024) 1) (Qmake z 1) = false.
Proof.
  intros H. destruct (Qle_bool _ _) eqn:E; [|reflexivity].
  apply Qle_bool_imp_le in E. unfold Qle in E. simpl in E.
  assert (2 ^ 53 < 2 ^ 1024) by (apply Z.pow_lt_mono_r; lia).
  lia.
Qed.

Lemma ilog2_int (p : positive) : Py.ilog2 p 1 = Z.log2 (Z.pos p).
Proof.
  unfold Py.ilog2. change (Z.log2 1) with 0. rewrite Z.sub_0_r.
  pose proof (Z.log2_nonneg (Z.pos p)) as Hn.
  destruct (Z.leb_spec 0 (Z.log2 (Z.pos p))); [|lia].
  pose proof (Z.log2_spec (Z.pos p) ltac:(lia)) as [Hlo _].
  destruct (Z.leb_spec (1 * 2 ^ Z.log2 (Z.pos p)) (Z.pos p)); [reflexivity | lia].
Qed.

(** An integer of at most 53 bits is a double. *)
Lemma round_mag_int (neg : bool) (p : positive) :
  Z.pos p <= 2 ^ 53 ->
  Py.round_mag neg p 1
  = Py.FNum (if neg then Qopp (Qmake (Z.pos p) 1) else Qmake (Z.pos p) 1).
Proof.
  intros Hp. unfold Py.round_mag. rewrite ilog2_int.
  pose proof (Z.log2_nonneg (Z.pos p)) as Hn.
  pose proof (Z.log2_spec (Z.pos p) ltac:(lia)) as [Hlo Hhi].
  assert (HL : Z.log2 (Z.pos p) <= 53).
  { apply Z.log2_le_mono in Hp. rewrite Z.log2_pow2 in Hp; lia. }
  rewrite Z.max_l by lia.
  set (L := Z.log2 (Z.pos p)) in *.
  destruct (Z.leb_spec 0 (L - 52)) as [Hq|Hq].
  - assert (HL' : L = 52 \/ L = 53) by lia. destruct HL' as [HL'|HL'].
    + rewrite HL'. change (2 ^ (52 - 52)) with 1. rewrite Z.mul_1_l, round_div_1.
      rewrite Z.mul_1_r. change (Z.pos p =? 0) with false. cbv iota.
      rewrite not_huge by assumption. reflexivity.
    + assert (Hp2 : Z.pos p = 2 ^ 53) by (rewrite HL' in Hlo; lia).
      rewrite HL'. rewrite Hp2. destruct neg; vm_compute; reflexivity.
  - rewrite round_div_1.
    assert (Hpow : 0 < 2 ^ (- (L - 52))) by (apply Z.pow_pos_nonneg; lia).
    destruct (Z.eqb_spec (Z.pos p * 2 ^ (- (L - 52))) 0) as [H0|H0]; [nia|].
    assert (Hv : Qred (Qmake (Z.pos p * 2 ^ (- (L - 52))) (Z.to_pos (2 ^ (- (L - 52)))))
                 = Qmake (Z.pos p) 1).
    { apply Qred_of_int. unfold Qeq. simpl. rewrite Z2Pos.id by assumption. lia. }
    rewrite Hv, not_huge by assumption. reflexivity.
Qed.

Lemma round64_int (q : Q) (z : Z) :
  Qeq q (Qmake z 1) -> exact_range z ->
  Py.round64 q = Py.FNum (Qmake z 1).
Proof.
  unfold exact_range. intros Hq Hz. unfold Py.round64. rewrite (Qred_of_int _ _ Hq).
  unfold Py.round_red. simpl Qnum. simpl Qden.
  destruct z as [|p|p].
  - reflexivity.
  - rewrite round_mag_int by lia. reflexivity.
  - rewrite round_mag_int by lia. reflexivity.
Qed.

Lemma ilog2_half (p : positive) :
  Py.ilog2 p 2 = Z.log2 (Z.pos p) - 1.
Proof.
  unfold Py.ilog2. change (Z.log2 2) with 1.
  pose proof (Z.log2_nonneg (Z.pos p)) as Hn.
  pose proof (Z.log2_spec (Z.pos p) ltac:(lia)) as [Hlo _].
  set (L := Z.log2 (Z.pos p)) in *.
  destruct (Z.leb_spec 0 (L - 1)).
  - replace (2 * 2 ^ (L - 1)) with (2 ^ L).
    + destruct (Z.leb_spec (2 ^ L) (Z.pos p)); [reflexivity | lia].
    + replace L with (Z.succ (L - 1)) at 1 by lia. rewrite Z.pow_succ_r by lia. reflexivity.
  - assert (HL0 : L = 0) by lia. rewrite HL0.
    change (2 ^ (- (0 - 1))) with 2.
    destruct (Z.leb_spec 2 (Z.pos p * 2)); [reflexivity | lia].
Qed.

Lemma round_mag_half (p : positive) :
  Z.pos p < 2 ^ 53 ->
  Py.round_mag false p 2 = Py.FNum (Qred (Qmake (Z.pos p) 2)).
Proof.
  intros Hp. unfold Py.round_mag. rewrite ilog2_half.
  pose proof (Z.log2_nonneg (Z.pos p)) as Hn.
  pose proof (Z.log2_spec (Z.pos p) ltac:(lia)) as [Hlo Hhi].
  assert (HL : Z.log2 (Z.pos p) < 53).
  { apply Z.log2_lt_pow2; lia. }
  rewrite Z.max_l by lia.
  set (L := Z.log2 (Z.pos p)) in *.
  destruct (Z.leb_spec 0 (L - 1 - 52)) as [Hq|Hq]; [lia|].
  replace (- (L - 1 - 52)) with (Z.succ (52 - L)) by lia.
  rewrite Z.pow_succ_r by lia.
  assert (Hpow : 0 < 2 ^ (52 - L)) by (apply Z.pow_pos_nonneg; lia).
  replace (Z.pos p * (2 * 2 ^ (52 - L))) with (Z.pos p * 2 ^ (52 - L) * 2) by lia.
  rewrite round_div_exact by lia.
  destruct (Z.eqb_spec (Z.pos p * 2 ^ (52 - L)) 0) as [H0|H0]; [nia|].
  assert (Hv : Qred (Qmake (Z.pos p * 2 ^ (52 - L)) (Z.to_pos (2 * 2 ^ (52 - L))))
               = Qred (Qmake (Z.pos p) 2)).
  { apply Qred_complete. unfold Qeq. simpl. rewrite Z2Pos.id by lia. lia. }
  rewrite Hv.
  destruct (Qle_bool _ _) eqn:E; [|reflexivity].
  apply Qle_bool_imp_le in E. rewrite Qred_correct in E.
  unfold Qle in E. simpl in E.
  assert (2 ^ 53 < 2 ^ 1024) by (apply Z.pow_lt_mono_r; lia).
  lia.
Qed.

(** Half of a positive integer up to [2^53] is a double. *)
Lemma round64_half (q : Q) (z : Z) :
  Qeq q (Qmake z 2) -> 0 < z <= 2 ^ 53 ->
  Py.round64 q = Py.FNum (Qred (Qmake z 2)).
Proof.
  intros Hq Hz. unfold Py.round64. rewrite (Qred_complete _ _ Hq).
  destruct (Z.even z) eqn:He.
  - apply Z.even_spec in He. destruct He as [k ->].
    assert (Hk : Qred (Qmake (2 * k) 2) = Qmake k 1).
    { apply Qred_of_int. unfold Qeq. simpl. lia. }
    rewrite Hk. unfold Py.round_red. simpl Qnum. simpl Qden.
    assert (2 ^ 53 = 2 * 2 ^ 52) by reflexivity.
    destruct k as [|p|p]; [lia| |lia].
    rewrite round_mag_int by lia. reflexivity.
  - assert (Hodd : Z.odd z = true) by (rewrite <- Z.negb_even, He; reflexivity).
    assert (Hid : Qred (Qmake z 2) = Qmake z 2).
    { apply Qcanon.Qred_identity. simpl.
      apply Z.odd_spec in Hodd. destruct Hodd as [k ->].
      rewrite Z.gcd_comm, Z.add_comm, Z.mul_comm, Z.gcd_add_mult_diag_r. reflexivity. }
    rewrite Hid. unfold Py.round_red. simpl Qnum. simpl Qden.
    destruct z as [|p|p]; [lia| |lia].
    rewrite round_mag_half.
    + rewrite Hid. reflexivity.
    + assert (Z.pos p <> 2 ^ 53).
      { intros E. rewrite E in Hodd. vm_compute in Hodd. discriminate. }
      lia.
Qed.

Lemma float_of_int_exact (z : Z) :
  exact_range z -> Py.float_of_int z = Ok (Py.FNum (Qmake z 1)).
Proof.
  intros Hz. unfold Py.float_of_int.
  rewrite (round64_int _ z) by (assumption || reflexivity). reflexivity.
Qed.

Lemma fadd_exact (a b : Z) :
  exact_range (a + b) ->
  Py.fadd (Py.FNum (Qmake a 1)) (Py.FNum (Qmake b 1)) = Py.FNum (Qmake (a + b) 1).
Proof.
  intros H. unfold Py.fadd. apply round64_int; [|assumption].
  unfold Qeq. simpl. lia.
Qed.

Lemma fsub_exact (a b : Z) :
  exact_range (a - b) ->
  Py.fsub (Py.FNum (Qmake a 1)) (Py.FNum (Qmake b 1)) = Py.FNum (Qmake (a - b) 1).
Proof.
  intros H. unfold Py.fsub, Py.fneg. simpl Qnum.
  destruct (Z.eqb_spec b 0) as [->|Hb].
  - rewrite Z.sub_0_r. reflexivity.
  - change (Qopp (Qmake b 1)) with (Qmake (- b) 1).
    rewrite fadd_exact by (replace (a + - b) with (a - b) by lia; assumption).
    replace (a + - b) with (a - b) by lia. reflexivity.
Qed.

Lemma ceil_half_bounds (ds : Z) :
  2 * ceil_half ds - 2 < ds <= 2 * ceil_half ds.
Proof.
  assert (E : ceil_half ds = - ((- ds) / 2)) by reflexivity.
  rewrite E. pose proof (Z.div_mod (- ds) 2 ltac:(lia)) as Hdm.
  pose proof (Z.mod_pos_bound (- ds) 2 ltac:(lia)) as Hb. lia.
Qed.

(** [ceil(ds/2.0)] is the float of [ceil(ds/2)]. *)
Lemma half_up_exact (ds : Z) :
  0 < ds -> exact_range ds ->
  half_up ds = Ok (Py.FNum (Qmake (ceil_half ds) 1)).
Proof.
  intros Hpos Hr. unfold half_up, Py.div_float, Py.to_float.
  rewrite float_of_int_exact by assumption. cbn [bind].
  unfold Py.fdiv. change (Py.is_zero Py.two) with false. cbv iota.
  unfold Py.two. simpl Qnum.
  destruct (Z.eqb_spec ds 0) as [E|_]; [lia|].
  rewrite (round64_half _ ds); [|unfold Qeq; simpl; lia|unfold exact_range in Hr; lia].
  cbn [bind]. unfold Py.ceil.
  assert (Hc : Qceiling (Qred (Qmake ds 2)) = ceil_half ds).
  { unfold ceil_half. apply Qceiling_comp. apply Qred_correct. }
  rewrite Hc. pose proof (ceil_half_bounds ds) as Hb.
  destruct (Z.eqb_spec (ceil_half ds) 0) as [E|_]; [lia|]. reflexivity.
Qed.

(** Within [2^53] the field of view is computed without rounding. *)
Lemma conv_fov_exact (fb ds b : Z) (prev : Py.num) :
  holds_int prev b -> fov_in_range fb ds b ->
  conv_fov fb ds prev = Ok (whole (fb * ds + b - ceil_half ds)) /\
  Py.sub prev (Py.NFloat (Py.FNum (Qmake (ceil_half ds) 1)))
  = Ok (whole (b - ceil_half ds)).
Proof.
  intros Hprev (Hpos & Hds & Ha & Hb & Hab & Hbc & Hfov).
  unfold conv_fov. rewrite half_up_exact by assumption.
  destruct Hprev as [-> | ->]; unfold whole, Py.add, Py.sub, Py.to_float; cbn [bind].
  - rewrite !float_of_int_exact by assumption. cbn [bind].
    rewrite !fsub_exact by assumption. split; reflexivity.
  - rewrite float_of_int_exact by assumption. cbn [bind].
    rewrite fadd_exact by assumption.
    rewrite !fsub_exact by assumption. split; reflexivity.
Qed.

Lemma fmt_whole (z : Z) : Py.fmt_d_num (whole z) = Ok (Py.fmt_d z).
Proof.
  unfold whole, Py.fmt_d_num, Py.fmt_d_float, Py.int_of_float. simpl Qnum. simpl Qden.
  rewrite Z.quot_1_r. reflexivity.
Qed.

(** ** Properties of the token readers *)

Lemma get_value_float_required (data : list string) (id : string) :
  get_value_float data id true <> Ok None.
Proof.
  unfold get_value_float.
  destruct (List.find _ data) as [val|]; [|discriminate].
  destruct (Py.float_of_string _); discriminate.
Qed.

Lemma get_value_int_required (data : list string) (id : string) :
  get_value_int data id true <> Ok None.
Proof.
  unfold get_value_int.
  pose proof (get_value_float_required data id) as H.
  destruct (get_value_float data id true) as [[x|]|f]; cbn [bind]; [|congruence|discriminate].
  destruct (Py.int_of_float x); discriminate.
Qed.

(** ** Directives the script does not know *)

(** C7. A line whose first four characters are none of [conv], [pool] and
    [macc] writes nothing to the output file, stops nothing and leaves the
    generator as it was. *)
Theorem unknown_tag_is_skipped (self : MACCNetGenerator) (line : string)
    (outfile : list entry) (deploy : bool) :
  Py.take_str 4 line <> "conv"%string ->
  Py.take_str 4 line <> "pool"%string ->
  Py.take_str 4 line <> "macc"%string ->
  _add_layer self line outfile deploy = (outfile, Ok self).
Proof.
  intros Hc Hp Hm. unfold _add_layer.
  apply String.eqb_neq in Hc, Hp, Hm.
  now rewrite Hc, Hp, Hm.
Qed.

Lemma unknown_tag_is_skipped_witness :
  Py.take_str 4 "relu k3" <> "conv"%string /\
  Py.take_str 4 "relu k3" <> "pool"%string /\
  Py.take_str 4 "relu k3" <> "macc"%string /\
  _add_layer (init "bbtxt") "relu k3" [Blank] true = ([Blank], Ok (init "bbtxt")).
Proof.
  assert (H1 : Py.take_str 4 "relu k3" <> "conv"%string) by (cbn; discriminate).
  assert (H2 : Py.take_str 4 "relu k3" <> "pool"%string) by (cbn; discriminate).
  assert (H3 : Py.take_str 4 "relu k3" <> "macc"%string) by (cbn; discriminate).
  split; [exact H1|]. split; [exact H2|]. split; [exact H3|].
  exact (unknown_tag_is_skipped (init "bbtxt") "relu k3" [Blank] true H1 H2 H3).
Defined.

(** ** Pooling *)

(** What a convolution that is emitted went through. *)
Lemma conv_emit_inv (self self' : MACCNetGenerator) (deploy : bool)
    (o k : Z) (d : option Z) (out : list entry) :
  conv_emit self deploy o k d = Ok (out, self') ->
  exists fov fov_text c second second_text,
    conv_fov (conv_fov_base self k d) (downsampling self) (fov_prev_downsampling self)
      = Ok fov /\
    Py.fmt_d_num fov = Ok fov_text /\
    half_up (downsampling self) = Ok c /\
    Py.sub (fov_prev_downsampling self) (Py.NFloat c) = Ok second /\
    Py.fmt_d_num second = Ok second_text /\
    out = conv_block self deploy fov_text second_text o k d /\
    self' = conv_state self fov k d.
Proof.
  unfold conv_emit. intros H.
  destruct (conv_fov _ _ _) as [fov|] eqn:Hf; [|discriminate]. cbn [bind] in H.
  destruct (Py.fmt_d_num fov) as [fov_text|] eqn:Hft; [|discriminate]. cbn [bind] in H.
  destruct (half_up _) as [c|] eqn:Hc; [|discriminate]. cbn [bind] in H.
  destruct (Py.sub _ _) as [second|] eqn:Hs; [|discriminate]. cbn [bind] in H.
  destruct (Py.fmt_d_num second) as [second_text|] eqn:Hst; [|discriminate].
  cbn [bind] in H. injection H as <- <-.
  exists fov, fov_text, c, second, second_text.
  repeat split; assumption.
Qed.

Lemma layer_conv_inv (self self' : MACCNetGenerator) (specs : string)
    (deploy : bool) (out : list entry) :
  _layer_conv self specs deploy = Ok (out, self') ->
  exists o k dilation,
    get_value_int (Py.split (Py.drop_str 5 specs)) "o" true = Ok (Some o) /\
    get_value_int (Py.split (Py.drop_str 5 specs)) "k" true = Ok (Some k) /\
    get_value_int (Py.split (Py.drop_str 5 specs)) "d" false = Ok dilation /\
    conv_emit self deploy o k dilation = Ok (out, self').
Proof.
  unfold _layer_conv. intros H.
  destruct (get_value_int _ "o" true) as [o|]; [|discriminate].
  destruct (get_value_int _ "k" true) as [k|]; [|discriminate].
  destruct (get_value_int _ "d" false) as [d|]; [|discriminate].
  destruct k as [k|]; [|discriminate].
  destruct o as [o|]; [|discriminate].
  cbn [bind need] in H.
  exists o, k, d. repeat split; congruence.
Qed.

(** The state and the block of an emitted convolution, in one step. *)
Lemma layer_conv_emitted (self self' : MACCNetGenerator) (specs : string)
    (deploy : bool) (out : list entry) :
  _layer_conv self specs deploy = Ok (out, self') ->
  exists o k d fov fov_text second_text,
    get_value_int (Py.split (Py.drop_str 5 specs)) "o" true = Ok (Some o) /\
    get_value_int (Py.split (Py.drop_str 5 specs)) "k" true = Ok (Some k) /\
    get_value_int (Py.split (Py.drop_str 5 specs)) "d" false = Ok d /\
    conv_fov (conv_fov_base self k d) (downsampling self) (fov_prev_downsampling self)
      = Ok fov /\
    Py.fmt_d_num fov = Ok fov_text /\
    out = conv_block self deploy fov_text second_text o k d /\
    self' = conv_state self fov k d.
Proof.
  intros H. apply layer_conv_inv in H as (o & k & d & Ho & Hk & Hd & H).
  apply conv_emit_inv in H
    as (fov & fov_text & c & second & second_text & Hf & Hft & _ & _ & _ & -> & ->).
  exists o, k, d, fov, fov_text, second_text. repeat split; assumption.
Qed.

Lemma layer_conv_reports_fov (self0 self : MACCNetGenerator) (specs : string)
    (deploy : bool) (out : list entry) :
  _layer_conv self0 specs deploy = Ok (out, self) ->
  (exists body, out = [ Sub "layer" body ] /\ reported_fov (fov_previous self) body) /\
  last_in_scale_fov self !! downsampling self0 = Some (fov_previous self).
Proof.
  intros H.
  apply layer_conv_emitted in H
    as (o & k & d & fov & fov_text & second_text & _ & _ & _ & _ & Hft & -> & ->).
  split.
  - eexists. split; [reflexivity|].
    exists fov_text. do 3 eexists. split; [exact Hft|]. reflexivity.
  - cbn [last_in_scale_fov fov_previous conv_state]. apply lookup_insert_eq.
Qed.

(** C6. A [pool] directive doubles the downsampling factor, restarts the
    numbering of the convolutions at 1 (the next one is [conv_x<2s>_1]), sets
    [fov_base] to 1 and [fov_prev_downsampling] to the last field of view
    computed, which is the one reported by the convolution just before the
    pool when there is one, and writes a MAX pooling block with kernel size 2
    and stride 2. *)
Theorem pool_directive (self : MACCNetGenerator) (line : string)
    (outfile : list entry) (deploy : bool) :
  Py.take_str 4 line = "pool"%string ->
  exists banner body self',
    _add_layer self line outfile deploy
      = (outfile ++ [banner; Sub "layer" body], Ok self') /\
    downsampling self' = 2 * downsampling self /\
    new_conv_id self' = 1 /\
    conv_name self' =
      Py.cat ["conv_x"; Py.fmt_d (2 * downsampling self); "_1"]%string /\
    fov_base self' = 1 /\
    fov_prev_downsampling self' = fov_previous self /\
    (forall self0 specs dep out0,
        _layer_conv self0 specs dep = Ok (out0, self) ->
        exists block,
          out0 = [ Sub "layer" block ] /\
          reported_fov (fov_prev_downsampling self') block) /\
    has_type "Pooling" body = true /\
    sub_block "pooling_param" body =
      Some [ Field "pool" (VRaw "MAX");
             Field "kernel_size" (VInt 2);
             Field "stride" (VInt 2) ].
Proof.
  intros Htag. unfold _add_layer. rewrite Htag. cbn [String.eqb Ascii.eqb Bool.eqb].
  unfold _layer_pool, _downsampling.
  do 3 eexists. split; [reflexivity|].
  cbn [downsampling new_conv_id fov_base fov_prev_downsampling].
  repeat split; try reflexivity; try lia.
  - unfold conv_name. cbn [downsampling new_conv_id].
    replace (downsampling self * 2) with (2 * downsampling self) by lia.
    reflexivity.
  - intros self0 specs dep out0 H.
    destruct (layer_conv_reports_fov _ _ _ _ _ H) as ((block & -> & Hrep) & _).
    now exists block.
Qed.

Lemma pool_directive_witness :
  Py.take_str 4 "pool" = "pool"%string /\
  exists banner body self',
    _add_layer (init "bbtxt") "pool" [] false
      = ([banner; Sub "layer" body], Ok self') /\
    downsampling self' = 2 /\
    conv_name self' = "conv_x2_1"%string.
Proof.
  split; [reflexivity|].
  destruct (pool_directive (init "bbtxt") "pool" [] false eq_refl)
    as (banner & body & self' & Hrun & Hds & _ & Hname & _).
  exists banner, body, self'.
  split; [exact Hrun|]. split; [exact Hds|]. exact Hname.
Defined.

(** ** Convolutions: field of view and padding *)

(** The field of view of [conv k9007199254740994 o1] as the first directive
    is 9007199254740994 * 1 + 1 - 1 = 9007199254740994 by the formula; the
    script, which computes it in floats, reports 9007199254740996. *)
Lemma conv_field_of_view_beyond_2_53 :
  exists out self' rest,
    _layer_conv (init "bbtxt") "conv k9007199254740994 o1" true = Ok (out, self') /\
    fov_base self' = 9007199254740994 /\
    downsampling (init "bbtxt") = 1 /\
    fov_prev_downsampling (init "bbtxt") = Py.NInt 1 /\
    fov_base self' * 1 + 1 - ceil_half 1 = 9007199254740994 /\
    fov_previous self' = whole 9007199254740996 /\
    fov_previous self' <> whole (fov_base self' * 1 + 1 - ceil_half 1) /\
    last_in_scale_fov self' !! 1 = Some (whole 9007199254740996) /\
    out = [ Sub "layer"
              (Comment "-----------------------  FOV 9007199254740996 x 9007199254740996  (9007199254740994+0=9007199254740996)"
               :: rest) ].
Proof.
  do 3 eexists. split; [vm_compute; reflexivity|].
  split; [reflexivity|]. split; [reflexivity|]. split; [reflexivity|].
  split; [reflexivity|]. split; [reflexivity|].
  split; [intros H; vm_compute in H; discriminate|].
  split; reflexivity.
Qed.

(** C1. A convolution with kernel size k and optional dilation d moves
    [fov_base] to [fov_base - 1 + span], where span is k without dilation and
    (d+1)*(k-1)+1 with it.  The field of view it reports (in the comment of
    the block, in [fov_previous] and in the table of its scale) is computed
    in floats; when [fov_prev_downsampling] holds an integer and the numbers
    are within 2^53 it is
    [fov_base * downsampling + fov_prev_downsampling - ceil(downsampling/2)].
    After [conv k3 o64] and [conv k3 d2 o64] the second layer reports 9. *)
Theorem conv_field_of_view (self self' : MACCNetGenerator) (specs : string)
    (deploy : bool) (out : list entry) (k : Z) (dilation : option Z) (b : Z) :
  get_value_int (Py.split (Py.drop_str 5 specs)) "k" true = Ok (Some k) ->
  get_value_int (Py.split (Py.drop_str 5 specs)) "d" false = Ok dilation ->
  _layer_conv self specs deploy = Ok (out, self') ->
  holds_int (fov_prev_downsampling self) b ->
  let span := match dilation with
              | Some d => (d + 1) * (k - 1) + 1
              | None => k
              end in
  let c := ceil_half (downsampling self) in
  let fov := fov_base self' * downsampling self + b - c in
  fov_in_range (fov_base self - 1 + span) (downsampling self) b ->
  fov_base self' = fov_base self - 1 + span /\
  2 * c - 2 < downsampling self <= 2 * c /\
  fov_previous self' = whole fov /\
  last_in_scale_fov self' !! downsampling self = Some (whole fov) /\
  (exists rest,
      out = [ Sub "layer"
                (Comment (Py.cat [ "-----------------------  FOV "%string;
                                   Py.fmt_d fov; " x "%string; Py.fmt_d fov;
                                   "  ("%string;
                                   Py.fmt_d (fov_base self' * downsampling self);
                                   "+"%string; Py.fmt_d (b - c); "="%string;
                                   Py.fmt_d fov; ")"%string ])
                 :: rest) ]) /\
  (exists doc s first relu1 second relu2,
      add_layers (init "bbtxt") ["conv k3 o64"; "conv k3 d2 o64"]%string [] true
        = (doc, Ok s) /\
      layers doc = [first; relu1; second; relu2] /\
      reported_fov (whole 3) first /\ reported_fov (whole 9) second /\
      fov_previous s = whole 9 /\ downsampling s = 1).
Proof.
  intros Hk Hd H Hprev span c fov Hrange.
  apply layer_conv_inv in H as (o & k' & d' & _ & Hk' & Hd' & H).
  rewrite Hk in Hk'. rewrite Hd in Hd'.
  injection Hk' as <-. injection Hd' as <-.
  assert (Hfb : conv_fov_base self k dilation = fov_base self - 1 + span).
  { unfold conv_fov_base, span. destruct dilation; reflexivity. }
  apply conv_emit_inv in H
    as (fov0 & fov_text & c0 & second & second_text
        & Hf & Hft & Hc & Hs & Hst & -> & ->).
  rewrite Hfb in Hf.
  destruct (conv_fov_exact _ _ _ _ Hprev Hrange) as [Hf' Hs'].
  rewrite Hf' in Hf. injection Hf as <-.
  destruct Hrange as (Hpos & Hds & _).
  rewrite (half_up_exact _ Hpos Hds) in Hc. injection Hc as <-.
  fold c in Hs'. fold c in Hs. rewrite Hs' in Hs. injection Hs as <-.
  rewrite fmt_whole in Hft, Hst. injection Hft as <-. injection Hst as <-.
  cbn [fov_base fov_previous last_in_scale_fov conv_state].
  unfold fov. cbn [fov_base conv_state]. rewrite Hfb.
  split; [reflexivity|].
  split; [apply ceil_half_bounds|].
  split; [reflexivity|].
  split; [apply lookup_insert_eq|].
  split.
  - eexists. unfold conv_block, fov_comment. rewrite Hfb. reflexivity.
  - do 6 eexists. split; [vm_compute; reflexivity|].
    split; [reflexivity|].
    split; [exists "3"%string, "3"%string, "0"%string; eexists;
            split; [reflexivity | reflexivity]|].
    split; [exists "9"%string, "9"%string, "0"%string; eexists;
            split; [reflexivity | reflexivity]|].
    split; reflexivity.
Qed.

Lemma conv_field_of_view_witness :
  get_value_int (Py.split (Py.drop_str 5 "conv k3 d2 o64")) "k" true = Ok (Some 3) /\
  get_value_int (Py.split (Py.drop_str 5 "conv k3 d2 o64")) "d" false = Ok (Some 2) /\
  holds_int (fov_prev_downsampling (init "bbtxt")) 1 /\
  fov_in_range (fov_base (init "bbtxt") - 1 + ((2 + 1) * (3 - 1) + 1))
    (downsampling (init "bbtxt")) 1 /\
  exists out self',
    _layer_conv (init "bbtxt") "conv k3 d2 o64" false = Ok (out, self') /\
    fov_base self' = 7 /\ fov_previous self' = whole 7.
Proof.
  assert (Hprev : holds_int (fov_prev_downsampling (init "bbtxt")) 1)
    by (left; reflexivity).
  assert (Hrange : fov_in_range (fov_base (init "bbtxt") - 1 + ((2 + 1) * (3 - 1) + 1))
                     (downsampling (init "bbtxt")) 1)
    by (repeat split; vm_compute; congruence).
  split; [reflexivity|]. split; [reflexivity|].
  split; [exact Hprev|]. split; [exact Hrange|].
  destruct (_layer_conv (init "bbtxt") "conv k3 d2 o64" false) as [[out self']|f] eqn:Hrun;
    [|vm_compute in Hrun; discriminate].
  exists out, self'. split; [reflexivity|].
  destruct (conv_field_of_view _ _ "conv k3 d2 o64" false _ 3 (Some 2) 1
              eq_refl eq_refl Hrun Hprev Hrange) as (Hb & _ & Hf & _).
  split; [exact Hb|]. rewrite Hf, Hb. reflexivity.
Defined.

(** C2. For a kernel size k >= 1 the convolution block carries the padding
    floor((k-1)/2) without dilation and floor((k-1)/2) * (d+1) with dilation
    d; the integer division of the script is the floor, which for these k is
    also the truncation.  A single [conv k3 o64] has padding 1. *)
Theorem conv_padding (self self' : MACCNetGenerator) (specs : string)
    (deploy : bool) (out : list entry) (k : Z) (dilation : option Z) :
  1 <= k ->
  get_value_int (Py.split (Py.drop_str 5 specs)) "k" true = Ok (Some k) ->
  get_value_int (Py.split (Py.drop_str 5 specs)) "d" false = Ok dilation ->
  _layer_conv self specs deploy = Ok (out, self') ->
  let half := (k - 1) / 2 in
  (2 * half <= k - 1 < 2 * half + 2 /\ half = Z.quot (k - 1) 2) /\
  (exists body cp,
      out = [Sub "layer" body] /\
      sub_block "convolution_param" body = Some cp /\
      fields "pad" cp =
        [ VInt match dilation with
               | Some d => half * (d + 1)
               | None => half
               end ]) /\
  (exists doc s,
      add_layers (init "bbtxt") ["conv k3 o64"]%string [] false = (doc, Ok s) /\
      conv_pads doc = [ [VInt 1]; [] ]).
Proof.
  intros Hpos Hk Hd H half.
  apply layer_conv_emitted in H
    as (o & k' & d' & fov & fov_text & second_text & _ & Hk' & Hd' & _ & _ & -> & _).
  rewrite Hk in Hk'. rewrite Hd in Hd'.
  injection Hk' as <-. injection Hd' as <-.
  split; [|split].
  - unfold half. split.
    + pose proof (Z.div_mod (k - 1) 2 ltac:(lia)) as Hdm.
      pose proof (Z.mod_pos_bound (k - 1) 2 ltac:(lia)) as Hb. lia.
    + symmetry. apply Z.quot_div_nonneg; lia.
  - unfold conv_block, conv_pad, half.
    destruct deploy; do 2 eexists; (split; [reflexivity|]);
      (split; [reflexivity|]); destruct dilation; reflexivity.
  - do 2 eexists. split; [vm_compute; reflexivity|]. reflexivity.
Qed.

Lemma conv_padding_witness :
  1 <= 3 /\
  get_value_int (Py.split (Py.drop_str 5 "conv k3 d2 o64")) "k" true = Ok (Some 3) /\
  get_value_int (Py.split (Py.drop_str 5 "conv k3 d2 o64")) "d" false = Ok (Some 2) /\
  exists out self' body cp,
    _layer_conv (init "bbtxt") "conv k3 d2 o64" true = Ok (out, self') /\
    out = [Sub "layer" body] /\
    sub_block "convolution_param" body = Some cp /\
    fields "pad" cp = [VInt 3].
Proof.
  split; [lia|]. split; [reflexivity|]. split; [reflexivity|].
  destruct (_layer_conv (init "bbtxt") "conv k3 d2 o64" true) as [[out self']|f] eqn:Hrun;
    [|vm_compute in Hrun; discriminate].
  destruct (conv_padding _ _ "conv k3 d2 o64" true _ 3 (Some 2)
              ltac:(lia) eq_refl eq_refl Hrun) as (_ & (body & cp & Ho & Hs & Hp) & _).
  exists out, self', body, cp.
  split; [reflexivity|]. split; [exact Ho|]. split; [exact Hs|]. exact Hp.
Defined.

(** ** Runs of directives *)

(** What one directive appends to the output file does not depend on what
    the file holds already. *)
Lemma add_layer_outfile (self : MACCNetGenerator) (line : string)
    (outfile : list entry) (deploy : bool) :
  _add_layer self line outfile deploy =
    (outfile ++ fst (_add_layer self line [] deploy),
     snd (_add_layer self line [] deploy)).
Proof.
  unfold _add_layer.
  destruct (String.eqb _ "conv").
  { destruct (_layer_conv self line deploy) as [[out s]|f]; cbn;
      [reflexivity | now rewrite app_nil_r]. }
  destruct (String.eqb _ "pool").
  { destruct (_layer_pool self) as [out s]; reflexivity. }
  destruct (String.eqb _ "macc").
  { destruct (_layer_macc self line deploy) as [[out s]|f]; cbn;
      [reflexivity | now rewrite app_nil_r]. }
  cbn. now rewrite app_nil_r.
Qed.

(** A failed directive writes nothing. *)
Lemma add_layer_fail (self : MACCNetGenerator) (line : string)
    (outfile out1 : list entry) (deploy : bool) (f : failure) :
  _add_layer self line outfile deploy = (out1, Fail f) -> out1 = outfile.
Proof.
  unfold _add_layer.
  destruct (String.eqb _ "conv").
  { destruct (_layer_conv self line deploy) as [[out s]|f']; congruence. }
  destruct (String.eqb _ "pool").
  { destruct (_layer_pool self) as [out s]; congruence. }
  destruct (String.eqb _ "macc").
  { destruct (_layer_macc self line deploy) as [[out s]|f']; congruence. }
  congruence.
Qed.

(** Inversion of a successful accumulator directive. *)
Lemma layer_macc_inv (self self' : MACCNetGenerator) (specs : string)
    (deploy : bool) (out : list entry) :
  _layer_macc self specs deploy = Ok (out, self') ->
  exists scale bb fov fov_text bb_text bottom,
    get_value_int (Py.split (Py.drop_str 5 specs)) "x" true = Ok (Some scale) /\
    bb_ideal_of self scale = Ok bb /\
    last_in_scale_fov self !! scale = Some fov /\
    Py.fmt_d_num fov = Ok fov_text /\
    Py.fmt_d_float bb = Ok bb_text /\
    last_in_scale self !! scale = Some bottom /\
    out = acc_block self deploy scale fov_text bb_text bottom /\
    self' = acc_state self scale bb.
Proof.
  unfold _layer_macc. intros H.
  destruct (get_value_int _ "x" true) as [[scale|]|] eqn:Hx; try discriminate.
  cbn [bind] in H. unfold has_key, getitem in H.
  destruct (last_in_scale self !! scale) as [bottom|] eqn:Hb; [|discriminate].
  cbn [negb] in H.
  destruct (bb_ideal_of self scale) as [bb|] eqn:Hbb; [|discriminate].
  cbn [bind] in H.
  destruct (last_in_scale_fov self !! scale) as [fov|] eqn:Hf; [|discriminate].
  cbn [bind] in H.
  destruct (Py.fmt_d_num fov) as [fov_text|] eqn:Hft; [|discriminate].
  cbn [bind] in H.
  destruct (Py.fmt_d_float bb) as [bb_text|] eqn:Hbt; [|discriminate].
  cbn [bind] in H. injection H as <- <-.
  exists scale, bb, fov, fov_text, bb_text, bottom.
  repeat split; assumption.
Qed.

(** An accumulator directive goes through when its scale has a convolution,
    the division gives a float and both numbers can be printed. *)
Lemma layer_macc_ok (self : MACCNetGenerator) (specs : string) (deploy : bool)
    (scale : Z) (bb : Py.float) (fov : Py.num) (fov_text bb_text bottom : string) :
  get_value_int (Py.split (Py.drop_str 5 specs)) "x" true = Ok (Some scale) ->
  bb_ideal_of self scale = Ok bb ->
  last_in_scale_fov self !! scale = Some fov ->
  Py.fmt_d_num fov = Ok fov_text ->
  Py.fmt_d_float bb = Ok bb_text ->
  last_in_scale self !! scale = Some bottom ->
  _layer_macc self specs deploy
  = Ok (acc_block self deploy scale fov_text bb_text bottom, acc_state self scale bb).
Proof.
  intros Hx Hbb Hf Hft Hbt Hb. unfold _layer_macc.
  rewrite Hx. cbn [bind]. unfold has_key, getitem. rewrite Hb. cbn [negb].
  rewrite Hbb. cbn [bind]. rewrite Hf. cbn [bind]. rewrite Hft. cbn [bind].
  rewrite Hbt. reflexivity.
Qed.

Lemma same_config_refl (a : MACCNetGenerator) : same_config a a.
Proof. repeat split. Qed.

Lemma same_config_trans (a b c : MACCNetGenerator) :
  same_config a b -> same_config b c -> same_config a c.
Proof. unfold same_config. intuition congruence. Qed.

Lemma same_config_reset (a : MACCNetGenerator) : same_config a (reset a).
Proof. repeat split. Qed.

Lemma add_layer_config (self self' : MACCNetGenerator) (line : string)
    (outfile out1 : list entry) (deploy : bool) :
  _add_layer self line outfile deploy = (out1, Ok self') -> same_config self self'.
Proof.
  unfold _add_layer.
  destruct (String.eqb _ "conv").
  { destruct (_layer_conv self line deploy) as [[out s]|f] eqn:E; [|discriminate].
    intros [= _ <-].
    apply layer_conv_emitted in E
      as (o & k & d & fov & ft & st & _ & _ & _ & _ & _ & _ & ->).
    repeat split. }
  destruct (String.eqb _ "pool").
  { unfold _layer_pool. intros [= _ <-]. repeat split. }
  destruct (String.eqb _ "macc").
  { destruct (_layer_macc self line deploy) as [[out s]|f] eqn:E; [|discriminate].
    intros [= _ <-].
    apply layer_macc_inv in E
      as (scale & bb & fov & ft & bt & bottom & _ & _ & _ & _ & _ & _ & _ & ->).
    repeat split. }
  intros [= _ <-]. apply same_config_refl.
Qed.

Lemma add_layers_config (lines : list string) :
  forall (self self' : MACCNetGenerator) (outfile out1 : list entry) (deploy : bool),
    add_layers self lines outfile deploy = (out1, Ok self') -> same_config self self'.
Proof.
  induction lines as [|line rest IH]; intros self self' outfile out1 deploy; cbn.
  - intros [= _ <-]. apply same_config_refl.
  - destruct (_add_layer self line outfile deploy) as [o [s|f]] eqn:E; [|discriminate].
    intros H. eapply same_config_trans.
    + eapply add_layer_config, E.
    + eapply IH, H.
Qed.

(** A run over [pre ++ post] is the run over [pre] followed by the run over
    [post]; a run that stops in [pre] stops there. *)
Lemma add_layers_app (pre : list string) :
  forall (post : list string) (self : MACCNetGenerator) (outfile : list entry)
         (deploy : bool),
    add_layers self (pre ++ post) outfile deploy =
      match add_layers self pre outfile deploy with
      | (out1, Ok self1) => add_layers self1 post out1 deploy
      | (out1, Fail f) => (out1, Fail f)
      end.
Proof.
  induction pre as [|line rest IH]; intros post self outfile deploy; cbn.
  - reflexivity.
  - destruct (_add_layer self line outfile deploy) as [o [s|f]]; [apply IH | reflexivity].
Qed.

Lemma insert_keys_agree {A B : Type} (m : gmap Z A) (m' : gmap Z B)
    (i k : Z) (x : A) (y : B) :
  (is_Some (m !! k) <-> is_Some (m' !! k)) ->
  (is_Some (<[i:=x]> m !! k) <-> is_Some (<[i:=y]> m' !! k)).
Proof. rewrite !lookup_insert_is_Some. tauto. Qed.

Lemma consistent_reset (self : MACCNetGenerator) : consistent (reset self).
Proof.
  unfold consistent; cbn. repeat split; try reflexivity.
  - rewrite lookup_empty. intros [? ?]; discriminate.
  - rewrite lookup_empty. intros [? ?]; discriminate.
  - constructor.
  - now left.
  - intros k nm. rewrite lookup_empty. discriminate.
  - intros k fov. rewrite lookup_empty. discriminate.
  - constructor.
  - intros k. rewrite lookup_empty. intros [? ?]; discriminate.
Qed.

Lemma add_layer_consistent (self self' : MACCNetGenerator) (line : string)
    (outfile out1 : list entry) (deploy : bool) :
  consistent self ->
  _add_layer self line outfile deploy = (out1, Ok self') -> consistent self'.
Proof.
  intros (Ht & Hl1 & Hl2 & Hs & Hc & Hn & Hpf & Hpb & Hds & Hkp). unfold _add_layer.
  destruct (String.eqb _ "conv").
  { destruct (_layer_conv self line deploy) as [[out s]|f] eqn:E; [|discriminate].
    intros [= _ <-].
    apply layer_conv_emitted in E
      as (o & k & d & fov & ft & st & _ & _ & _ & _ & Hft & _ & ->).
    unfold consistent; cbn [conv_state last_in_scale last_in_scale_fov acc_scales accs
                               acc_bbs_ideal previous_layer downsampling].
    split; [intros k0; apply insert_keys_agree, Ht|].
    split; [assumption|]. split; [assumption|]. split.
    { eapply Forall_impl; [exact Hs|]. intros sc Hsc. cbn beta.
      rewrite lookup_insert_is_Some.
      destruct (decide (downsampling self = sc)); tauto. }
    split; [right; left; apply (prefix_append "conv_x")|].
    split.
    { intros k0 nm. rewrite lookup_insert.
      destruct (decide (downsampling self = k0)).
      + intros [= <-]. apply (prefix_append "conv_x").
      + apply Hn. }
    split.
    { intros k0 fov0. rewrite lookup_insert.
      destruct (decide (downsampling self = k0)).
      + intros [= <-]. now exists ft.
      + apply Hpf. }
    split; [assumption|]. split; [assumption|].
    intros k0. rewrite lookup_insert_is_Some.
    intros [<- | [_ H]]; [assumption | now apply Hkp]. }
  destruct (String.eqb _ "pool").
  { unfold _layer_pool. intros [= _ <-].
    unfold consistent; cbn [last_in_scale last_in_scale_fov acc_scales accs
                               acc_bbs_ideal previous_layer downsampling].
    split; [exact Ht|].
    split; [assumption|]. split; [assumption|]. split; [assumption|].
    split; [right; right; apply (prefix_append "pool_x")|].
    split; [exact Hn|]. split; [exact Hpf|]. split; [exact Hpb|].
    split; [lia | exact Hkp]. }
  destruct (String.eqb _ "macc").
  { destruct (_layer_macc self line deploy) as [[out s]|f] eqn:E; [|discriminate].
    intros [= _ <-].
    apply layer_macc_inv in E
      as (scale & bb & fov & ft & bt & bottom & _ & _ & Hf & _ & Hbt & _ & _ & ->).
    unfold consistent; cbn [acc_state last_in_scale last_in_scale_fov acc_scales accs
                               acc_bbs_ideal previous_layer downsampling].
    rewrite !length_app. cbn [length].
    split; [exact Ht|].
    split; [lia|]. split; [lia|]. split.
    { apply Forall_app. split; [assumption|].
      constructor; [rewrite Hf; eauto | constructor]. }
    split; [assumption|]. split; [assumption|]. split; [assumption|].
    split; [|split; assumption].
    apply Forall_app. split; [assumption|].
    constructor; [now exists bt | constructor]. }
  intros [= _ <-]. unfold consistent. tauto.
Qed.

Lemma add_layers_consistent (lines : list string) :
  forall (self self' : MACCNetGenerator) (outfile out1 : list entry) (deploy : bool),
    consistent self ->
    add_layers self lines outfile deploy = (out1, Ok self') -> consistent self'.
Proof.
  induction lines as [|line rest IH]; intros self self' outfile out1 deploy Hc; cbn.
  - now intros [= _ <-].
  - destruct (_add_layer self line outfile deploy) as [o [s|f]] eqn:E; [|discriminate].
    intros H. eapply IH; [|exact H]. eapply add_layer_consistent; eassumption.
Qed.

(** The table [last_in_scale] has a key exactly for the scales at which a
    convolution was emitted. *)
Lemma last_in_scale_keys (lines : list string) :
  forall (self self' : MACCNetGenerator) (outfile out1 : list entry) (deploy : bool)
         (k : Z),
    add_layers self lines outfile deploy = (out1, Ok self') ->
    (is_Some (last_in_scale self' !! k) <->
     is_Some (last_in_scale self !! k) \/ In k (conv_scales self lines deploy)).
Proof.
  induction lines as [|line rest IH]; intros self self' outfile out1 deploy k; cbn.
  - intros [= _ <-]. tauto.
  - rewrite add_layer_outfile.
    destruct (_add_layer self line [] deploy) as [o [s|f]] eqn:E; cbn [fst snd];
      [|discriminate].
    intros H. rewrite (IH _ _ _ _ _ k H). rewrite in_app_iff.
    revert E. unfold _add_layer.
    destruct (String.eqb _ "conv").
    { destruct (_layer_conv self line deploy) as [[out s1]|f] eqn:E; [|discriminate].
      intros [= _ <-].
      apply layer_conv_emitted in E
        as (o' & k' & d & fov & ft & st & _ & _ & _ & _ & _ & _ & ->).
      cbn [conv_state last_in_scale In].
      destruct (decide (downsampling self = k)) as [->|Hne].
      - rewrite lookup_insert_eq. intuition eauto.
      - rewrite lookup_insert_ne by assumption. intuition congruence. }
    destruct (String.eqb _ "pool").
    { unfold _layer_pool. intros [= _ <-]. cbn [last_in_scale In]. tauto. }
    destruct (String.eqb _ "macc").
    { destruct (_layer_macc self line deploy) as [[out s1]|f] eqn:E; [|discriminate].
      intros [= _ <-].
      apply layer_macc_inv in E
        as (scale & bb & fov & ft & bt & bottom & _ & _ & _ & _ & _ & _ & _ & ->).
      cbn [acc_state last_in_scale In]. tauto. }
    intros [= _ <-]. cbn [In]. tauto.
Qed.

(** A run that stops in the train_val pass leaves that one file, with what
    was written before the failure. *)
Lemma generate_stops_in_train (self : MACCNetGenerator) (config : string)
    (r : Z) (c : Py.float) (doc : list entry) (f : failure) :
  get_value_int (Py.split (nth 1 (Py.file_lines config) EmptyString)) "r" true
    = Ok (Some r) ->
  get_value_float (Py.split (nth 1 (Py.file_lines config) EmptyString)) "c" true
    = Ok (Some c) ->
  train_val_pass (configure self (nth 0 (Py.file_lines config) EmptyString) r c)
    (skipn 2 (Py.file_lines config)) = (doc, Fail f) ->
  generate_prototxt_files self config =
    {| written := [ (String.append (nth 0 (Py.file_lines config) EmptyString)
                       "_train_val.prototxt", doc) ];
       status := Fail f |}.
Proof.
  intros Hr Hc Ht. unfold generate_prototxt_files. now rewrite Hr, Hc, Ht.
Qed.

(** ** Accumulators *)

(** C3. A [macc x<scale>] directive met when no convolution has been emitted
    at downsampling factor [scale] in this pass stops the run with the fatal
    error of _layer_macc; the output file keeps what was written before the
    directive and gets no accumulator block, and the lines after it are not
    processed. *)
Theorem macc_without_convolution_aborts (self0 self : MACCNetGenerator)
    (pre post : list string) (specs : string) (scale : Z)
    (out0 out : list entry) (deploy : bool) :
  add_layers (reset self0) pre out0 deploy = (out, Ok self) ->
  Py.take_str 4 specs = "macc"%string ->
  get_value_int (Py.split (Py.drop_str 5 specs)) "x" true = Ok (Some scale) ->
  ~ In scale (conv_scales (reset self0) pre deploy) ->
  _layer_macc self specs deploy = Fail (SysExit (CannotCreate specs)) /\
  add_layers (reset self0) (pre ++ specs :: post) out0 deploy
    = (out, Fail (SysExit (CannotCreate specs))) /\
  (deploy = false -> out0 = train_val_header (reset self0) ->
   train_val_pass self0 (pre ++ specs :: post)
     = (out, Fail (SysExit (CannotCreate specs)))).
Proof.
  intros Hpre Htag Hx Hno.
  assert (Hkey : last_in_scale self !! scale = None).
  { destruct (last_in_scale self !! scale) as [nm|] eqn:E; [|reflexivity].
    exfalso. apply Hno.
    destruct (proj1 (last_in_scale_keys pre _ _ _ _ _ scale Hpre)) as [H|H].
    - rewrite E. eauto.
    - cbn in H. rewrite lookup_empty in H. destruct H; discriminate.
    - exact H. }
  assert (Hm : _layer_macc self specs deploy = Fail (SysExit (CannotCreate specs))).
  { unfold _layer_macc. rewrite Hx. cbn [bind]. unfold has_key.
    now rewrite Hkey. }
  assert (Hrun : add_layers (reset self0) (pre ++ specs :: post) out0 deploy
                 = (out, Fail (SysExit (CannotCreate specs)))).
  { rewrite add_layers_app, Hpre. cbn [add_layers]. unfold _add_layer.
    rewrite Htag. cbn [String.eqb Ascii.eqb Bool.eqb]. now rewrite Hm. }
  split; [exact Hm|]. split; [exact Hrun|].
  intros -> ->. unfold train_val_pass. now rewrite Hrun.
Qed.

Lemma macc_without_convolution_aborts_witness :
  exists out self,
    add_layers (reset (init "bbtxt")) ["conv k3 o8"; "pool"]%string [] false
      = (out, Ok self) /\
    Py.take_str 4 "macc x2" = "macc"%string /\
    get_value_int (Py.split (Py.drop_str 5 "macc x2")) "x" true = Ok (Some 2) /\
    ~ In 2 (conv_scales (reset (init "bbtxt")) ["conv k3 o8"; "pool"]%string false) /\
    add_layers (reset (init "bbtxt")) ["conv k3 o8"; "pool"; "macc x2"]%string [] false
      = (out, Fail (SysExit (CannotCreate "macc x2"))).
Proof.
  destruct (add_layers (reset (init "bbtxt")) ["conv k3 o8"; "pool"]%string [] false)
    as [out [self|f]] eqn:Hpre; [|vm_compute in Hpre; discriminate].
  exists out, self.
  assert (Hno : ~ In 2 (conv_scales (reset (init "bbtxt"))
                          ["conv k3 o8"; "pool"]%string false)).
  { vm_compute. intros [H|[]]. discriminate. }
  split; [reflexivity|]. split; [reflexivity|]. split; [reflexivity|].
  split; [exact Hno|].
  exact (proj1 (proj2 (macc_without_convolution_aborts (init "bbtxt") self
                         ["conv k3 o8"; "pool"]%string [] "macc x2" 2 [] out false
                         Hpre eq_refl eq_refl Hno))).
Defined.

(** The ideal size is the double nearest to the quotient, when the circle
    ratio is a finite number other than zero and the numerator is within
    2^53 and not zero. *)
Lemma bb_ideal_value (self : MACCNetGenerator) (scale : Z) (c : Q) :
  circle_ratio self = Py.FNum c -> ~ Qeq c (Qmake 0 1) ->
  exact_range ((2 * radius self + 1) * scale) -> scale <> 0 ->
  bb_ideal_of self scale
  = Ok (Py.round64 (Qdiv (inject_Z ((2 * radius self + 1) * scale)) c)).
Proof.
  intros Hc Hnz Hr Hs. unfold bb_ideal_of, Py.div_float, Py.to_float.
  rewrite Z.mul_1_r, Hc. rewrite float_of_int_exact by assumption. cbn [bind].
  unfold Py.fdiv, Py.is_zero.
  destruct (Z.eqb_spec (Qnum c) 0) as [E|_].
  { exfalso. apply Hnz. unfold Qeq. simpl. lia. }
  simpl Qnum.
  destruct (Z.eqb_spec ((2 * radius self + 1) * scale) 0) as [E|_];
    [apply Z.mul_eq_0 in E; lia|].
  reflexivity.
Qed.

(** With radius 3 and circle ratio 0.28 the accumulator of scale 1 has the
    ideal size (2*3+1)*1/0.28 = 25, but its block documents 24x24: the
    circle ratio is the double next to 0.28, the quotient by it is a float
    just below 25, which the decode block takes as ideal size, and [%d]
    cuts the fraction off. *)
Lemma macc_block_documents_less :
  exists train deploy acc c q,
    main (config_of [ "net"; "r3 c0.28"; "conv k3 o8"; "macc x1" ]%string) "bbtxt"
      = {| written := [ ("net_train_val.prototxt"%string, train);
                        ("net_deploy.prototxt"%string, deploy) ];
           status := Ok tt |} /\
    nth_error (layers deploy) 3 = Some acc /\
    layer_name acc = Some (VStr "acc_x1") /\
    has_type "Convolution" acc = true /\
    In (Comment "-----------------------  Ideal bounding box size: 24x24 px") acc /\
    Qeq (Qdiv (inject_Z ((2 * 3 + 1) * 1)) (Qmake 28 100)) (inject_Z 25) /\
    get_value_float (Py.split "r3 c0.28") "c" true = Ok (Some (Py.FNum c)) /\
    Qlt (inject_Z 24) (Qdiv (inject_Z ((2 * 3 + 1) * 1)) c) /\
    ideal_sizes deploy = [ [VFloat (Py.FNum q)] ] /\
    Qlt q (inject_Z 25).
Proof.
  do 5 eexists. split; [vm_compute; reflexivity|].
  split; [reflexivity|]. split; [reflexivity|]. split; [reflexivity|].
  split; [cbn; tauto|]. split; [reflexivity|].
  split; [vm_compute; reflexivity|]. split; [reflexivity|].
  split; reflexivity.
Qed.

(** C8. In a run, a [macc x<scale>] directive for a scale that has a
    recorded convolution writes a convolution block with kernel size 1 whose
    bottom is the layer recorded in [last_in_scale] for that scale, with 8
    output channels in bb3txt mode and 5 in bbtxt mode.  For a circle ratio
    that is a finite number other than zero and a numerator within 2^53, the
    ideal size it records is the double nearest to
    (2*radius+1)*scale/circle_ratio, and the size its comment documents is
    the integer part of that double. *)
Theorem macc_block (self0 self : MACCNetGenerator) (pre : list string)
    (out0 out : list entry) (deploy : bool) (specs : string) (scale : Z)
    (bottom : string) (c : Q) (size : Z) :
  circle_ratio self0 = Py.FNum c -> ~ Qeq c (Qmake 0 1) ->
  add_layers (reset self0) pre out0 deploy = (out, Ok self) ->
  get_value_int (Py.split (Py.drop_str 5 specs)) "x" true = Ok (Some scale) ->
  last_in_scale self !! scale = Some bottom ->
  exact_range ((2 * radius self0 + 1) * scale) ->
  let bb := Py.round64 (Qdiv (inject_Z ((2 * radius self0 + 1) * scale)) c) in
  Py.int_of_float bb = Ok size ->
  exists body cp self',
    _layer_macc self specs deploy = Ok ([Sub "layer" body], self') /\
    has_type "Convolution" body = true /\
    fields "bottom" body = [VStr bottom] /\
    sub_block "convolution_param" body = Some cp /\
    fields "kernel_size" cp = [VInt 1] /\
    (bb_type self0 = "bb3txt"%string -> fields "num_output" cp = [VInt 8]) /\
    (bb_type self0 = "bbtxt"%string -> fields "num_output" cp = [VInt 5]) /\
    In (Comment (Py.cat [ "-----------------------  Ideal bounding box size: "%string;
                          Py.fmt_d size; "x"%string; Py.fmt_d size; " px"%string ]))
       body /\
    acc_bbs_ideal self' = acc_bbs_ideal self ++ [bb] /\
    acc_scales self' = acc_scales self ++ [scale].
Proof.
  intros Hc0 Hnz Hpre Hx Hb Hrange bb Hsize.
  pose proof (add_layers_config _ _ _ _ _ _ Hpre) as (Hbt & _ & Hr & Hc).
  cbn [bb_type radius circle_ratio reset] in Hbt, Hr, Hc.
  pose proof (add_layers_consistent _ _ _ _ _ _ (consistent_reset self0) Hpre)
    as (Ht & _ & _ & _ & _ & _ & Hpf & _ & _ & Hkp).
  destruct (proj1 (Ht scale)) as [fov Hf]; [rewrite Hb; eauto|].
  destruct (Hpf _ _ Hf) as [fov_text Hft].
  assert (Hpos : 0 < scale) by (apply Hkp; rewrite Hb; eauto).
  assert (Hbb : bb_ideal_of self scale = Ok bb).
  { rewrite (bb_ideal_value self scale c); rewrite <- ?Hr, <- ?Hc;
      first [reflexivity | assumption | lia]. }
  assert (Hbt' : Py.fmt_d_float bb = Ok (Py.fmt_d size)).
  { unfold Py.fmt_d_float. rewrite Hsize. reflexivity. }
  pose proof (layer_macc_ok self specs deploy scale bb fov _ _ bottom
                Hx Hbb Hf Hft Hbt' Hb) as Hrun.
  unfold acc_block, macc_num_output in Hrun. rewrite <- Hbt in Hrun.
  destruct deploy.
  - do 3 eexists. split; [exact Hrun|].
    split; [reflexivity|]. split; [reflexivity|]. split; [reflexivity|].
    split; [reflexivity|].
    split; [intros ->; reflexivity|]. split; [intros ->; reflexivity|].
    split; [cbn; tauto|]. split; reflexivity.
  - do 3 eexists. split; [exact Hrun|].
    split; [reflexivity|]. split; [reflexivity|]. split; [reflexivity|].
    split; [reflexivity|].
    split; [intros ->; reflexivity|]. split; [intros ->; reflexivity|].
    split; [cbn; tauto|]. split; reflexivity.
Qed.

Lemma macc_block_witness :
  exists out self,
    circle_ratio (configure (init "bbtxt") "demo" 1 (Py.FNum (Qmake 1 2)))
      = Py.FNum (Qmake 1 2) /\
    ~ Qeq (Qmake 1 2) (Qmake 0 1) /\
    add_layers (reset (configure (init "bbtxt") "demo" 1 (Py.FNum (Qmake 1 2))))
      ["conv k3 o8"; "pool"; "conv k3 o8"]%string [] true = (out, Ok self) /\
    get_value_int (Py.split (Py.drop_str 5 "macc x2")) "x" true = Ok (Some 2) /\
    last_in_scale self !! 2 = Some "conv_x2_1"%string /\
    exact_range ((2 * 1 + 1) * 2) /\
    Py.int_of_float (Py.round64 (Qdiv (inject_Z ((2 * 1 + 1) * 2)) (Qmake 1 2))) = Ok 12 /\
    exists body self',
      _layer_macc self "macc x2" true = Ok ([Sub "layer" body], self') /\
      fields "bottom" body = [VStr "conv_x2_1"] /\
      In (Comment "-----------------------  Ideal bounding box size: 12x12 px") body /\
      acc_bbs_ideal self' = [Py.FNum (Qmake 12 1)].
Proof.
  destruct (add_layers (reset (configure (init "bbtxt") "demo" 1 (Py.FNum (Qmake 1 2))))
              ["conv k3 o8"; "pool"; "conv k3 o8"]%string [] true)
    as [out [self|f]] eqn:Hpre; [|vm_compute in Hpre; discriminate].
  pose proof Hpre as Hv. vm_compute in Hv. injection Hv as _ Hself.
  exists out, self.
  assert (Hnz : ~ Qeq (Qmake 1 2) (Qmake 0 1)) by (intros E; discriminate E).
  assert (Hb : last_in_scale self !! 2 = Some "conv_x2_1"%string)
    by (rewrite <- Hself; vm_compute; reflexivity).
  assert (Hrange : exact_range ((2 * 1 + 1) * 2)) by (split; vm_compute; congruence).
  assert (Hsize : Py.int_of_float
                    (Py.round64 (Qdiv (inject_Z ((2 * 1 + 1) * 2)) (Qmake 1 2))) = Ok 12)
    by (vm_compute; reflexivity).
  split; [reflexivity|]. split; [exact Hnz|]. split; [reflexivity|].
  split; [reflexivity|]. split; [exact Hb|]. split; [exact Hrange|].
  split; [exact Hsize|].
  destruct (macc_block (configure (init "bbtxt") "demo" 1 (Py.FNum (Qmake 1 2))) self
              ["conv k3 o8"; "pool"; "conv k3 o8"]%string [] out true "macc x2" 2
              "conv_x2_1" (Qmake 1 2) 12 eq_refl Hnz Hpre eq_refl Hb Hrange Hsize)
    as (body & cp & self' & Hrun & _ & Hbot & _ & _ & _ & _ & Hdoc & Hbbs & _).
  exists body, self'. split; [exact Hrun|]. split; [exact Hbot|].
  split; [exact Hdoc|]. rewrite Hbbs, <- Hself. vm_compute. reflexivity.
Defined.

(** C10. An accumulator block is a side branch: after a [macc] directive
    the previous layer is still the input, convolution or pooling layer it
    was before, which is not the accumulator; a convolution or pooling block
    emitted next takes that layer as its bottom, and a further accumulator
    takes a convolution. *)
Theorem macc_is_side_branch (self0 self self' : MACCNetGenerator)
    (pre : list string) (out0 out : list entry) (deploy : bool)
    (specs : string) (blk : list entry) :
  add_layers (reset self0) pre out0 deploy = (out, Ok self) ->
  _layer_macc self specs deploy = Ok (blk, self') ->
  previous_layer self' = previous_layer self /\
  on_main_chain (previous_layer self) /\
  (exists body nm,
      blk = [Sub "layer" body] /\ layer_name body = Some (VStr nm) /\
      nm <> previous_layer self') /\
  (forall specs2 dep2 out2 self2,
      _layer_conv self' specs2 dep2 = Ok (out2, self2) ->
      exists body,
        out2 = [Sub "layer" body] /\
        fields "bottom" body = [VStr (previous_layer self)]) /\
  (exists banner body,
      fst (_layer_pool self') = [banner; Sub "layer" body] /\
      fields "bottom" body = [VStr (previous_layer self)]) /\
  (forall specs2 dep2 out2 self2,
      _layer_macc self' specs2 dep2 = Ok (out2, self2) ->
      exists body bottom,
        out2 = [Sub "layer" body] /\
        fields "bottom" body = [VStr bottom] /\
        String.prefix "conv_x" bottom = true).
Proof.
  intros Hpre Hm.
  pose proof (add_layers_consistent _ _ _ _ _ _ (consistent_reset self0) Hpre)
    as (_ & _ & _ & _ & Hc & Hn & _).
  apply layer_macc_inv in Hm
    as (scale & bb & fov & ft & bt & bottom & _ & _ & _ & _ & _ & _ & -> & ->).
  cbn [acc_state previous_layer].
  split; [reflexivity|]. split; [exact Hc|].
  split; [|split; [|split]].
  - do 2 eexists. split; [reflexivity|]. split; [reflexivity|].
    intros E. rewrite <- E in Hc.
    destruct Hc as [H|[H|H]]; cbn in H; discriminate.
  - intros specs2 dep2 out2 self2 H.
    apply layer_conv_emitted in H
      as (o & k & d & fov2 & ft2 & st2 & _ & _ & _ & _ & _ & -> & _).
    eexists. split; [reflexivity|]. destruct dep2; reflexivity.
  - unfold _layer_pool, _downsampling. cbn [fst app previous_layer acc_state].
    do 2 eexists. split; reflexivity.
  - intros specs2 dep2 out2 self2 H.
    apply layer_macc_inv in H
      as (scale2 & bb2 & fov2 & ft2 & bt2 & bottom2 & _ & _ & _ & _ & _ & Hb2 & -> & _).
    cbn [acc_state last_in_scale] in Hb2.
    eexists. exists bottom2.
    split; [reflexivity|]. split; [|eapply Hn, Hb2].
    destruct dep2; reflexivity.
Qed.

Lemma macc_is_side_branch_witness :
  exists out self blk self',
    add_layers (reset (configure (init "bbtxt") "demo" 1 (Py.FNum (Qmake 1 2))))
      ["conv k3 o8"; "pool"; "conv k3 o8"]%string [] true = (out, Ok self) /\
    _layer_macc self "macc x2" true = Ok (blk, self') /\
    previous_layer self' = "conv_x2_1"%string.
Proof.
  destruct (add_layers (reset (configure (init "bbtxt") "demo" 1 (Py.FNum (Qmake 1 2))))
              ["conv k3 o8"; "pool"; "conv k3 o8"]%string [] true)
    as [out [self|f]] eqn:Hpre; [|vm_compute in Hpre; discriminate].
  pose proof Hpre as Hc. vm_compute in Hc. injection Hc as _ Hself.
  destruct (_layer_macc self "macc x2" true) as [[blk self']|f] eqn:Hm;
    [|rewrite <- Hself in Hm; vm_compute in Hm; discriminate].
  exists out, self, blk, self'.
  split; [reflexivity|]. split; [exact Hm|].
  rewrite (proj1 (macc_is_side_branch _ _ _ _ _ _ _ _ _ Hpre Hm)).
  rewrite <- Hself. reflexivity.
Defined.

(** ** The two documents *)

Lemma layers_app (a b : list entry) : layers (a ++ b) = layers a ++ layers b.
Proof.
  induction a as [|e a IH]; cbn; [reflexivity|].
  destruct e; try exact IH.
  destruct (String.eqb key "layer"); cbn; [f_equal|]; exact IH.
Qed.

Lemma names_of_types_app (tys : list string) (a b : list entry) :
  names_of_types tys (a ++ b) = names_of_types tys a ++ names_of_types tys b.
Proof.
  unfold names_of_types. now rewrite layers_app, List.filter_app, List.map_app.
Qed.

Lemma shared_layer_names_app (a b : list entry) :
  shared_layer_names (a ++ b) = shared_layer_names a ++ shared_layer_names b.
Proof. apply names_of_types_app. Qed.

Lemma reset_same_config (a b : MACCNetGenerator) :
  same_config a b -> reset a = reset b.
Proof.
  intros (H1 & H2 & H3 & H4). unfold reset. now rewrite H1, H2, H3, H4.
Qed.

(** One directive: the generator after it does not depend on [deploy], and
    neither do the names of the layers it writes. *)
Lemma add_layer_deploy (self : MACCNetGenerator) (line : string) :
  snd (_add_layer self line [] false) = snd (_add_layer self line [] true) /\
  shared_layer_names (fst (_add_layer self line [] false))
    = shared_layer_names (fst (_add_layer self line [] true)).
Proof.
  unfold _add_layer.
  destruct (String.eqb _ "conv").
  { unfold _layer_conv.
    destruct (get_value_int _ "o" true) as [[o|]|]; cbn [bind need]; try tauto;
      destruct (get_value_int _ "k" true) as [[k|]|]; cbn [bind need]; try tauto;
      destruct (get_value_int _ "d" false) as [d|]; cbn [bind need]; try tauto.
    all: unfold conv_emit.
    all: destruct (conv_fov _ _ _) as [fov|]; cbn [bind]; try tauto.
    all: destruct (Py.fmt_d_num fov) as [ft|]; cbn [bind]; try tauto.
    all: destruct (half_up _) as [c|]; cbn [bind]; try tauto.
    all: destruct (Py.sub _ _) as [second|]; cbn [bind]; try tauto.
    all: destruct (Py.fmt_d_num second) as [st|]; cbn [bind]; try tauto.
    all: split; reflexivity. }
  destruct (String.eqb _ "pool").
  { destruct (_layer_pool self); tauto. }
  destruct (String.eqb _ "macc"); [|tauto].
  unfold _layer_macc.
  destruct (get_value_int _ "x" true) as [[scale|]|]; cbn [bind]; try tauto.
  destruct (negb _); try tauto.
  destruct (bb_ideal_of self scale) as [bb|]; cbn [bind]; try tauto.
  destruct (getitem (last_in_scale_fov self) scale) as [fov|]; cbn [bind]; try tauto.
  destruct (Py.fmt_d_num fov) as [ft|]; cbn [bind]; try tauto.
  destruct (Py.fmt_d_float bb) as [bt|]; cbn [bind]; try tauto.
  destruct (getitem (last_in_scale self) scale); cbn [bind]; try tauto.
  all: split; reflexivity.
Qed.

Lemma add_layers_deploy (lines : list string) :
  forall (self : MACCNetGenerator) (out1 out2 : list entry),
    shared_layer_names out1 = shared_layer_names out2 ->
    snd (add_layers self lines out1 false) = snd (add_layers self lines out2 true) /\
    shared_layer_names (fst (add_layers self lines out1 false))
      = shared_layer_names (fst (add_layers self lines out2 true)).
Proof.
  induction lines as [|line rest IH]; intros self out1 out2 Hout; cbn.
  - tauto.
  - rewrite (add_layer_outfile self line out1), (add_layer_outfile self line out2).
    destruct (add_layer_deploy self line) as [Hs Hn].
    destruct (_add_layer self line [] false) as [o1 r1].
    destruct (_add_layer self line [] true) as [o2 r2].
    cbn [fst snd] in *. subst r2.
    assert (Hnames : shared_layer_names (out1 ++ o1) = shared_layer_names (out2 ++ o2))
      by (rewrite !shared_layer_names_app; congruence).
    destruct r1 as [s|f]; [apply IH, Hnames | cbn; tauto].
Qed.

(** The blocks around the network are not shared layers. *)
Lemma headers_not_shared (self : MACCNetGenerator) :
  shared_layer_names (train_val_header self) = [] /\
  shared_layer_names (deploy_header self) = [].
Proof.
  unfold train_val_header, deploy_header, _layer_data, bb_suffix.
  destruct (String.eqb (bb_type self) "bb3txt"); split; reflexivity.
Qed.

Lemma loss_layers_not_shared (self : MACCNetGenerator) (idx : list nat) :
  forall ls, collect (List.map (loss_layer self) idx) = Ok ls ->
             shared_layer_names ls = [].
Proof.
  induction idx as [|i idx IH]; cbn; intros ls.
  - now intros [= <-].
  - unfold loss_layer at 1.
    do 6 lookup_step.
    destruct (collect _) as [r|]; [|discriminate]. cbn [bind].
    intros [= <-]. specialize (IH r eq_refl).
    match goal with |- shared_layer_names (?e :: r) = [] =>
      change (shared_layer_names ([e] ++ r) = []) end.
    rewrite shared_layer_names_app, IH, app_nil_r.
    unfold bb_suffix. destruct (String.eqb (bb_type self) "bb3txt"); reflexivity.
Qed.

Lemma bb_layers_not_shared (self : MACCNetGenerator) (idx : list nat) :
  forall ls, collect (List.map (bb_layer self) idx) = Ok ls ->
             shared_layer_names ls = [].
Proof.
  induction idx as [|i idx IH]; cbn; intros ls.
  - now intros [= <-].
  - unfold bb_layer at 1.
    do 6 lookup_step.
    destruct (collect _) as [r|]; [|discriminate]. cbn [bind].
    intros [= <-]. specialize (IH r eq_refl).
    match goal with |- shared_layer_names (?e :: r) = [] =>
      change (shared_layer_names ([e] ++ r) = []) end.
    rewrite shared_layer_names_app, IH, app_nil_r.
    unfold bb_suffix. destruct (String.eqb (bb_type self) "bb3txt"); reflexivity.
Qed.

(** Where the loss blocks can be written, the decode blocks can be too. *)
Lemma bb_follows_loss (self : MACCNetGenerator) (idx : list nat) :
  forall ls, collect (List.map (loss_layer self) idx) = Ok ls ->
             exists ls', collect (List.map (bb_layer self) idx) = Ok ls'.
Proof.
  induction idx as [|i idx IH]; cbn; intros ls.
  - eauto.
  - unfold loss_layer at 1, bb_layer at 1.
    destruct (getindex (acc_scales self) i) as [sc|]; [|discriminate]. cbn [bind].
    destruct (getitem (last_in_scale_fov self) sc) as [fov|]; [|discriminate]. cbn [bind].
    destruct (Py.fmt_d_num fov) as [ft|]; [|discriminate]. cbn [bind].
    destruct (getindex (acc_bbs_ideal self) i) as [bb|]; [|discriminate]. cbn [bind].
    destruct (Py.fmt_d_float bb) as [bt|]; [|discriminate]. cbn [bind].
    destruct (getindex (accs self) i) as [acc|]; [|discriminate]. cbn [bind].
    destruct (collect (List.map (loss_layer self) idx)) as [r|]; [|discriminate].
    destruct (IH r eq_refl) as [r' ->]. cbn [bind]. eauto.
Qed.

(** Once the train_val document is complete, the deploy pass completes too,
    and the two documents have the same shared layers. *)
Lemma deploy_follows_train (self self1 : MACCNetGenerator) (lines : list string)
    (train : list entry) :
  train_val_pass self lines = (train, Ok self1) ->
  exists deploy self2,
    deploy_pass self1 lines = (deploy, Ok self2) /\
    shared_layer_names train = shared_layer_names deploy.
Proof.
  unfold train_val_pass, deploy_pass.
  destruct (add_layers (reset self) lines (train_val_header (reset self)) false)
    as [o1 [s1|f]] eqn:E1; [|discriminate].
  destruct (_layer_loss s1) as [loss|] eqn:El; [|discriminate].
  intros [= <- <-].
  pose proof (add_layers_config _ _ _ _ _ _ E1) as Hcfg.
  assert (Hreset : reset s1 = reset self).
  { transitivity (reset (reset self)); [|reflexivity].
    symmetry. now apply reset_same_config. }
  rewrite Hreset.
  destruct (headers_not_shared (reset self)) as [Ht Hd].
  destruct (add_layers_deploy lines (reset self) (train_val_header (reset self))
              (deploy_header (reset self)) ltac:(congruence)) as [Hs Hn].
  rewrite E1 in Hs, Hn. cbn [fst snd] in Hs, Hn.
  destruct (add_layers (reset self) lines (deploy_header (reset self)) true)
    as [o2 r2]. cbn [fst snd] in Hs, Hn. subst r2.
  unfold _layer_loss in El. unfold _layer_bb.
  destruct (collect (List.map (loss_layer s1) _)) as [ls|] eqn:Ec; [|discriminate].
  cbn [bind] in El. injection El as <-.
  destruct (bb_follows_loss _ _ _ Ec) as [ls' Ec']. rewrite Ec'. cbn [bind].
  do 2 eexists. split; [reflexivity|].
  assert (Hskip : forall c l, shared_layer_names (Blank :: Comment c :: l)
                              = shared_layer_names l) by reflexivity.
  rewrite !shared_layer_names_app, !Hskip, Hn.
  rewrite (loss_layers_not_shared _ _ _ Ec), (bb_layers_not_shared _ _ _ Ec').
  reflexivity.
Qed.

(** C5. When a run completes, the train_val document and the deploy document
    hold the same sequence of convolution, ReLU, pooling and accumulator layer
    names: both passes go through the same lines from a freshly reset
    generator, and the blocks around the network (data, input, loss, decode)
    are none of these layers. *)
Theorem documents_share_layer_names (self : MACCNetGenerator) (config : string) :
  status (generate_prototxt_files self config) = Ok tt ->
  exists train_file train deploy_file deploy,
    written (generate_prototxt_files self config)
      = [(train_file, train); (deploy_file, deploy)] /\
    shared_layer_names train = shared_layer_names deploy.
Proof.
  unfold generate_prototxt_files.
  destruct (get_value_int _ "r" true) as [[r|]|]; [| |discriminate].
  2: destruct (get_value_float _ "c" true) as [c|]; discriminate.
  destruct (get_value_float _ "c" true) as [[c|]|]; try discriminate.
  destruct (train_val_pass _ _) as [train [s1|f]] eqn:Et; [|discriminate].
  destruct (deploy_follows_train _ _ _ _ Et) as (deploy & s2 & Ed & Hn).
  rewrite Ed. cbn [status written]. intros _.
  do 4 eexists. split; [reflexivity | exact Hn].
Qed.

Lemma documents_share_layer_names_witness :
  status (generate_prototxt_files (init "bb3txt") sample_config) = Ok tt /\
  exists train_file train deploy_file deploy,
    written (generate_prototxt_files (init "bb3txt") sample_config)
      = [(train_file, train); (deploy_file, deploy)] /\
    shared_layer_names train = shared_layer_names deploy.
Proof.
  assert (H : status (generate_prototxt_files (init "bb3txt") sample_config) = Ok tt)
    by (vm_compute; reflexivity).
  split; [exact H|].
  exact (documents_share_layer_names (init "bb3txt") sample_config H).
Defined.

(** The demo configuration does not compile: its accumulator asks for scale
    2, where no convolution exists. *)
Lemma demo_roundtrip_counterexample : ~ roundtrip_expected demo_config.
Proof.
  intros (train & deploy & H & _).
  apply (f_equal status) in H. vm_compute in H. discriminate.
Qed.

(** C4, amended. The demo configuration stops at [macc x2] with the fatal
    error of _layer_macc, in either mode: the train_val document is left with
    its one convolution block of scale 1 and its one pooling block, without
    accumulator or loss block, and no deploy document is opened.  With a
    convolution after the pooling layer the run completes: one pooling
    block, the convolution blocks of scales 1 and 2, one accumulator block of
    scale 2 on [conv_x2_1] with ideal size 12, a loss block in the train_val
    document and a decode block in the deploy document on [acc_x2]. *)
Theorem demo_roundtrip :
  Forall (fun bb =>
            exists train,
              main demo_config bb =
                {| written := [ ("demo_train_val.prototxt"%string, train) ];
                   status := Fail (SysExit (CannotCreate "macc x2")) |} /\
              names_of_types ["Pooling"%string] train = [ Some (VStr "pool_x2") ] /\
              names_of_types ["Convolution"%string] train = [ Some (VStr "conv_x1_1") ] /\
              names_of_types ["BBTXTLoss"; "BB3TXTLoss"]%string train = [])
         ["bbtxt"; "bb3txt"]%string /\
  Forall (fun '(bb, loss, decode) =>
            exists train deploy,
              main demo_config_conv bb =
                {| written := [ ("demo_train_val.prototxt"%string, train);
                                ("demo_deploy.prototxt"%string, deploy) ];
                   status := Ok tt |} /\
              names_of_types ["Pooling"%string] train = [ Some (VStr "pool_x2") ] /\
              names_of_types ["Convolution"%string] train
                = [ Some (VStr "conv_x1_1"); Some (VStr "conv_x2_1");
                    Some (VStr "acc_x2") ] /\
              bottoms_of "Convolution" train
                = [ [VStr "data"]; [VStr "pool_x2"]; [VStr "conv_x2_1"] ] /\
              shared_layer_names deploy = shared_layer_names train /\
              names_of_types [loss] train = [ Some (VStr "loss_x2") ] /\
              bottoms_of loss train = [ [VStr "label"; VStr "acc_x2"] ] /\
              names_of_types [decode] deploy = [ Some (VStr "bb_x2") ] /\
              bottoms_of decode deploy = [ [VStr "acc_x2"] ] /\
              ideal_sizes deploy = [ [VFloat (Py.FNum (Qmake 12 1))] ])
         [ ("bbtxt", "BBTXTLoss", "BBTXTBB"); ("bb3txt", "BB3TXTLoss", "BB3TXTBB") ]%string.
Proof.
  split.
  - repeat constructor; eexists; (split; [vm_compute; reflexivity|]);
      vm_compute; auto.
  - repeat constructor; do 2 eexists; (split; [vm_compute; reflexivity|]);
      vm_compute; repeat split; reflexivity.
Qed.

Lemma read_digits_chars (s : string) :
  forall (acc : Z) (cnt : nat) (v : Z) (n : nat) (rest : string),
    Py.read_digits acc cnt s = (v, n, rest) ->
    all_chars float_char rest = true -> all_chars float_char s = true.
Proof.
  induction s as [|c s IH]; intros acc cnt v n rest; cbn.
  - now intros [= _ _ <-].
  - destruct (Py.digit_of c) as [d|] eqn:Hd.
    + intros H Hr. unfold float_char at 1. rewrite Hd. cbn. eapply IH; eassumption.
    + now intros [= _ _ <-].
Qed.

Lemma read_sign_chars (s : string) (neg : bool) (s1 : string) :
  Py.read_sign s = (neg, s1) ->
  all_chars float_char s1 = true -> all_chars float_char s = true.
Proof.
  unfold Py.read_sign. destruct s as [|c s]; [now intros [= _ <-]|].
  destruct (Ascii.eqb c "-") eqn:Em.
  { apply Ascii.eqb_eq in Em as ->. now intros [= _ <-]. }
  destruct (Ascii.eqb c "+") eqn:Ep.
  { apply Ascii.eqb_eq in Ep as ->. now intros [= _ <-]. }
  intros H. assert (E : s1 = String c s); [|now subst].
  apply Ascii.eqb_neq in Em, Ep.
  destruct c as [[] [] [] [] [] [] [] []]; try (now injection H as _ <-);
    congruence.
Qed.

Lemma read_exp_chars (s : string) (e : Z) :
  Py.read_exp s = Some e -> all_chars float_char s = true.
Proof.
  unfold Py.read_exp. destruct s as [|c s]; [reflexivity|].
  destruct (Ascii.eqb c "e" || Ascii.eqb c "E")%bool eqn:Ec; [|discriminate].
  destruct (Py.read_sign s) as [neg s1] eqn:Es.
  destruct (Py.read_digits 0 0 s1) as [[v n] rest] eqn:Ed.
  destruct n as [|n]; [discriminate|].
  destruct rest; [|discriminate]. intros _.
  cbn [all_chars]. apply andb_true_intro. split.
  - apply orb_true_iff in Ec as [Ec|Ec]; apply Ascii.eqb_eq in Ec; subst c;
      reflexivity.
  - eapply read_sign_chars; [exact Es|].
    eapply read_digits_chars; [exact Ed | reflexivity].
Qed.

Lemma lower_float_char (c : ascii) :
  float_char (Py.lower c) = true -> float_char c = true.
Proof.
  destruct c as [[] [] [] [] [] [] [] []]; vm_compute; congruence.
Qed.

Lemma lower_str_chars (s : string) :
  all_chars float_char (Py.lower_str s) = true -> all_chars float_char s = true.
Proof.
  induction s as [|c s IH]; cbn; [reflexivity|].
  intros H. apply andb_prop in H as [Hc Hs].
  apply andb_true_intro. split; [now apply lower_float_char | now apply IH].
Qed.

Lemma special_chars (neg : bool) (s : string) (x : Py.float) :
  Py.special neg s = Some x -> all_chars float_char s = true.
Proof.
  unfold Py.special. intros H. apply lower_str_chars.
  destruct (String.eqb (Py.lower_str s) "inf") eqn:E1.
  { apply String.eqb_eq in E1. rewrite E1. reflexivity. }
  destruct (String.eqb (Py.lower_str s) "infinity") eqn:E2.
  { apply String.eqb_eq in E2. rewrite E2. reflexivity. }
  destruct (String.eqb (Py.lower_str s) "nan") eqn:E3; [|discriminate].
  apply String.eqb_eq in E3. rewrite E3. reflexivity.
Qed.

Lemma decimal_chars (neg : bool) (s1 : string) (x : Py.float) :
  Py.decimal neg s1 = Some x -> all_chars float_char s1 = true.
Proof.
  unfold Py.decimal.
  destruct (Py.read_digits 0 0 s1) as [[ip n1] s2] eqn:E1.
  intros H.
  eapply read_digits_chars; [exact E1|].
  assert (Hcases :
            (exists r m n2 s3, s2 = String "."%char r /\
                               Py.read_digits ip 0 r = (m, n2, s3) /\
                               exists e, Py.read_exp s3 = Some e) \/
            (exists e, Py.read_exp s2 = Some e)).
  { destruct s2 as [|c r].
    - right. destruct (n1 + 0 =? 0)%nat; [discriminate|].
      destruct (Py.read_exp EmptyString) as [e|]; [eauto | discriminate].
    - destruct (Ascii.eqb c ".") eqn:Ec.
      + apply Ascii.eqb_eq in Ec as ->. left.
        destruct (Py.read_digits ip 0 r) as [[m n2] s3] eqn:E2.
        destruct (n1 + n2 =? 0)%nat; [discriminate|].
        destruct (Py.read_exp s3) as [e|] eqn:He; [|discriminate].
        exists r, m, n2, s3. split; [reflexivity|]. split; [exact E2|].
        now exists e.
      + right. apply Ascii.eqb_neq in Ec.
        assert (E : match String c r with
                    | String "."%char r0 => Py.read_digits ip 0 r0
                    | _ => (ip, O, String c r)
                    end = (ip, O, String c r)).
        { destruct c as [[] [] [] [] [] [] [] []]; try reflexivity. congruence. }
        rewrite E in H. destruct (n1 + 0 =? 0)%nat; [discriminate|].
        destruct (Py.read_exp (String c r)) as [e|]; [eauto | discriminate]. }
  destruct Hcases as [(r & m & n2 & s3 & -> & E2 & e & He) | (e & He)].
  - cbn [all_chars]. apply andb_true_intro. split; [reflexivity|].
    eapply read_digits_chars; [exact E2|]. eapply read_exp_chars, He.
  - eapply read_exp_chars, He.
Qed.

(** A string that [float] accepts is made of digits, signs, the point, the
    exponent letter and the letters of the special words. *)
Lemma float_of_string_chars (s : string) (x : Py.float) :
  Py.float_of_string s = Some x -> all_chars float_char s = true.
Proof.
  unfold Py.float_of_string.
  destruct (Py.read_sign s) as [neg s1] eqn:Es.
  intros H. eapply read_sign_chars; [exact Es|].
  destruct (Py.special neg s1) as [y|] eqn:E.
  - eapply special_chars, E.
  - eapply decimal_chars, H.
Qed.

(** A string that contains a character no literal has is not a literal. *)
Lemma str_in_not_float (c : ascii) (s : string) :
  float_char c = false ->
  Py.str_in (String c EmptyString) s = true ->
  Py.float_of_string s = None.
Proof.
  intros Hc Hin.
  destruct (Py.float_of_string s) as [q|] eqn:E; [|reflexivity].
  apply float_of_string_chars in E. exfalso.
  induction s as [|a s IH]; cbn in Hin, E; [discriminate|].
  apply andb_prop in E as [Ea Es].
  destruct (ascii_dec c a) as [->|Hne]; [congruence|].
  cbn in Hin. now apply IH.
Qed.

Lemma find_none_intro {A : Type} (f : A -> bool) (l : list A) :
  (forall x, In x l -> f x = false) -> List.find f l = None.
Proof.
  induction l as [|a l IH]; cbn; intros H; [reflexivity|].
  rewrite (H a (or_introl eq_refl)). apply IH. intros x Hx. apply H. now right.
Qed.

(** How a required value can fail to be read. *)
Lemma get_value_float_fail (data : list string) (id : string) (f : failure) :
  get_value_float data id true = Fail f ->
  f = ValueError \/
  (f = SysExit (RequiredMissing id data) /\ no_token_contains id data).
Proof.
  unfold get_value_float.
  destruct (List.find _ data) as [val|] eqn:Ef.
  - destruct (Py.float_of_string _); [discriminate|]. intros [= <-]. now left.
  - intros [= <-]. right. split; [reflexivity|].
    intros t Ht. exact (List.find_none _ _ Ef t Ht).
Qed.

Lemma get_value_float_missing (data : list string) (id : string) :
  no_token_contains id data ->
  get_value_float data id true = Fail (SysExit (RequiredMissing id data)).
Proof.
  intros H. unfold get_value_float. now rewrite (find_none_intro _ _ H).
Qed.

(** When no token starts with the letter, nothing is read: a token that has
    the letter further on is cut after its first character and is then no
    number. *)
Lemma get_value_float_unprefixed (c : ascii) (data : list string) :
  float_char c = false ->
  no_token_starts_with (String c EmptyString) data ->
  exists f, get_value_float data (String c EmptyString) true = Fail f.
Proof.
  intros Hc Hno. unfold get_value_float.
  destruct (List.find _ data) as [val|] eqn:Ef; [|eauto].
  apply List.find_some in Ef as [Hin Hval].
  specialize (Hno val Hin).
  destruct val as [|a s]; [discriminate|].
  cbn [Py.str_in] in Hval. rewrite Hno in Hval. cbn [orb] in Hval.
  cbn [String.length Py.drop_str].
  rewrite (str_in_not_float c s Hc Hval). eauto.
Qed.

(** [get_value_int] fails where [get_value_float] does, or on a float that
    is no number or is infinite. *)
Lemma get_value_int_fail (data : list string) (id : string) (f : failure) :
  get_value_int data id true = Fail f ->
  get_value_float data id true = Fail f \/
  (exists x, get_value_float data id true = Ok (Some x) /\
             (f = ValueError \/ f = OverflowError)).
Proof.
  unfold get_value_int.
  destruct (get_value_float data id true) as [[x|]|f']; cbn [bind].
  - destruct x as [q| |neg|]; cbn; try discriminate.
    + intros [= <-]. right. eauto.
    + intros [= <-]. right. eauto.
  - discriminate.
  - intros [= <-]. now left.
Qed.

Lemma get_value_int_ok (data : list string) (id : string) (z : option Z) :
  get_value_int data id true = Ok z ->
  exists x v, get_value_float data id true = Ok (Some x) /\
              Py.int_of_float x = Ok v /\ z = Some v.
Proof.
  unfold get_value_int. pose proof (get_value_float_required data id) as Hreq.
  destruct (get_value_float data id true) as [[x|]|f']; cbn [bind]; try congruence.
  destruct (Py.int_of_float x) as [v|] eqn:E; cbn [bind]; [|discriminate].
  intros [= <-]. eauto.
Qed.

(** A second line whose only token with an [r] is [xr1]: no token starts
    with [r], and the run ends in the ValueError of [float('r1')], not in
    the printed error. *)
Lemma missing_radius_counterexample :
  ~ (let config := config_of ["demo"; "xr1 c0.5"; "conv k3 o8"]%string in
     let data := Py.split (nth 1 (Py.file_lines config) EmptyString) in
     no_token_starts_with "r" data \/ no_token_starts_with "c" data ->
     descriptive_abort (main config "bbtxt") /\ written (main config "bbtxt") = []).
Proof.
  intros H.
  destruct H as [(id & data & Hs) _].
  - left. intros t Ht. vm_compute in Ht.
    destruct Ht as [<-|[<-|[]]]; reflexivity.
  - vm_compute in Hs. discriminate.
Qed.

(** C9, amended. If no token of the second line starts with [r], or none
    starts with [c], the run stops before any output file is opened.  It
    stops with the printed error that the value is required when no token
    contains the letter at all ([r] is looked for first, [c] once the radius
    is read); the only other ways it stops are the ValueError and the
    OverflowError of the number conversions. *)
Theorem missing_radius_or_ratio (self : MACCNetGenerator) (config : string) :
  let data := Py.split (nth 1 (Py.file_lines config) EmptyString) in
  let r := generate_prototxt_files self config in
  no_token_starts_with "r" data \/ no_token_starts_with "c" data ->
  written r = [] /\
  (status r = Fail (SysExit (RequiredMissing "r" data)) \/
   status r = Fail (SysExit (RequiredMissing "c" data)) \/
   status r = Fail ValueError \/
   status r = Fail OverflowError) /\
  (no_token_contains "r" data ->
   status r = Fail (SysExit (RequiredMissing "r" data))) /\
  (forall rad, get_value_int data "r" true = Ok (Some rad) ->
               no_token_contains "c" data ->
               status r = Fail (SysExit (RequiredMissing "c" data))).
Proof.
  intros data r Hno. subst r. unfold generate_prototxt_files. fold data.
  destruct (get_value_int data "r" true) as [rad|f] eqn:Er.
  - apply get_value_int_ok in Er as (x & v & Eq & _ & ->).
    assert (Hc : no_token_starts_with "c" data).
    { destruct Hno as [Hr|Hc]; [|exact Hc].
      destruct (get_value_float_unprefixed "r" data eq_refl Hr) as [f Ef].
      congruence. }
    destruct (get_value_float_unprefixed "c" data eq_refl Hc) as [f Ef].
    rewrite Ef. cbn [written status].
    split; [reflexivity|].
    pose proof (get_value_float_fail _ _ _ Ef) as [->|[-> Hall]].
    + split; [tauto|]. split.
      * intros Hr. rewrite (get_value_float_missing _ _ Hr) in Eq. discriminate.
      * intros rad _ Hcc. rewrite (get_value_float_missing _ _ Hcc) in Ef.
        discriminate.
    + split; [tauto|]. split.
      * intros Hr. rewrite (get_value_float_missing _ _ Hr) in Eq. discriminate.
      * reflexivity.
  - cbn [written status]. split; [reflexivity|].
    apply get_value_int_fail in Er as [Er|(x & Ex & Hf)].
    + pose proof (get_value_float_fail _ _ _ Er) as [->|[-> Hall]].
      * split; [tauto|]. split.
        -- intros Hr. rewrite (get_value_float_missing _ _ Hr) in Er. discriminate.
        -- discriminate.
      * split; [tauto|]. split; [reflexivity | discriminate].
    + split; [destruct Hf as [-> | ->]; tauto|]. split.
      * intros Hr. rewrite (get_value_float_missing _ _ Hr) in Ex. discriminate.
      * discriminate.
Qed.

Lemma missing_radius_or_ratio_witness :
  (no_token_starts_with "r"
     (Py.split (nth 1 (Py.file_lines (config_of ["demo"; "c0.5"; "pool"]%string))
                  EmptyString)) \/
   no_token_starts_with "c"
     (Py.split (nth 1 (Py.file_lines (config_of ["demo"; "c0.5"; "pool"]%string))
                  EmptyString))) /\
  written (main (config_of ["demo"; "c0.5"; "pool"]%string) "bbtxt") = [] /\
  status (main (config_of ["demo"; "c0.5"; "pool"]%string) "bbtxt")
    = Fail (SysExit (RequiredMissing "r" ["c0.5"%string])).
Proof.
  assert (Hno : no_token_starts_with "r"
                  (Py.split (nth 1 (Py.file_lines
                                      (config_of ["demo"; "c0.5"; "pool"]%string))
                               EmptyString))).
  { intros t Ht. vm_compute in Ht. destruct Ht as [<-|[]]. reflexivity. }
  split; [left; exact Hno|].
  destruct (missing_radius_or_ratio (init "bbtxt")
              (config_of ["demo"; "c0.5"; "pool"]%string) (or_introl Hno))
    as (Hw & _ & Hr & _).
  split; [exact Hw|].
  apply Hr. intros t Ht. vm_compute in Ht. destruct Ht as [<-|[]]. reflexivity.
Defined.

(** ** Further properties of runs *)

Lemma add_layers_downsampling (lines : list string) :
  forall (self self' : MACCNetGenerator) (outfile out1 : list entry) (deploy : bool),
    add_layers self lines outfile deploy = (out1, Ok self') ->
    downsampling self' = downsampling self * 2 ^ Z.of_nat (pool_count lines).
Proof.
  induction lines as [|line rest IH]; intros self self' outfile out1 deploy.
  - cbn. intros [= _ <-]. lia.
  - cbn [add_layers].
    destruct (_add_layer self line outfile deploy) as [o [s|f]] eqn:E; [|discriminate].
    intros H. rewrite (IH _ _ _ _ _ H). clear IH H.
    unfold pool_count. cbn [List.filter].
    revert E. unfold _add_layer.
    destruct (String.eqb (Py.take_str 4 line) "conv") eqn:Ec.
    { apply String.eqb_eq in Ec. rewrite Ec. cbn [String.eqb Ascii.eqb Bool.eqb].
      destruct (_layer_conv self line deploy) as [[out s1]|f] eqn:E; [|discriminate].
      intros [= _ <-].
      apply layer_conv_emitted in E
        as (o' & k' & d & fov & ft & st & _ & _ & _ & _ & _ & _ & ->).
      reflexivity. }
    destruct (String.eqb (Py.take_str 4 line) "pool") eqn:Ep.
    { unfold _layer_pool. intros [= _ <-]. cbn [downsampling length].
      rewrite Nat2Z.inj_succ, Z.pow_succ_r by lia. lia. }
    destruct (String.eqb (Py.take_str 4 line) "macc").
    { destruct (_layer_macc self line deploy) as [[out s1]|f] eqn:E; [|discriminate].
      intros [= _ <-].
      apply layer_macc_inv in E
        as (scale & bb & fov & ft & bt & bottom & _ & _ & _ & _ & _ & _ & _ & ->).
      reflexivity. }
    now intros [= _ <-].
Qed.

(** X1. In a pass, the downsampling factor is 2 to the number of [pool]
    directives gone through: directives of the other kinds leave it alone. *)
Theorem downsampling_power_of_two (self0 self : MACCNetGenerator)
    (lines : list string) (out0 out : list entry) (deploy : bool) :
  add_layers (reset self0) lines out0 deploy = (out, Ok self) ->
  downsampling self = 2 ^ Z.of_nat (pool_count lines) /\
  0 < downsampling self.
Proof.
  intros H. apply add_layers_downsampling in H. cbn [downsampling reset] in H.
  rewrite H. split; [lia|]. apply Z.mul_pos_pos; [lia|]. apply Z.pow_pos_nonneg; lia.
Qed.

Lemma downsampling_power_of_two_witness :
  exists out self,
    add_layers (reset (init "bbtxt"))
      ["conv k3 o8"; "pool"; "conv k3 o8"; "pool"; "relu"; "pool"]%string [] false
      = (out, Ok self) /\
    downsampling self = 8.
Proof.
  destruct (add_layers (reset (init "bbtxt"))
              ["conv k3 o8"; "pool"; "conv k3 o8"; "pool"; "relu"; "pool"]%string
              [] false) as [out [self|f]] eqn:H; [|vm_compute in H; discriminate].
  exists out, self. split; [reflexivity|].
  exact (proj1 (downsampling_power_of_two _ _ _ _ _ _ H)).
Defined.

(** X2. A pass leaves no trace in the generator that [reset] does not wipe:
    after any run of directives, [reset] gives the generator [reset] gave
    before it, so the second pass starts as the first one did. *)
Theorem reset_after_run (self self' : MACCNetGenerator) (lines : list string)
    (outfile out1 : list entry) (deploy : bool) :
  add_layers self lines outfile deploy = (out1, Ok self') ->
  reset self' = reset self /\
  bb_type self' = bb_type self /\ name self' = name self /\
  radius self' = radius self /\ circle_ratio self' = circle_ratio self.
Proof.
  intros H. pose proof (add_layers_config _ _ _ _ _ _ H) as Hc.
  split; [symmetry; now apply reset_same_config|].
  destruct Hc as (H1 & H2 & H3 & H4). now rewrite H1, H2, H3, H4.
Qed.

Lemma reset_after_run_witness :
  exists out self,
    add_layers (configure (init "bbtxt") "demo" 1 (Py.FNum (Qmake 1 2)))
      ["conv k3 o8"; "pool"; "conv k3 o8"; "macc x2"]%string [] false
      = (out, Ok self) /\
    reset self = reset (configure (init "bbtxt") "demo" 1 (Py.FNum (Qmake 1 2))).
Proof.
  destruct (add_layers (configure (init "bbtxt") "demo" 1 (Py.FNum (Qmake 1 2)))
              ["conv k3 o8"; "pool"; "conv k3 o8"; "macc x2"]%string [] false)
    as [out [self|f]] eqn:H; [|vm_compute in H; discriminate].
  exists out, self. split; [reflexivity|].
  exact (proj1 (reset_after_run _ _ _ _ _ _ H)).
Defined.

Lemma add_layers_outfile (lines : list string) :
  forall (self : MACCNetGenerator) (outfile : list entry) (deploy : bool),
    add_layers self lines outfile deploy =
      (outfile ++ fst (add_layers self lines [] deploy),
       snd (add_layers self lines [] deploy)).
Proof.
  induction lines as [|line rest IH]; intros self outfile deploy.
  - cbn. now rewrite app_nil_r.
  - cbn [add_layers]. rewrite (add_layer_outfile self line outfile).
    destruct (_add_layer self line [] deploy) as [o [s|f]]; cbn [fst snd].
    + rewrite (IH s (outfile ++ o)), (IH s o). cbn [fst snd].
      now rewrite app_assoc.
    + reflexivity.
Qed.

(** X3. Directives only append to the output file: what a run writes does
    not depend on what the file holds, whether the run completes or stops,
    and the generator or failure it ends with does not either. *)
Theorem run_only_appends (lines : list string) (self : MACCNetGenerator)
    (outfile : list entry) (deploy : bool) :
  add_layers self lines outfile deploy =
    (outfile ++ fst (add_layers self lines [] deploy),
     snd (add_layers self lines [] deploy)).
Proof. apply add_layers_outfile. Qed.

(** *** How a run can stop *)

Lemma float_of_int_fail (z : Z) (f : failure) :
  Py.float_of_int z = Fail f -> f = OverflowError.
Proof.
  unfold Py.float_of_int. destruct (Py.round64 _); try discriminate.
  now intros [= <-].
Qed.

Lemma to_float_fail (a : Py.num) (f : failure) :
  Py.to_float a = Fail f -> f = OverflowError.
Proof. destruct a; cbn; [apply float_of_int_fail | discriminate]. Qed.

Lemma add_fail (a b : Py.num) (f : failure) :
  Py.add a b = Fail f -> f = OverflowError.
Proof.
  unfold Py.add. intros H.
  assert (G : (let* x := Py.to_float a in
               let* y := Py.to_float b in
               Ok (Py.NFloat (Py.fadd x y))) = Fail f).
  { destruct a, b; try exact H. discriminate. }
  clear H.
  destruct (Py.to_float a) as [u|fu] eqn:Eu; cbn [bind] in G.
  - destruct (Py.to_float b) as [v|fv] eqn:Ev; cbn [bind] in G; [discriminate|].
    injection G as <-. eapply to_float_fail, Ev.
  - injection G as <-. eapply to_float_fail, Eu.
Qed.

Lemma sub_fail (a b : Py.num) (f : failure) :
  Py.sub a b = Fail f -> f = OverflowError.
Proof.
  unfold Py.sub. intros H.
  assert (G : (let* x := Py.to_float a in
               let* y := Py.to_float b in
               Ok (Py.NFloat (Py.fsub x y))) = Fail f).
  { destruct a, b; try exact H. discriminate. }
  clear H.
  destruct (Py.to_float a) as [u|fu] eqn:Eu; cbn [bind] in G.
  - destruct (Py.to_float b) as [v|fv] eqn:Ev; cbn [bind] in G; [discriminate|].
    injection G as <-. eapply to_float_fail, Ev.
  - injection G as <-. eapply to_float_fail, Eu.
Qed.

Lemma half_up_fail (ds : Z) (f : failure) :
  half_up ds = Fail f -> f = OverflowError.
Proof.
  unfold half_up, Py.div_float.
  destruct (Py.to_float (Py.NInt ds)) as [x|fx] eqn:E; cbn [bind].
  - unfold Py.fdiv. change (Py.is_zero Py.two) with false. discriminate.
  - intros [= <-]. eapply to_float_fail, E.
Qed.

Lemma fmt_d_float_fail (x : Py.float) (f : failure) :
  Py.fmt_d_float x = Fail f -> numeric f.
Proof.
  unfold Py.fmt_d_float, numeric.
  destruct (Py.int_of_float x); [discriminate|]. intros [= <-]. tauto.
Qed.

Lemma fmt_d_num_fail (a : Py.num) (f : failure) :
  Py.fmt_d_num a = Fail f -> numeric f.
Proof. destruct a; cbn; [discriminate | apply fmt_d_float_fail]. Qed.

(** A convolution whose line is read stops only on a number it cannot
    convert. *)
Lemma conv_emit_fail (self : MACCNetGenerator) (deploy : bool) (o k : Z)
    (d : option Z) (f : failure) :
  conv_emit self deploy o k d = Fail f -> numeric f.
Proof.
  unfold conv_emit, conv_fov.
  destruct (Py.add _ _) as [sum|f1] eqn:E1; cbn [bind];
    [|intros [= <-]; right; left; eapply add_fail, E1].
  destruct (half_up _) as [c|f2] eqn:E2; cbn [bind];
    [|intros [= <-]; right; left; eapply half_up_fail, E2].
  destruct (Py.sub sum _) as [fov|f3] eqn:E3; cbn [bind];
    [|intros [= <-]; right; left; eapply sub_fail, E3].
  destruct (Py.fmt_d_num fov) as [ft|f4] eqn:E4; cbn [bind];
    [|intros [= <-]; eapply fmt_d_num_fail, E4].
  destruct (Py.sub (fov_prev_downsampling self) _) as [second|f5] eqn:E5; cbn [bind];
    [|intros [= <-]; right; left; eapply sub_fail, E5].
  destruct (Py.fmt_d_num second) as [st|f6] eqn:E6; cbn [bind];
    [discriminate|intros [= <-]; eapply fmt_d_num_fail, E6].
Qed.

(** Whether required or not, a value fails to be read only by the exception
    of a number conversion or by the printed error of a missing required
    value. *)
Lemma get_value_int_fail_kind (data : list string) (id : string)
    (required : bool) (f : failure) :
  get_value_int data id required = Fail f ->
  numeric f \/
  (required = true /\ f = SysExit (RequiredMissing id data) /\
   no_token_contains id data).
Proof.
  unfold get_value_int, get_value_float, numeric.
  destruct (List.find (Py.str_in id) data) as [val|] eqn:Ef.
  - destruct (Py.float_of_string _) as [x|]; cbn [bind].
    + destruct x; cbn; try discriminate; intros [= <-]; tauto.
    + intros [= <-]. tauto.
  - destruct required; cbn; [|discriminate]. intros [= <-]. right.
    split; [reflexivity|]. split; [reflexivity|].
    intros t Ht. exact (List.find_none _ _ Ef t Ht).
Qed.

Lemma bb_ideal_of_fail (self : MACCNetGenerator) (scale : Z) (f : failure) :
  bb_ideal_of self scale = Fail f ->
  f = OverflowError \/
  (f = ZeroDivisionError /\ Py.is_zero (circle_ratio self) = true).
Proof.
  unfold bb_ideal_of, Py.div_float.
  destruct (Py.to_float _) as [x|fx] eqn:E; cbn [bind].
  - unfold Py.fdiv. destruct (Py.is_zero (circle_ratio self)); [|discriminate].
    intros [= <-]. tauto.
  - intros [= <-]. left. eapply to_float_fail, E.
Qed.

Lemma add_layer_failure (self : MACCNetGenerator) (line : string)
    (outfile out1 : list entry) (deploy : bool) (f : failure) :
  consistent self ->
  _add_layer self line outfile deploy = (out1, Fail f) ->
  directive_failure self line f.
Proof.
  intros (Ht & _).
  assert (Hnum : forall g, numeric g -> directive_failure self line g).
  { intros g Hg. now left. }
  unfold _add_layer.
  destruct (String.eqb _ "conv").
  { unfold _layer_conv.
    destruct (get_value_int _ "o" true) as [[o|]|fo] eqn:Eo; cbn [bind].
    - destruct (get_value_int _ "k" true) as [[k|]|fk] eqn:Ek; cbn [bind].
      + destruct (get_value_int _ "d" false) as [d|fd] eqn:Ed; cbn [bind need].
        * destruct (conv_emit self deploy o k d) as [[out s]|fe] eqn:Ee;
            [discriminate|].
          intros [= _ <-]. apply Hnum. eapply conv_emit_fail, Ee.
        * intros [= _ <-].
          apply get_value_int_fail_kind in Ed as [Hn|(Hreq & _)];
            [now apply Hnum | discriminate].
      + now apply get_value_int_required in Ek.
      + intros [= _ <-].
        apply get_value_int_fail_kind in Ek as [Hn|(_ & -> & _)]; [now apply Hnum|].
        unfold directive_failure. right; left. exists "k"%string. cbn. tauto.
    - now apply get_value_int_required in Eo.
    - intros [= _ <-].
      apply get_value_int_fail_kind in Eo as [Hn|(_ & -> & _)]; [now apply Hnum|].
      unfold directive_failure. right; left. exists "o"%string. cbn. tauto. }
  destruct (String.eqb _ "pool").
  { destruct (_layer_pool self). discriminate. }
  destruct (String.eqb _ "macc"); [|discriminate].
  unfold _layer_macc.
  destruct (get_value_int _ "x" true) as [[scale|]|fx] eqn:Ex; cbn [bind].
  - unfold has_key, getitem.
    destruct (last_in_scale self !! scale) as [bottom|] eqn:Eb; cbn [negb].
    + destruct (bb_ideal_of self scale) as [bb|fb] eqn:Ebb; cbn [bind].
      * destruct (proj1 (Ht scale)) as [fov Hf]; [rewrite Eb; eauto|].
        rewrite Hf. cbn [bind].
        destruct (Py.fmt_d_num fov) as [ft|f1] eqn:E1; cbn [bind];
          [|intros [= _ <-]; apply Hnum; eapply fmt_d_num_fail, E1].
        destruct (Py.fmt_d_float bb) as [bt|f2] eqn:E2; cbn [bind];
          [discriminate|intros [= _ <-]; apply Hnum; eapply fmt_d_float_fail, E2].
      * intros [= _ <-].
        apply bb_ideal_of_fail in Ebb as [->|[-> Hz]];
          unfold directive_failure, numeric; tauto.
    + intros [= _ <-]. unfold directive_failure. tauto.
  - now apply get_value_int_required in Ex.
  - intros [= _ <-].
    apply get_value_int_fail_kind in Ex as [Hn|(_ & -> & _)]; [now apply Hnum|].
    unfold directive_failure. right; left. exists "x"%string. cbn. tauto.
Qed.

(** X4. A pass that stops does so at one of its directives, in one of these
    ways: the exception of a number that cannot be converted or printed (the
    ValueError of a token that is no number or of a not-a-number where an
    integer is needed, the OverflowError of a number too large for the
    conversion it meets, the TypeError of [%d] applied to a field of view or
    an ideal size that is not finite), the printed error of a directive
    without its required [o], [k] or [x], the printed error of an
    accumulator without convolution, or a division by a circle ratio that is
    zero.  A table or list look-up never fails: no KeyError, no
    IndexError. *)
Theorem run_failure_kinds (self0 : MACCNetGenerator) (lines : list string)
    (out0 out : list entry) (deploy : bool) (f : failure) :
  add_layers (reset self0) lines out0 deploy = (out, Fail f) ->
  (exists line, In line lines /\ directive_failure self0 line f) /\
  f <> KeyError /\ f <> IndexError.
Proof.
  intros H.
  assert (Hex : exists line, In line lines /\ directive_failure self0 line f).
  { assert (Hgen : forall ls self o1 o2,
               consistent self -> same_config self0 self ->
               add_layers self ls o1 deploy = (o2, Fail f) ->
               exists line, In line ls /\ directive_failure self0 line f).
    { induction ls as [|line rest IH]; intros self o1 o2 Hc Hs; cbn [add_layers];
        [discriminate|].
      destruct (_add_layer self line o1 deploy) as [o [s|f']] eqn:E.
      - intros Hr. destruct (IH s o o2) as (l & Hl & Hf); try exact Hr.
        + eapply add_layer_consistent; eassumption.
        + eapply same_config_trans; [exact Hs|]. eapply add_layer_config, E.
        + exists l. split; [now right | exact Hf].
      - intros [= _ <-]. exists line. split; [now left|].
        pose proof (add_layer_failure _ _ _ _ _ _ Hc E) as Hf.
        unfold directive_failure in *. destruct Hs as (_ & _ & _ & Hcr).
        now rewrite Hcr. }
    eapply Hgen; [apply consistent_reset | apply same_config_reset | exact H]. }
  split; [exact Hex|].
  destruct Hex as (line & _ & [[->|[->| ->]]|[(id & _ & ->)|[->|[-> _]]]]);
    split; discriminate.
Qed.

Lemma run_failure_kinds_witness :
  exists out,
    add_layers (reset (init "bbtxt")) ["conv k3 oinf"]%string [] false
      = (out, Fail OverflowError) /\
    exists line,
      In line ["conv k3 oinf"]%string /\
      directive_failure (init "bbtxt") line OverflowError.
Proof.
  destruct (add_layers (reset (init "bbtxt")) ["conv k3 oinf"]%string [] false)
    as [out [self|f]] eqn:H; [vm_compute in H; discriminate|].
  assert (Hf : f = OverflowError).
  { pose proof H as Hc. vm_compute in Hc. now injection Hc as _ <-. }
  subst f. exists out. split; [reflexivity|].
  exact (proj1 (run_failure_kinds _ _ _ _ _ _ H)).
Defined.

(** Directive lists that stop in each of the other ways.  In the last one
    the second convolution adds two finite fields of view whose sum is not. *)
Example failure_ways :
  snd (add_layers (reset (init "bbtxt")) ["conv k3 onan"]%string [] false)
    = Fail ValueError /\
  snd (add_layers (reset (init "bbtxt"))
         ["conv k7e307 o1"; "pool"; "conv k7e307 o1"]%string [] false)
    = Fail TypeError /\
  snd (add_layers (reset (init "bbtxt")) ["conv k3 o1e400"]%string [] false)
    = Fail OverflowError /\
  snd (add_layers (reset (init "bbtxt")) ["conv k3"]%string [] false)
    = Fail (SysExit (RequiredMissing "o" ["k3"%string])) /\
  snd (add_layers (reset (init "bbtxt")) ["conv k3 o8"; "macc x1"]%string [] false)
    = Fail ZeroDivisionError /\
  snd (add_layers (reset (init "bbtxt")) ["macc x1"]%string [] false)
    = Fail (SysExit (CannotCreate "macc x1")).
Proof. repeat split; vm_compute; reflexivity. Qed.

(** *** The loss and decode blocks *)

Lemma add_layer_accs_named (self self' : MACCNetGenerator) (line : string)
    (outfile out1 : list entry) (deploy : bool) :
  accs_named self ->
  _add_layer self line outfile deploy = (out1, Ok self') -> accs_named self'.
Proof.
  unfold accs_named, _add_layer. intros Hn.
  destruct (String.eqb _ "conv").
  { destruct (_layer_conv self line deploy) as [[out s]|f] eqn:E; [|discriminate].
    intros [= _ <-].
    apply layer_conv_emitted in E
      as (o & k & d & fov & ft & st & _ & _ & _ & _ & _ & _ & ->).
    exact Hn. }
  destruct (String.eqb _ "pool").
  { unfold _layer_pool. intros [= _ <-]. exact Hn. }
  destruct (String.eqb _ "macc").
  { destruct (_layer_macc self line deploy) as [[out s]|f] eqn:E; [|discriminate].
    intros [= _ <-].
    apply layer_macc_inv in E
      as (scale & bb & fov & ft & bt & bottom & _ & _ & _ & _ & _ & _ & _ & ->).
    cbn [acc_state accs acc_scales]. rewrite Hn, List.map_app. reflexivity. }
  now intros [= _ <-].
Qed.

Lemma add_layers_accs_named (lines : list string) :
  forall (self self' : MACCNetGenerator) (outfile out1 : list entry) (deploy : bool),
    accs_named self ->
    add_layers self lines outfile deploy = (out1, Ok self') -> accs_named self'.
Proof.
  induction lines as [|line rest IH]; intros self self' outfile out1 deploy Hn; cbn.
  - now intros [= _ <-].
  - destruct (_add_layer self line outfile deploy) as [o [s|f]] eqn:E; [|discriminate].
    intros H. eapply IH; [|exact H]. eapply add_layer_accs_named; eassumption.
Qed.

(** The recorded scales and ideal sizes are those of the [macc] directives
    gone through, in order: each directive adds its scale and the quotient
    computed for it. *)
Lemma add_layers_acc_scales (lines : list string) :
  forall (self self' : MACCNetGenerator) (outfile out1 : list entry) (deploy : bool),
    add_layers self lines outfile deploy = (out1, Ok self') ->
    acc_scales self' = acc_scales self ++ macc_scales lines /\
    List.map Ok (acc_bbs_ideal self')
    = List.map Ok (acc_bbs_ideal self)
      ++ List.map (bb_ideal_of self) (macc_scales lines) /\
    length (macc_scales lines) = macc_count lines.
Proof.
  induction lines as [|line rest IH]; intros self self' outfile out1 deploy.
  - cbn. intros [= _ <-]. now rewrite !app_nil_r.
  - cbn [add_layers].
    destruct (_add_layer self line outfile deploy) as [o [s|f]] eqn:E; [|discriminate].
    intros H. destruct (IH _ _ _ _ _ H) as (Hs & Hb & Hl). clear IH.
    pose proof (add_layer_config _ _ _ _ _ _ E) as (_ & _ & Hr & Hc).
    assert (Hbb : forall sc, bb_ideal_of s sc = bb_ideal_of self sc).
    { intros sc. unfold bb_ideal_of. now rewrite Hr, Hc. }
    rewrite (map_ext _ _ Hbb) in Hb.
    unfold macc_scales, macc_count in *. cbn [flat_map List.filter].
    revert E. unfold _add_layer.
    destruct (String.eqb (Py.take_str 4 line) "conv") eqn:Ec.
    { apply String.eqb_eq in Ec. rewrite Ec. cbn [String.eqb Ascii.eqb Bool.eqb].
      destruct (_layer_conv self line deploy) as [[out s1]|f] eqn:E; [|discriminate].
      intros [= _ <-].
      apply layer_conv_emitted in E
        as (o' & k' & d & fov & ft & st & _ & _ & _ & _ & _ & _ & ->).
      cbn [conv_state acc_scales acc_bbs_ideal] in Hs, Hb. cbn [app]. tauto. }
    destruct (String.eqb (Py.take_str 4 line) "pool") eqn:Ep.
    { apply String.eqb_eq in Ep. rewrite Ep. cbn [String.eqb Ascii.eqb Bool.eqb].
      unfold _layer_pool. intros [= _ <-].
      cbn [acc_scales acc_bbs_ideal] in Hs, Hb. cbn [app]. tauto. }
    destruct (String.eqb (Py.take_str 4 line) "macc") eqn:Em.
    { destruct (_layer_macc self line deploy) as [[out s1]|f] eqn:E; [|discriminate].
      intros [= _ <-].
      apply layer_macc_inv in E
        as (scale & bb & fov & ft & bt & bottom & Hx & Hbb' & _ & _ & _ & _ & _ & ->).
      cbn [acc_state acc_scales acc_bbs_ideal] in Hs, Hb.
      rewrite Hx. cbn [app length List.map].
      rewrite Hs, Hb, List.map_app, <- !app_assoc. cbn [app List.map].
      rewrite Hbb'.
      split; [reflexivity|]. split; [reflexivity|]. lia. }
    intros [= _ <-]. cbn [app]. tauto.
Qed.

(** The look-ups of the i-th loss or decode block succeed, and the two
    numbers of its comments can be printed. *)
Lemma accumulator_lookups (self : MACCNetGenerator) (i : nat) :
  consistent self -> (i < length (accs self))%nat ->
  exists scale fov fov_text bb bb_text acc,
    acc_scales self !! i = Some scale /\
    last_in_scale_fov self !! scale = Some fov /\
    Py.fmt_d_num fov = Ok fov_text /\
    acc_bbs_ideal self !! i = Some bb /\
    Py.fmt_d_float bb = Ok bb_text /\
    accs self !! i = Some acc.
Proof.
  intros (_ & Hl1 & Hl2 & Hs & _ & _ & Hpf & Hpb & _) Hi.
  destruct (lookup_lt_is_Some_2 (acc_scales self) i) as [scale Hsc]; [lia|].
  destruct (lookup_lt_is_Some_2 (acc_bbs_ideal self) i) as [bb Hbb]; [lia|].
  destruct (lookup_lt_is_Some_2 (accs self) i) as [acc Hacc]; [lia|].
  destruct (Forall_lookup_1 _ _ _ _ Hs Hsc) as [fov Hfov].
  destruct (Hpf _ _ Hfov) as [fov_text Hft].
  destruct (Forall_lookup_1 _ _ _ _ Hpb Hbb) as [bb_text Hbt].
  exists scale, fov, fov_text, bb, bb_text, acc. tauto.
Qed.

Lemma loss_layers_ok (self : MACCNetGenerator) :
  consistent self ->
  forall (n a : nat), (a + n = length (accs self))%nat ->
    exists ls,
      collect (List.map (loss_layer self) (seq a n)) = Ok ls /\
      layers ls = List.map block_body ls /\
      List.map layer_name (layers ls)
        = List.map (fun sc => Some (VStr (String.append "loss_x" (Py.fmt_d sc))))
            (drop a (acc_scales self)) /\
      List.map (fields "bottom") (layers ls)
        = List.map (fun acc => [VStr "label"; VStr acc]) (drop a (accs self)).
Proof.
  intros Hc. pose proof Hc as (_ & Hl1 & _).
  induction n as [|n IH]; intros a Ha; cbn [seq List.map collect].
  - exists []. rewrite !drop_ge by lia. repeat split.
  - destruct (accumulator_lookups self a Hc ltac:(lia))
      as (scale & fov & ft & bb & bt & acc & Hsc & Hfov & Hft & Hbb & Hbt & Hacc).
    destruct (IH (S a) ltac:(lia)) as (ls & Hls & Hlay & Hnames & Hbots).
    unfold loss_layer at 1, getindex, getitem.
    rewrite Hsc; cbn [bind]. rewrite Hfov; cbn [bind]. rewrite Hft; cbn [bind].
    rewrite Hbb; cbn [bind]. rewrite Hbt; cbn [bind].
    rewrite Hacc; cbn [bind]. rewrite Hls; cbn [bind].
    eexists. split; [reflexivity|].
    rewrite (drop_S _ _ _ Hsc), (drop_S _ _ _ Hacc).
    cbn [layers String.eqb Ascii.eqb Bool.eqb List.map block_body].
    rewrite <- Hlay, Hnames, Hbots. repeat split; reflexivity.
Qed.

Lemma bb_layers_ok (self : MACCNetGenerator) :
  consistent self ->
  forall (n a : nat), (a + n = length (accs self))%nat ->
    exists ls,
      collect (List.map (bb_layer self) (seq a n)) = Ok ls /\
      layers ls = List.map block_body ls /\
      List.map layer_name (layers ls)
        = List.map (fun sc => Some (VStr (String.append "bb_x" (Py.fmt_d sc))))
            (drop a (acc_scales self)) /\
      List.map (fields "bottom") (layers ls)
        = List.map (fun acc => [VStr acc]) (drop a (accs self)) /\
      List.map (fields "top") (layers ls)
        = List.map (fun acc => [VStr acc]) (drop a (accs self)) /\
      List.map (sub_block "bbtxt_bb_param") (layers ls)
        = List.map (fun p => Some [ Field "ideal_size" (VFloat (fst p));
                                    Field "downsampling" (VInt (snd p)) ])
            (drop a (zip (acc_bbs_ideal self) (acc_scales self))).
Proof.
  intros Hc. pose proof Hc as (_ & Hl1 & Hl2 & _).
  induction n as [|n IH]; intros a Ha; cbn [seq List.map collect].
  - exists []. rewrite !drop_ge by (rewrite ?length_zip; lia). repeat split.
  - destruct (accumulator_lookups self a Hc ltac:(lia))
      as (scale & fov & ft & bb & bt & acc & Hsc & Hfov & Hft & Hbb & Hbt & Hacc).
    destruct (IH (S a) ltac:(lia))
      as (ls & Hls & Hlay & Hnames & Hbots & Htops & Hparams).
    unfold bb_layer at 1, getindex, getitem.
    rewrite Hsc; cbn [bind]. rewrite Hfov; cbn [bind]. rewrite Hft; cbn [bind].
    rewrite Hbb; cbn [bind]. rewrite Hbt; cbn [bind].
    rewrite Hacc; cbn [bind]. rewrite Hls; cbn [bind].
    eexists. split; [reflexivity|].
    assert (Hz : zip (acc_bbs_ideal self) (acc_scales self) !! a = Some (bb, scale)).
    { apply lookup_zip_with_Some. exists bb, scale. tauto. }
    rewrite (drop_S _ _ _ Hsc), (drop_S _ _ _ Hacc), (drop_S _ _ _ Hz).
    cbn [layers String.eqb Ascii.eqb Bool.eqb List.map block_body fst snd].
    rewrite <- Hlay, Hnames, Hbots, Htops, Hparams. repeat split; reflexivity.
Qed.

(** The recorded pairs of ideal size and scale, from the scales alone. *)
Lemma zip_ideal_scales (self : MACCNetGenerator) :
  forall (bbs : list Py.float) (scs : list Z),
    List.map Ok bbs = List.map (bb_ideal_of self) scs ->
    List.map (fun p => Some [ Field "ideal_size" (VFloat (fst p));
                              Field "downsampling" (VInt (snd p)) ])
      (zip bbs scs)
    = List.map (fun sc =>
                  match bb_ideal_of self sc with
                  | Ok bb => Some [ Field "ideal_size" (VFloat bb);
                                    Field "downsampling" (VInt sc) ]
                  | Fail _ => None
                  end)
        scs.
Proof.
  induction bbs as [|bb bbs IH]; intros [|sc scs]; cbn; try discriminate.
  - reflexivity.
  - intros [= Hbb Hrest]. rewrite <- Hbb. cbn. f_equal. now apply IH.
Qed.

(** X5. After any run of directives the loss blocks can be written, no
    look-up failing: after the banner there is exactly one block per [macc]
    directive of the run, in the order of the directives, named
    [loss_x<scale>] with the scale of the directive and taking the label and
    the accumulator [acc_x<scale>] as bottoms. *)
Theorem loss_blocks_after_run (self0 self : MACCNetGenerator)
    (lines : list string) (out0 out : list entry) (deploy : bool) :
  add_layers (reset self0) lines out0 deploy = (out, Ok self) ->
  exists banner ls,
    _layer_loss self = Ok (Blank :: Comment banner :: ls) /\
    layers ls = List.map block_body ls /\
    length ls = macc_count lines /\
    List.map layer_name (layers ls)
      = List.map (fun sc => Some (VStr (String.append "loss_x" (Py.fmt_d sc))))
          (macc_scales lines) /\
    List.map (fields "bottom") (layers ls)
      = List.map (fun sc => [VStr "label"; VStr (acc_name sc)]) (macc_scales lines).
Proof.
  intros H.
  pose proof (add_layers_consistent _ _ _ _ _ _ (consistent_reset self0) H) as Hc.
  assert (Hn : accs_named self).
  { eapply add_layers_accs_named; [|exact H]. reflexivity. }
  destruct (add_layers_acc_scales _ _ _ _ _ _ H) as (Hs & _ & Hl).
  cbn [reset acc_scales app] in Hs.
  destruct (loss_layers_ok self Hc (length (accs self)) O eq_refl)
    as (ls & Hls & Hlay & Hnames & Hbots).
  unfold _layer_loss. rewrite Hls. cbn [bind app].
  do 2 eexists. split; [reflexivity|]. split; [exact Hlay|].
  rewrite drop_0 in Hnames. rewrite drop_0 in Hbots.
  rewrite Hn in Hbots. rewrite Hs in Hnames, Hbots.
  split.
  { rewrite <- Hl. apply (f_equal (@length _)) in Hnames.
    rewrite !length_map in Hnames. rewrite Hlay, length_map in Hnames. exact Hnames. }
  split; [exact Hnames|].
  rewrite Hbots, List.map_map. reflexivity.
Qed.

Lemma loss_blocks_after_run_witness :
  exists out self banner ls,
    add_layers (reset (configure (init "bbtxt") "demo" 1 (Py.FNum (Qmake 1 2))))
      ["conv k3 o8"; "macc x1"; "pool"; "conv k3 o8"; "macc x2"]%string [] false
      = (out, Ok self) /\
    _layer_loss self = Ok (Blank :: Comment banner :: ls) /\
    List.map layer_name (layers ls)
      = [ Some (VStr "loss_x1"); Some (VStr "loss_x2") ].
Proof.
  destruct (add_layers (reset (configure (init "bbtxt") "demo" 1 (Py.FNum (Qmake 1 2))))
              ["conv k3 o8"; "macc x1"; "pool"; "conv k3 o8"; "macc x2"]%string
              [] false) as [out [self|f]] eqn:H; [|vm_compute in H; discriminate].
  destruct (loss_blocks_after_run _ _ _ _ _ _ H)
    as (banner & ls & Hl & _ & _ & Hnames & _).
  exists out, self, banner, ls. split; [reflexivity|]. split; [exact Hl|].
  rewrite Hnames. reflexivity.
Defined.

(** X6. After any run of directives the decode blocks can be written too:
    exactly one per [macc] directive of the run, in the order of the
    directives, named [bb_x<scale>] with the scale of the directive, working
    in place on the accumulator [acc_x<scale>], with the ideal size computed
    for that scale and the scale as parameters. *)
Theorem decode_blocks_after_run (self0 self : MACCNetGenerator)
    (lines : list string) (out0 out : list entry) (deploy : bool) :
  add_layers (reset self0) lines out0 deploy = (out, Ok self) ->
  exists banner ls,
    _layer_bb self = Ok (Blank :: Comment banner :: ls) /\
    layers ls = List.map block_body ls /\
    length ls = macc_count lines /\
    List.map layer_name (layers ls)
      = List.map (fun sc => Some (VStr (String.append "bb_x" (Py.fmt_d sc))))
          (macc_scales lines) /\
    List.map (fields "bottom") (layers ls)
      = List.map (fun sc => [VStr (acc_name sc)]) (macc_scales lines) /\
    List.map (fields "top") (layers ls)
      = List.map (fields "bottom") (layers ls) /\
    List.map (sub_block "bbtxt_bb_param") (layers ls)
      = List.map (fun sc =>
                    match bb_ideal_of self0 sc with
                    | Ok bb => Some [ Field "ideal_size" (VFloat bb);
                                      Field "downsampling" (VInt sc) ]
                    | Fail _ => None
                    end)
          (macc_scales lines) /\
    Forall (fun sc => exists bb, bb_ideal_of self0 sc = Ok bb) (macc_scales lines).
Proof.
  intros H.
  pose proof (add_layers_consistent _ _ _ _ _ _ (consistent_reset self0) H) as Hc.
  assert (Hn : accs_named self).
  { eapply add_layers_accs_named; [|exact H]. reflexivity. }
  destruct (add_layers_acc_scales _ _ _ _ _ _ H) as (Hs & Hb & Hl).
  cbn [reset acc_scales acc_bbs_ideal app List.map] in Hs, Hb.
  assert (Hbb : forall sc, bb_ideal_of (reset self0) sc = bb_ideal_of self0 sc)
    by reflexivity.
  rewrite (map_ext _ _ Hbb) in Hb.
  destruct (bb_layers_ok self Hc (length (accs self)) O eq_refl)
    as (ls & Hls & Hlay & Hnames & Hbots & Htops & Hparams).
  unfold _layer_bb. rewrite Hls. cbn [bind app].
  do 2 eexists. split; [reflexivity|]. split; [exact Hlay|].
  rewrite drop_0 in Hnames. rewrite drop_0 in Hbots. rewrite drop_0 in Htops.
  rewrite drop_0 in Hparams.
  rewrite Hn in Hbots, Htops. rewrite Hs in Hnames, Hbots, Htops, Hparams.
  split.
  { rewrite <- Hl. apply (f_equal (@length _)) in Hnames.
    rewrite !length_map in Hnames. rewrite Hlay, length_map in Hnames. exact Hnames. }
  split; [exact Hnames|].
  split; [rewrite Hbots, List.map_map; reflexivity|].
  split; [congruence|].
  split; [rewrite Hparams; apply zip_ideal_scales, Hb|].
  clear - Hb. revert Hb. generalize (acc_bbs_ideal self) as bbs.
  induction (macc_scales lines) as [|sc scs IH]; intros bbs Hb; [constructor|].
  destruct bbs as [|bb bbs]; [discriminate|]. cbn in Hb. injection Hb as Hbb Hrest.
  constructor; [eauto | eapply IH, Hrest].
Qed.

Lemma decode_blocks_after_run_witness :
  exists out self banner ls,
    add_layers (reset (configure (init "bbtxt") "demo" 1 (Py.FNum (Qmake 1 2))))
      ["conv k3 o8"; "macc x1"; "pool"; "conv k3 o8"; "macc x2"]%string [] true
      = (out, Ok self) /\
    _layer_bb self = Ok (Blank :: Comment banner :: ls) /\
    List.map layer_name (layers ls)
      = [ Some (VStr "bb_x1"); Some (VStr "bb_x2") ] /\
    List.map (sub_block "bbtxt_bb_param") (layers ls)
      = [ Some [ Field "ideal_size" (VFloat (Py.FNum (Qmake 6 1)));
                 Field "downsampling" (VInt 1) ];
          Some [ Field "ideal_size" (VFloat (Py.FNum (Qmake 12 1)));
                 Field "downsampling" (VInt 2) ] ].
Proof.
  destruct (add_layers (reset (configure (init "bbtxt") "demo" 1 (Py.FNum (Qmake 1 2))))
              ["conv k3 o8"; "macc x1"; "pool"; "conv k3 o8"; "macc x2"]%string
              [] true) as [out [self|f]] eqn:H; [|vm_compute in H; discriminate].
  destruct (decode_blocks_after_run _ _ _ _ _ _ H)
    as (banner & ls & Hl & _ & _ & Hnames & _ & _ & Hparams & _).
  exists out, self, banner, ls. split; [reflexivity|]. split; [exact Hl|].
  split; [rewrite Hnames; reflexivity|].
  rewrite Hparams. vm_compute. reflexivity.
Defined.

(** *** The files of a run *)

(** X7. A run that stops leaves no deploy document: either no file was
    opened (the second line of the configuration could not be read) or only
    the train_val file, with what was written before the failure.  Once the
    train_val document is complete nothing can stop the run. *)
Theorem failed_run_leaves_no_deploy (self : MACCNetGenerator) (config : string)
    (f : failure) :
  status (generate_prototxt_files self config) = Fail f ->
  written (generate_prototxt_files self config) = [] \/
  exists doc,
    written (generate_prototxt_files self config)
      = [ (String.append (nth 0 (Py.file_lines config) EmptyString)
             "_train_val.prototxt", doc) ].
Proof.
  unfold generate_prototxt_files.
  destruct (get_value_int _ "r" true) as [[r|]|fr]; [| |now left].
  2: destruct (get_value_float _ "c" true) as [c|]; now left.
  destruct (get_value_float _ "c" true) as [[c|]|fc]; [| now left | now left].
  destruct (train_val_pass _ _) as [train [s1|ft]] eqn:Et.
  - destruct (deploy_follows_train _ _ _ _ Et) as (deploy & s2 & Ed & _).
    rewrite Ed. discriminate.
  - intros _. right. now exists train.
Qed.

Lemma failed_run_leaves_no_deploy_witness :
  status (generate_prototxt_files (init "bbtxt") demo_config)
    = Fail (SysExit (CannotCreate "macc x2")) /\
  List.map fst (written (generate_prototxt_files (init "bbtxt") demo_config))
    = [ "demo_train_val.prototxt"%string ].
Proof.
  assert (H : status (generate_prototxt_files (init "bbtxt") demo_config)
              = Fail (SysExit (CannotCreate "macc x2"))) by (vm_compute; reflexivity).
  split; [exact H|].
  destruct (failed_run_leaves_no_deploy _ _ _ H) as [Hw|[doc Hw]]; rewrite Hw.
  - exfalso. vm_compute in Hw. discriminate.
  - reflexivity.
Defined.

(** *** The deploy variant of a block *)

Lemma add_layer_strip (self : MACCNetGenerator) (line : string) :
  fst (_add_layer self line [] true)
    = List.map strip (fst (_add_layer self line [] false)) /\
  snd (_add_layer self line [] true) = snd (_add_layer self line [] false).
Proof.
  unfold _add_layer.
  destruct (String.eqb _ "conv").
  { unfold _layer_conv.
    destruct (get_value_int _ "o" true) as [[o|]|]; cbn [bind need]; try tauto;
      destruct (get_value_int _ "k" true) as [[k|]|]; cbn [bind need]; try tauto;
      destruct (get_value_int _ "d" false) as [[d|]|]; cbn [bind need]; try tauto.
    all: unfold conv_emit.
    all: destruct (conv_fov _ _ _) as [fov|]; cbn [bind]; try tauto.
    all: destruct (Py.fmt_d_num fov) as [ft|]; cbn [bind]; try tauto.
    all: destruct (half_up _) as [c|]; cbn [bind]; try tauto.
    all: destruct (Py.sub _ _) as [second|]; cbn [bind]; try tauto.
    all: destruct (Py.fmt_d_num second) as [st|]; cbn [bind]; try tauto.
    all: split; reflexivity. }
  destruct (String.eqb _ "pool").
  { unfold _layer_pool. split; reflexivity. }
  destruct (String.eqb _ "macc"); [|split; reflexivity].
  unfold _layer_macc.
  destruct (get_value_int _ "x" true) as [[scale|]|]; cbn [bind]; try tauto.
  destruct (negb _); try tauto.
  destruct (bb_ideal_of self scale) as [bb|]; cbn [bind]; try tauto.
  destruct (getitem (last_in_scale_fov self) scale) as [fov|]; cbn [bind]; try tauto.
  destruct (Py.fmt_d_num fov) as [ft|]; cbn [bind]; try tauto.
  destruct (Py.fmt_d_float bb) as [bt|]; cbn [bind]; try tauto.
  destruct (getitem (last_in_scale self) scale); cbn [bind]; try tauto.
  all: split; reflexivity.
Qed.

Lemma add_layers_strip (lines : list string) :
  forall (self : MACCNetGenerator) (out1 out2 : list entry),
    out2 = List.map strip out1 ->
    fst (add_layers self lines out2 true)
      = List.map strip (fst (add_layers self lines out1 false)) /\
    snd (add_layers self lines out2 true) = snd (add_layers self lines out1 false).
Proof.
  induction lines as [|line rest IH]; intros s out1 out2 Hout; cbn [add_layers].
  - cbn. tauto.
  - rewrite (add_layer_outfile s line out1), (add_layer_outfile s line out2).
    destruct (add_layer_strip s line) as [Hf Hs].
    destruct (_add_layer s line [] false) as [o1 r1].
    destruct (_add_layer s line [] true) as [o2 r2].
    cbn [fst snd] in *. subst r2 o2.
    destruct r1 as [s1|f].
    + apply IH. now rewrite Hout, List.map_app.
    + cbn [fst snd]. now rewrite Hout, List.map_app.
Qed.

(** X8. What the deploy pass writes for a list of directives is what the
    train_val pass writes for it with the [param], [weight_filler] and
    [bias_filler] sub-blocks taken out, and nothing else changed; both passes
    end with the same generator, or stop at the same directive with the same
    failure. *)
Theorem deploy_is_stripped_train (lines : list string) (self : MACCNetGenerator) :
  fst (add_layers self lines [] true)
    = List.map strip (fst (add_layers self lines [] false)) /\
  snd (add_layers self lines [] true) = snd (add_layers self lines [] false).
Proof. now apply add_layers_strip. Qed.

(** X16. The two documents of a completed run: the train_val document is
    its header (name, the two data blocks, banners), the network and the loss
    blocks; the deploy document is its header (name, input block, banners),
    the same network without the train-only sub-blocks, and the decode
    blocks.  Loss and decode blocks are built from the generator the network
    pass ends with. *)
Theorem completed_run_documents (self : MACCNetGenerator) (config : string) :
  status (generate_prototxt_files self config) = Ok tt ->
  exists r c net loss bb self',
    get_value_int (Py.split (nth 1 (Py.file_lines config) EmptyString)) "r" true
      = Ok (Some r) /\
    get_value_float (Py.split (nth 1 (Py.file_lines config) EmptyString)) "c" true
      = Ok (Some c) /\
    add_layers
      (reset (configure self (nth 0 (Py.file_lines config) EmptyString) r c))
      (skipn 2 (Py.file_lines config)) [] false = (net, Ok self') /\
    _layer_loss self' = Ok loss /\
    _layer_bb self' = Ok bb /\
    written (generate_prototxt_files self config) =
      [ (String.append (nth 0 (Py.file_lines config) EmptyString)
           "_train_val.prototxt",
         train_val_header
           (reset (configure self (nth 0 (Py.file_lines config) EmptyString) r c))
         ++ net ++ loss);
        (String.append (nth 0 (Py.file_lines config) EmptyString)
           "_deploy.prototxt",
         deploy_header
           (reset (configure self (nth 0 (Py.file_lines config) EmptyString) r c))
         ++ List.map strip net ++ bb) ].
Proof.
  unfold generate_prototxt_files.
  destruct (get_value_int _ "r" true) as [[r|]|]; [| |discriminate].
  2: destruct (get_value_float _ "c" true) as [c|]; discriminate.
  destruct (get_value_float _ "c" true) as [[c|]|]; try discriminate.
  set (nm := nth 0 (Py.file_lines config) EmptyString).
  set (lines := skipn 2 (Py.file_lines config)).
  set (s0 := reset (configure self nm r c)).
  unfold train_val_pass, deploy_pass. fold s0.
  rewrite (add_layers_outfile lines s0 (train_val_header s0)).
  destruct (add_layers s0 lines [] false) as [net [s1|f]] eqn:En; cbn [fst snd];
    [|discriminate].
  destruct (_layer_loss s1) as [loss|] eqn:El; [|discriminate].
  assert (Hreset : reset s1 = s0).
  { pose proof (add_layers_config _ _ _ _ _ _ En) as Hcfg.
    rewrite <- (reset_same_config _ _ Hcfg). reflexivity. }
  rewrite Hreset.
  rewrite (add_layers_outfile lines s0 (deploy_header s0)).
  destruct (add_layers_strip lines s0 [] [] eq_refl) as [Hf Hs].
  rewrite En in Hf, Hs. cbn [fst snd] in Hf, Hs.
  destruct (add_layers s0 lines [] true) as [net' r']. cbn [fst snd] in *. subst.
  destruct (_layer_bb s1) as [bb|] eqn:Eb; [|discriminate].
  intros _. exists r, c, net, loss, bb, s1.
  repeat (split; [reflexivity|]). cbn [written].
  now rewrite <- !app_assoc.
Qed.

Lemma completed_run_documents_witness :
  status (generate_prototxt_files (init "bb3txt") sample_config) = Ok tt /\
  exists c net loss bb,
    Py.float_of_string "0.3" = Some c /\
    List.map snd (written (generate_prototxt_files (init "bb3txt") sample_config))
    = [ train_val_header
          (reset (configure (init "bb3txt") "my_beautiful_network" 1 c))
        ++ net ++ loss;
        deploy_header
          (reset (configure (init "bb3txt") "my_beautiful_network" 1 c))
        ++ List.map strip net ++ bb ].
Proof.
  assert (H : status (generate_prototxt_files (init "bb3txt") sample_config) = Ok tt)
    by (vm_compute; reflexivity).
  split; [exact H|].
  destruct (completed_run_documents _ _ H)
    as (r & c & net & loss & bb & s' & Hr & Hc & _ & _ & _ & Hw).
  exists c, net, loss, bb. rewrite Hw. cbn [List.map snd].
  vm_compute in Hr. injection Hr as <-. vm_compute in Hc. injection Hc as <-.
  split; [vm_compute; reflexivity | reflexivity].
Defined.

(** *** Directives without a required value *)

(** X9. A [conv] directive none of whose tokens contains [o] stops the run
    with the printed error that [o] is required; when the output channels are
    read and no token contains [k], with the error that [k] is required.
    Nothing is written for the directive. *)
Theorem conv_without_required_value (self : MACCNetGenerator) (line : string)
    (outfile : list entry) (deploy : bool) :
  Py.take_str 4 line = "conv"%string ->
  no_token_contains "o" (Py.split (Py.drop_str 5 line)) \/
  ((exists o, get_value_int (Py.split (Py.drop_str 5 line)) "o" true = Ok (Some o)) /\
   no_token_contains "k" (Py.split (Py.drop_str 5 line))) ->
  exists id,
    _add_layer self line outfile deploy
      = (outfile, Fail (SysExit (RequiredMissing id (Py.split (Py.drop_str 5 line))))) /\
    (no_token_contains "o" (Py.split (Py.drop_str 5 line)) -> id = "o"%string) /\
    (~ no_token_contains "o" (Py.split (Py.drop_str 5 line)) -> id = "k"%string).
Proof.
  intros Htag H. unfold _add_layer. rewrite Htag. cbn [String.eqb Ascii.eqb Bool.eqb].
  unfold _layer_conv.
  destruct H as [Ho|[[o Ho] Hk]].
  - unfold get_value_int at 1. rewrite (get_value_float_missing _ _ Ho). cbn [bind].
    exists "o"%string. split; [reflexivity|]. split; [reflexivity | contradiction].
  - rewrite Ho. cbn [bind].
    unfold get_value_int at 1. rewrite (get_value_float_missing _ _ Hk). cbn [bind].
    exists "k"%string. split; [reflexivity|]. split; [|reflexivity].
    intros Hno. apply get_value_int_ok in Ho as (x & v & Hx & _).
    rewrite (get_value_float_missing _ _ Hno) in Hx. discriminate.
Qed.

Lemma conv_without_required_value_witness :
  Py.take_str 4 "conv k3" = "conv"%string /\
  no_token_contains "o" (Py.split (Py.drop_str 5 "conv k3")) /\
  _add_layer (init "bbtxt") "conv k3" [Blank] false
    = ([Blank], Fail (SysExit (RequiredMissing "o" ["k3"%string]))).
Proof.
  assert (Hno : no_token_contains "o" (Py.split (Py.drop_str 5 "conv k3"))).
  { intros t Ht. vm_compute in Ht. destruct Ht as [<-|[]]. reflexivity. }
  split; [reflexivity|]. split; [exact Hno|].
  destruct (conv_without_required_value (init "bbtxt") "conv k3" [Blank] false
              eq_refl (or_introl Hno)) as (id & Hrun & Hid & _).
  rewrite Hrun, (Hid Hno). reflexivity.
Defined.

(** *** Reading back a number printed with %d *)

Lemma read_digits_uint (d : Decimal.uint) :
  forall (acc : Z) (cnt : nat) (rest : string),
    no_digit_ahead rest ->
    Py.read_digits acc cnt
      (String.append (DecimalString.NilEmpty.string_of_uint d) rest)
    = (uint_value d acc, (cnt + Decimal.nb_digits d)%nat, rest).
Proof.
  induction d; intros acc cnt rest Hrest; cbn.
  2-11: match goal with
        | |- context [Py.digit_of ?c] =>
            let v := eval vm_compute in (Py.digit_of c) in
            change (Py.digit_of c) with v
        end; cbv beta iota; rewrite IHd by exact Hrest; f_equal; f_equal; lia.
  destruct rest as [|c rest]; cbn in *.
  - f_equal. f_equal. lia.
  - rewrite Hrest. f_equal. f_equal. lia.
Qed.

Lemma uint_value_pos (d : Decimal.uint) :
  forall acc : positive, uint_value d (Z.pos acc) = Z.pos (Pos.of_uint_acc d acc).
Proof.
  induction d; intros acc; cbn [uint_value Pos.of_uint_acc]; [reflexivity|..];
    rewrite <- IHd; f_equal; lia.
Qed.

Lemma uint_value_0 (d : Decimal.uint) : uint_value d 0 = Z.of_N (Pos.of_uint d).
Proof.
  induction d; cbn [uint_value Pos.of_uint]; [reflexivity | exact IHd |..];
    cbn [Z.mul Z.add Z.of_N]; apply uint_value_pos.
Qed.

Lemma first_digit (d : Decimal.uint) :
  d <> Decimal.Nil ->
  DecimalString.NilZero.string_of_uint d = DecimalString.NilEmpty.string_of_uint d /\
  Py.read_sign (DecimalString.NilEmpty.string_of_uint d)
    = (false, DecimalString.NilEmpty.string_of_uint d) /\
  Decimal.nb_digits d <> O.
Proof.
  destruct d; intros H; try contradiction; repeat split; discriminate.
Qed.

Lemma to_uint_value (p : positive) :
  Pos.to_uint p <> Decimal.Nil /\ uint_value (Pos.to_uint p) 0 = Z.pos p.
Proof.
  pose proof (DecimalPos.Unsigned.of_to p) as H. split.
  - intros E. rewrite E in H. discriminate.
  - rewrite uint_value_0, H. reflexivity.
Qed.

(** The digits of a number are none of the special words. *)
Lemma special_digits (neg : bool) (d : Decimal.uint) :
  d <> Decimal.Nil ->
  Py.special neg (DecimalString.NilEmpty.string_of_uint d) = None.
Proof.
  destruct d; intros H; [contradiction|..]; vm_compute; reflexivity.
Qed.

Lemma decimal_digits (neg : bool) (p : positive) :
  exact_range (Z.pos p) ->
  Py.decimal neg (DecimalString.NilEmpty.string_of_uint (Pos.to_uint p))
  = Some (Py.FNum (Qmake (if neg then Z.neg p else Z.pos p) 1)).
Proof.
  intros Hr. destruct (to_uint_value p) as [Hnil Hval].
  destruct (first_digit _ Hnil) as (_ & _ & Hnb).
  unfold Py.decimal.
  rewrite <- (append_nil_r (DecimalString.NilEmpty.string_of_uint (Pos.to_uint p))).
  rewrite (read_digits_uint _ 0 0%nat EmptyString I), Hval.
  destruct (Decimal.nb_digits (Pos.to_uint p)) as [|n]; [contradiction|].
  cbn [Nat.add Nat.eqb Py.read_exp]. change (Z.pos p =? 0) with false. cbv iota.
  f_equal. apply round64_int.
  - unfold Py.scale10. change (0 <=? 0 - Z.of_nat 0) with true. cbv iota.
    change (10 ^ (0 - Z.of_nat 0)) with 1. rewrite Z.mul_1_r.
    destruct neg; reflexivity.
  - unfold exact_range in *. destruct neg; lia.
Qed.

(** Within 2^53, [float] reads what [%d] prints. *)
Lemma float_of_fmt_d (z : Z) :
  exact_range z -> Py.float_of_string (Py.fmt_d z) = Some (Py.FNum (Qmake z 1)).
Proof.
  intros Hr. destruct z as [|p|p]; [reflexivity|..].
  - unfold Py.fmt_d. cbn [Z.to_int DecimalString.NilZero.string_of_int].
    destruct (to_uint_value p) as [Hnil Hval].
    destruct (first_digit _ Hnil) as (-> & Hsign & Hnb).
    unfold Py.float_of_string. rewrite Hsign.
    rewrite (special_digits _ _ Hnil). now apply decimal_digits.
  - unfold Py.fmt_d. cbn [Z.to_int DecimalString.NilZero.string_of_int].
    destruct (to_uint_value p) as [Hnil Hval].
    destruct (first_digit _ Hnil) as (-> & Hsign & Hnb).
    unfold Py.float_of_string. cbn [Py.read_sign].
    rewrite (special_digits _ _ Hnil). apply decimal_digits.
    unfold exact_range in *. lia.
Qed.

(** The digits of a positive number read back as the number, of any size. *)
Lemma read_digits_fmt_d (p : positive) (rest : string) :
  no_digit_ahead rest ->
  Py.read_digits 0 0 (String.append (Py.fmt_d (Z.pos p)) rest)
  = (Z.pos p, Decimal.nb_digits (Pos.to_uint p), rest).
Proof.
  intros Hrest. unfold Py.fmt_d. cbn [Z.to_int DecimalString.NilZero.string_of_int].
  destruct (to_uint_value p) as [Hnil Hval].
  destruct (first_digit _ Hnil) as (-> & _ & _).
  rewrite (read_digits_uint _ 0 0%nat rest Hrest), Hval. reflexivity.
Qed.

Lemma find_after_misses {A : Type} (f : A -> bool) (pre post : list A) (x : A) :
  (forall y, In y pre -> f y = false) -> f x = true ->
  List.find f (pre ++ x :: post) = Some x.
Proof.
  intros Hpre Hx. induction pre as [|y pre IH]; cbn.
  - now rewrite Hx.
  - rewrite (Hpre y (or_introl eq_refl)). apply IH.
    intros y' Hy'. apply Hpre. now right.
Qed.

Lemma drop_str_append (a s : string) :
  Py.drop_str (String.length a) (String.append a s) = s.
Proof. induction a as [|c a IH]; cbn; [reflexivity | exact IH]. Qed.

Lemma str_in_append (a s : string) : Py.str_in a (String.append a s) = true.
Proof.
  destruct a as [|c a]; [destruct s; reflexivity|].
  cbn [String.append Py.str_in].
  change (String c (String.append a s)) with (String.append (String c a) s).
  now rewrite prefix_append.
Qed.

(** X10. A token made of the letter and the decimal digits of an integer
    within 2^53, as [%d] prints it, reads back as that integer, whatever
    stands after it, as long as no token before it contains the letter: the
    first token with the letter decides.  (Beyond 2^53 the float in between
    rounds: [x9007199254740993] reads as 9007199254740992.) *)
Theorem decimal_token_round_trip (id : string) (z : Z) (pre post : list string)
    (required : bool) :
  exact_range z ->
  no_token_contains id pre ->
  get_value_int (pre ++ String.append id (Py.fmt_d z) :: post) id required
    = Ok (Some z) /\
  get_value_float (pre ++ String.append id (Py.fmt_d z) :: post) id required
    = Ok (Some (Py.FNum (Qmake z 1))).
Proof.
  intros Hr Hpre.
  assert (Hf : get_value_float (pre ++ String.append id (Py.fmt_d z) :: post) id
                 required = Ok (Some (Py.FNum (Qmake z 1)))).
  { unfold get_value_float.
    rewrite (find_after_misses _ _ _ _ Hpre (str_in_append id (Py.fmt_d z))).
    now rewrite drop_str_append, float_of_fmt_d. }
  split; [|exact Hf].
  unfold get_value_int. rewrite Hf. cbn [bind].
  unfold Py.int_of_float. cbn [Qnum Qden bind]. now rewrite Z.quot_1_r.
Qed.

Lemma decimal_token_round_trip_witness :
  exact_range 64 /\
  no_token_contains "o" ["k3"; "d2"]%string /\
  get_value_int (["k3"%string; "d2"%string]
                 ++ String.append "o" (Py.fmt_d 64) :: ["x1"%string])
    "o" true = Ok (Some 64).
Proof.
  assert (Hr : exact_range 64) by (split; vm_compute; congruence).
  assert (Hno : no_token_contains "o" ["k3"; "d2"]%string).
  { intros t [<-|[<-|[]]]; reflexivity. }
  split; [exact Hr|]. split; [exact Hno|].
  exact (proj1 (decimal_token_round_trip "o" 64 ["k3"; "d2"]%string ["x1"%string]
                  true Hr Hno)).
Defined.

Example round_trip_beyond_2_53 :
  get_value_int [String.append "x" (Py.fmt_d 9007199254740993)] "x" true
  = Ok (Some 9007199254740992).
Proof. vm_compute. reflexivity. Qed.

(** *** Consecutive convolutions *)

Lemma conv_lines_state (lines : list string) :
  forall (self self' : MACCNetGenerator) (outfile out1 : list entry) (deploy : bool),
    Forall (fun line => Py.take_str 4 line = "conv"%string) lines ->
    add_layers self lines outfile deploy = (out1, Ok self') ->
    fov_base self' = fov_base self + sum_spans lines /\
    new_conv_id self' = new_conv_id self + Z.of_nat (length lines) /\
    downsampling self' = downsampling self /\
    fov_prev_downsampling self' = fov_prev_downsampling self /\
    (lines <> [] ->
     conv_fov (fov_base self') (downsampling self') (fov_prev_downsampling self')
       = Ok (fov_previous self') /\
     last_in_scale_fov self' !! downsampling self' = Some (fov_previous self')).
Proof.
  induction lines as [|line rest IH]; intros self self' outfile out1 deploy Hall.
  - cbn. intros [= _ <-].
    split; [lia|]. split; [lia|]. split; [lia|]. split; [reflexivity|]. congruence.
  - inversion Hall as [|? ? Htag Hrest]; subst. cbn [add_layers].
    unfold _add_layer at 1. rewrite Htag. cbn [String.eqb Ascii.eqb Bool.eqb].
    destruct (_layer_conv self line deploy) as [[out s1]|f] eqn:E; [|discriminate].
    intros H.
    apply layer_conv_emitted in E
      as (o & k & d & fov & ft & st & _ & Hk & Hd & Hfov & _ & _ & ->).
    destruct (IH _ _ _ _ _ Hrest H) as (Hfb & Hid & Hds & Hfp & Hlast).
    cbn [conv_state fov_base new_conv_id downsampling fov_prev_downsampling]
      in Hfb, Hid, Hds, Hfp.
    assert (Hspan : conv_span line - 1 = conv_fov_base self k d - fov_base self).
    { unfold conv_span, conv_fov_base. rewrite Hk, Hd. destruct d; lia. }
    cbn [sum_spans fold_right length]. fold (sum_spans rest).
    split; [lia|]. split; [lia|]. split; [exact Hds|]. split; [exact Hfp|].
    intros _. destruct rest as [|l2 rest].
    + cbn in H. injection H as _ <-.
      cbn [conv_state fov_previous fov_base downsampling fov_prev_downsampling
           last_in_scale_fov].
      split; [exact Hfov | apply lookup_insert_eq].
    + apply Hlast. discriminate.
Qed.

(** X11. Convolutions that follow each other without pooling add up their
    spans: after them [fov_base] has grown by the sum of (span - 1), the
    counter of the scale by their number, the downsampling is the same, and,
    when [fov_prev_downsampling] holds an integer and the numbers are within
    2^53, the last field of view reported is
    [fov_base * downsampling + fov_prev_downsampling - ceil(downsampling/2)]
    for that [fov_base]. *)
Theorem consecutive_convolutions (self self' : MACCNetGenerator)
    (lines : list string) (outfile out1 : list entry) (deploy : bool) (b : Z) :
  Forall (fun line => Py.take_str 4 line = "conv"%string) lines ->
  lines <> [] ->
  add_layers self lines outfile deploy = (out1, Ok self') ->
  holds_int (fov_prev_downsampling self) b ->
  fov_in_range (fov_base self + sum_spans lines) (downsampling self) b ->
  fov_base self' = fov_base self + sum_spans lines /\
  new_conv_id self' = new_conv_id self + Z.of_nat (length lines) /\
  downsampling self' = downsampling self /\
  fov_previous self' = whole ((fov_base self + sum_spans lines) * downsampling self
                              + b - ceil_half (downsampling self)) /\
  last_in_scale_fov self' !! downsampling self = Some (fov_previous self').
Proof.
  intros Hall Hne H Hprev Hrange.
  destruct (conv_lines_state _ _ _ _ _ _ Hall H) as (Hfb & Hid & Hds & Hfp & Hlast).
  destruct (Hlast Hne) as [Hfov Htab].
  split; [exact Hfb|]. split; [exact Hid|]. split; [exact Hds|].
  split; [|now rewrite <- Hds].
  rewrite Hfb, Hds, Hfp in Hfov.
  destruct (conv_fov_exact _ _ _ _ Hprev Hrange) as [Hex _].
  rewrite Hex in Hfov. now injection Hfov as <-.
Qed.

Lemma consecutive_convolutions_witness :
  exists out self,
    Forall (fun line => Py.take_str 4 line = "conv"%string)
      ["conv k3 o64"; "conv k3 d2 o64"; "conv k5 o64"]%string /\
    add_layers (reset (init "bbtxt"))
      ["conv k3 o64"; "conv k3 d2 o64"; "conv k5 o64"]%string [] false
      = (out, Ok self) /\
    holds_int (fov_prev_downsampling (reset (init "bbtxt"))) 1 /\
    fov_in_range
      (fov_base (reset (init "bbtxt"))
       + sum_spans ["conv k3 o64"; "conv k3 d2 o64"; "conv k5 o64"]%string)
      (downsampling (reset (init "bbtxt"))) 1 /\
    fov_base self = 13 /\ fov_previous self = whole 13.
Proof.
  destruct (add_layers (reset (init "bbtxt"))
              ["conv k3 o64"; "conv k3 d2 o64"; "conv k5 o64"]%string [] false)
    as [out [self|f]] eqn:H; [|vm_compute in H; discriminate].
  assert (Hall : Forall (fun line => Py.take_str 4 line = "conv"%string)
                   ["conv k3 o64"; "conv k3 d2 o64"; "conv k5 o64"]%string)
    by (repeat constructor).
  assert (Hprev : holds_int (fov_prev_downsampling (reset (init "bbtxt"))) 1)
    by (left; reflexivity).
  assert (Hrange : fov_in_range
                     (fov_base (reset (init "bbtxt"))
                      + sum_spans ["conv k3 o64"; "conv k3 d2 o64"; "conv k5 o64"]%string)
                     (downsampling (reset (init "bbtxt"))) 1)
    by (repeat split; vm_compute; congruence).
  exists out, self. split; [exact Hall|]. split; [reflexivity|].
  split; [exact Hprev|]. split; [exact Hrange|].
  destruct (consecutive_convolutions _ _ _ _ _ _ 1 Hall ltac:(discriminate) H
              Hprev Hrange) as (Hfb & _ & _ & Hfov & _).
  split; [rewrite Hfb | rewrite Hfov]; reflexivity.
Defined.

(** *** The chain of layers *)

Lemma wired_app (a b : list (list entry)) (prev : string) :
  wired prev (a ++ b) =
    match wired prev a with
    | Some p => wired p b
    | None => None
    end.
Proof.
  revert prev. induction a as [|body a IH]; intros prev; cbn [app wired];
    [reflexivity|].
  destruct (the_field "name" body) as [nm|]; [|reflexivity].
  destruct (the_field "type" body) as [ty|]; [|reflexivity].
  destruct (the_field "bottom" body) as [bo|]; [|reflexivity].
  destruct (the_field "top" body) as [t|]; [|reflexivity].
  destruct (String.eqb ty "ReLU").
  { destruct (String.eqb bo prev && String.eqb t prev)%bool; [apply IH | reflexivity]. }
  destruct (String.prefix "acc_x" nm).
  { destruct (String.prefix "conv_x" bo && String.eqb t nm)%bool;
      [apply IH | reflexivity]. }
  destruct (String.eqb bo prev && String.eqb t nm)%bool; [apply IH | reflexivity].
Qed.

(** What one directive writes continues the chain. *)
Lemma add_layer_wired (self self' : MACCNetGenerator) (line : string)
    (chunk : list entry) (deploy : bool) :
  consistent self ->
  _add_layer self line [] deploy = (chunk, Ok self') ->
  wired (previous_layer self) (layers chunk) = Some (previous_layer self').
Proof.
  intros (_ & _ & _ & _ & _ & Hn & _). unfold _add_layer.
  destruct (String.eqb _ "conv").
  { destruct (_layer_conv self line deploy) as [[out s]|f] eqn:E; [|discriminate].
    intros [= <- <-].
    apply layer_conv_emitted in E
      as (o & k & d & fov & ft & st & _ & _ & _ & _ & _ & -> & ->).
    unfold _layer_relu, conv_block.
    cbn [conv_state previous_layer app layers String.eqb Ascii.eqb Bool.eqb].
    assert (Hacc : String.prefix "acc_x" (conv_name self) = false) by reflexivity.
    destruct deploy; cbn [wired the_field fields train_params app
                            String.eqb Ascii.eqb Bool.eqb fov_comment];
      rewrite Hacc, !String.eqb_refl; reflexivity. }
  destruct (String.eqb _ "pool").
  { unfold _layer_pool, _downsampling. intros [= <- <-].
    cbn [previous_layer downsampling app layers String.eqb Ascii.eqb Bool.eqb
         wired the_field fields].
    change (String.prefix "acc_x" _) with false. cbv iota.
    rewrite !String.eqb_refl. reflexivity. }
  destruct (String.eqb _ "macc").
  { destruct (_layer_macc self line deploy) as [[out s]|f] eqn:E; [|discriminate].
    intros [= <- <-].
    apply layer_macc_inv in E
      as (scale & bb & fov & ft & bt & bottom & _ & _ & _ & _ & _ & Hb & -> & ->).
    unfold acc_block.
    cbn [acc_state previous_layer app layers String.eqb Ascii.eqb Bool.eqb].
    assert (Hfields : forall key v,
               fields key (Comment (String.append (dashes 23) "  ACCUMULATOR")
                           :: scale_comment scale ft :: ideal_comment bt :: v)
               = fields key v) by reflexivity.
    assert (Hrestf : forall key,
               fields key ((if deploy then [] else train_params)
                           ++ [ Sub "convolution_param"
                                  ([ Field "num_output" (VInt (macc_num_output self));
                                     Field "kernel_size" (VInt 1) ]
                                   ++ (if deploy then [] else train_fillers)) ]) = []).
    { intros key. destruct deploy; reflexivity. }
    unfold wired, the_field. rewrite !Hfields.
    cbn [fields String.eqb Ascii.eqb Bool.eqb]. rewrite !Hrestf.
    cbn [String.eqb Ascii.eqb Bool.eqb].
    rewrite (prefix_append "acc_x"), (Hn _ _ Hb), String.eqb_refl. reflexivity. }
  intros [= <- <-]. reflexivity.
Qed.

Lemma add_layers_wired (lines : list string) :
  forall (self : MACCNetGenerator) (outfile : list entry) (deploy : bool)
         (start : string),
    consistent self ->
    wired start (layers outfile) = Some (previous_layer self) ->
    exists last,
      wired start (layers (fst (add_layers self lines outfile deploy))) = Some last /\
      (forall self', snd (add_layers self lines outfile deploy) = Ok self' ->
                     last = previous_layer self').
Proof.
  induction lines as [|line rest IH]; intros self outfile deploy start Hc Hw;
    cbn [add_layers].
  - exists (previous_layer self). split; [exact Hw|]. cbn. now intros s [= <-].
  - rewrite (add_layer_outfile self line outfile).
    destruct (_add_layer self line [] deploy) as [chunk [s|f]] eqn:E; cbn [fst snd].
    + apply IH.
      * eapply add_layer_consistent; eassumption.
      * rewrite layers_app, wired_app, Hw. eapply add_layer_wired; eassumption.
    + apply add_layer_fail in E. subst chunk. rewrite app_nil_r.
      exists (previous_layer self). split; [exact Hw | discriminate].
Qed.

(** X12. The layers a pass writes for any list of directives form one chain
    from the input [data]: every convolution and pooling block takes the
    previous block of the chain as its bottom and its own name as top, every
    ReLU works in place on the convolution before it, and every accumulator
    reads a convolution and is not continued.  The chain ends at the
    generator's previous layer.  This holds for what is written before a
    failure as well. *)
Theorem network_is_a_chain (self0 : MACCNetGenerator) (lines : list string)
    (deploy : bool) :
  exists last,
    wired "data" (layers (fst (add_layers (reset self0) lines [] deploy)))
      = Some last /\
    (forall self, snd (add_layers (reset self0) lines [] deploy) = Ok self ->
                  last = previous_layer self).
Proof.
  apply add_layers_wired; [apply consistent_reset | reflexivity].
Qed.

Example wired_rejects_wrong_bottom :
  wired "data"
    (layers (conv_block (init "bbtxt") true "3" "0" 8 3 None
             ++ conv_block (init "bbtxt") true "3" "0" 8 3 None))
  = None.
Proof. vm_compute. reflexivity. Qed.

(** *** Names of the convolutions *)

Lemma fmt_d_inj (a b : Z) : Py.fmt_d a = Py.fmt_d b -> a = b.
Proof.
  assert (Hpos : forall p q, Py.fmt_d (Z.pos p) = Py.fmt_d (Z.pos q) -> p = q).
  { intros p q H.
    pose proof (read_digits_fmt_d p EmptyString I) as Hp.
    rewrite append_nil_r, H in Hp.
    rewrite <- (append_nil_r (Py.fmt_d (Z.pos q))) in Hp.
    rewrite (read_digits_fmt_d q EmptyString I) in Hp. now injection Hp. }
  assert (Hdigit : forall p, exists c s,
             Py.fmt_d (Z.pos p) = String c s /\ Py.digit_of c <> None).
  { intros p. unfold Py.fmt_d. cbn [Z.to_int DecimalString.NilZero.string_of_int].
    destruct (to_uint_value p) as [Hnil _].
    destruct (Pos.to_uint p); [contradiction|..];
      do 2 eexists; (split; [reflexivity|]); vm_compute; discriminate. }
  assert (Hneg : forall p, Py.fmt_d (Z.neg p) = String "-" (Py.fmt_d (Z.pos p))).
  { intros p. unfold Py.fmt_d. cbn [Z.to_int DecimalString.NilZero.string_of_int].
    destruct (to_uint_value p) as [Hnil _].
    destruct (first_digit _ Hnil) as (E & _). now rewrite E. }
  assert (Hzero : Py.fmt_d 0 = "0"%string) by reflexivity.
  intros H. destruct a as [|p|p], b as [|q|q]; try reflexivity.
  - rewrite Hzero in H. destruct (Hdigit q) as (c & s & E & _).
    pose proof (read_digits_fmt_d q EmptyString I) as Hq.
    rewrite append_nil_r, <- H in Hq. vm_compute in Hq. discriminate.
  - rewrite Hzero, Hneg in H. discriminate.
  - rewrite Hzero in H.
    pose proof (read_digits_fmt_d p EmptyString I) as Hp.
    rewrite append_nil_r, H in Hp. vm_compute in Hp. discriminate.
  - f_equal. now apply Hpos.
  - rewrite Hneg in H. destruct (Hdigit p) as (c & s & E & Hc).
    rewrite E in H. injection H as -> _. now vm_compute in Hc.
  - rewrite Hzero, Hneg in H. discriminate.
  - rewrite Hneg in H. destruct (Hdigit q) as (c & s & E & Hc).
    rewrite E in H. injection H as <- _. now vm_compute in Hc.
  - rewrite !Hneg in H. injection H as H. f_equal. now apply Hpos.
Qed.

Lemma conv_name_of_inj (a b a' b' : Z) :
  0 < a -> 0 < a' ->
  conv_name_of a b = conv_name_of a' b' -> a = a' /\ b = b'.
Proof.
  intros Ha Ha' H. unfold conv_name_of, Py.cat in H. cbn [fold_right] in H.
  cbn [String.append] in H. injection H as H.
  destruct a as [|p|p]; try lia. destruct a' as [|p'|p']; try lia.
  unfold Py.fmt_d at 1 3 in H.
  cbn [Z.to_int DecimalString.NilZero.string_of_int] in H.
  destruct (to_uint_value p) as [Hnil Hval].
  destruct (to_uint_value p') as [Hnil' Hval'].
  destruct (first_digit _ Hnil) as (E & _). destruct (first_digit _ Hnil') as (E' & _).
  rewrite E, E' in H.
  apply (f_equal (Py.read_digits 0 0)) in H.
  rewrite !read_digits_uint in H by reflexivity.
  rewrite Hval, Hval' in H. injection H as Hp _ Hb.
  rewrite ?append_nil_r in Hb. split; [now rewrite Hp | now apply fmt_d_inj].
Qed.

Lemma conv_names_app (a b : list (list entry)) :
  conv_names (a ++ b) = conv_names a ++ conv_names b.
Proof.
  induction a as [|body a IH]; cbn [app conv_names]; [reflexivity|].
  destruct (the_field "name" body) as [nm|]; [|exact IH].
  destruct (the_field "type" body) as [ty|]; [|exact IH].
  destruct (String.eqb ty "Convolution" && negb (String.prefix "acc_x" nm))%bool;
    [cbn; f_equal|]; exact IH.
Qed.

(** The convolution names one directive adds. *)
Lemma add_layer_conv_names (self self' : MACCNetGenerator) (line : string)
    (chunk : list entry) (deploy : bool) :
  _add_layer self line [] deploy = (chunk, Ok self') ->
  conv_names (layers chunk) =
    if String.eqb (Py.take_str 4 line) "conv"
    then [conv_name_of (downsampling self) (new_conv_id self)] else [].
Proof.
  unfold _add_layer.
  destruct (String.eqb _ "conv").
  { destruct (_layer_conv self line deploy) as [[out s]|f] eqn:E; [|discriminate].
    intros [= <- <-].
    apply layer_conv_emitted in E
      as (o & k & d & fov & ft & st & _ & _ & _ & _ & _ & -> & ->).
    unfold _layer_relu, conv_block.
    cbn [conv_state previous_layer app layers String.eqb Ascii.eqb Bool.eqb].
    assert (Hacc : String.prefix "acc_x" (conv_name self) = false) by reflexivity.
    destruct deploy; cbn [conv_names the_field fields train_params app
                            String.eqb Ascii.eqb Bool.eqb fov_comment andb negb];
      rewrite Hacc; reflexivity. }
  destruct (String.eqb _ "pool").
  { unfold _layer_pool, _downsampling. intros [= <- <-]. reflexivity. }
  destruct (String.eqb _ "macc").
  { destruct (_layer_macc self line deploy) as [[out s]|f] eqn:E; [|discriminate].
    intros [= <- <-].
    apply layer_macc_inv in E
      as (scale & bb & fov & ft & bt & bottom & _ & _ & _ & _ & _ & _ & -> & ->).
    unfold acc_block.
    cbn [app layers String.eqb Ascii.eqb Bool.eqb].
    assert (Hfields : forall key v,
               fields key (Comment (String.append (dashes 23) "  ACCUMULATOR")
                           :: scale_comment scale ft :: ideal_comment bt :: v)
               = fields key v) by reflexivity.
    assert (Hrestf : forall key,
               fields key ((if deploy then [] else train_params)
                           ++ [ Sub "convolution_param"
                                  ([ Field "num_output" (VInt (macc_num_output self));
                                     Field "kernel_size" (VInt 1) ]
                                   ++ (if deploy then [] else train_fillers)) ]) = []).
    { intros key. destruct deploy; reflexivity. }
    unfold conv_names, the_field. rewrite !Hfields.
    cbn [fields String.eqb Ascii.eqb Bool.eqb]. rewrite !Hrestf.
    cbn [String.eqb Ascii.eqb Bool.eqb andb].
    now rewrite (prefix_append "acc_x"). }
  intros [= <- <-]. reflexivity.
Qed.

Lemma add_layers_conv_names (lines : list string) :
  forall (self : MACCNetGenerator) (deploy : bool),
    conv_names (layers (fst (add_layers self lines [] deploy)))
    = List.map (fun p => conv_name_of (fst p) (snd p)) (conv_ids self lines deploy).
Proof.
  induction lines as [|line rest IH]; intros self deploy; cbn [add_layers conv_ids];
    [reflexivity|].
  destruct (_add_layer self line [] deploy) as [chunk [s|f]] eqn:E.
  - rewrite (add_layers_outfile rest s chunk). cbn [fst]. rewrite layers_app, conv_names_app, IH.
    rewrite (add_layer_conv_names _ _ _ _ _ E), List.map_app.
    destruct (String.eqb _ "conv"); reflexivity.
  - apply add_layer_fail in E. subst chunk. reflexivity.
Qed.

(** The pairs of a run come after the generator's current pair, in order. *)
Lemma conv_ids_sorted (lines : list string) :
  forall (self : MACCNetGenerator) (deploy : bool),
    0 < downsampling self -> 0 < new_conv_id self ->
    NoDup (conv_ids self lines deploy) /\
    (forall p, In p (conv_ids self lines deploy) ->
               0 < fst p /\
               (p = (downsampling self, new_conv_id self) \/
                before (downsampling self, new_conv_id self) p)).
Proof.
  induction lines as [|line rest IH]; intros self deploy Hds Hid; cbn [conv_ids].
  - split; [constructor | contradiction].
  - destruct (_add_layer self line [] deploy) as [chunk [s|f]] eqn:E;
      [|split; [constructor | contradiction]].
    revert E. unfold _add_layer.
    destruct (String.eqb (Py.take_str 4 line) "conv") eqn:Ec.
    { destruct (_layer_conv self line deploy) as [[out s1]|f] eqn:E; [|discriminate].
      intros [= _ <-].
      apply layer_conv_emitted in E
        as (o & k & d & fov & ft & st & _ & _ & _ & _ & _ & _ & ->).
      match goal with |- context [conv_ids ?s rest deploy] =>
        destruct (IH s deploy) as [Hnd Hin]; [exact Hds | cbn; lia |] end.
      cbn [conv_state downsampling new_conv_id] in Hin. cbn [app]. split.
      - constructor; [|exact Hnd]. rewrite list_elem_of_In. intros Hp.
        destruct (Hin _ Hp) as (_ & [Heq|[Hlt|[_ Hlt]]]); cbn in *;
          [injection Heq; lia | lia | lia].
      - intros p [<-|Hp]; [split; [exact Hds | now left]|].
        destruct (Hin _ Hp) as (Hpos & [->|[Hlt|[Heq Hlt]]]); split; try exact Hpos;
          right; unfold before; cbn in *; lia. }
    destruct (String.eqb (Py.take_str 4 line) "pool").
    { unfold _layer_pool. intros [= _ <-].
      match goal with |- context [conv_ids ?s rest deploy] =>
        destruct (IH s deploy) as [Hnd Hin]; [cbn; lia | cbn; lia |] end.
      cbn [downsampling new_conv_id app] in *. split; [exact Hnd|].
      intros p Hp. destruct (Hin _ Hp) as (Hpos & [->|[Hlt|[Heq Hlt]]]);
        split; try exact Hpos; right; unfold before; cbn in *; lia. }
    destruct (String.eqb (Py.take_str 4 line) "macc").
    { destruct (_layer_macc self line deploy) as [[out s1]|f] eqn:E; [|discriminate].
      intros [= _ <-].
      apply layer_macc_inv in E
        as (scale & bb & fov & ft & bt & bottom & _ & _ & _ & _ & _ & _ & _ & ->).
      destruct (IH (acc_state self scale bb) deploy) as [Hnd Hin];
        [exact Hds | exact Hid |].
      cbn [acc_state downsampling new_conv_id] in Hin. cbn [app]. split; assumption. }
    intros [= _ <-]. cbn [app]. now apply IH.
Qed.

(** X13. In a pass no two convolution blocks get the same name: the block
    number [j] of scale [s] is named [conv_x<s>_<j>], the numbers grow within
    a scale and the scales grow from pool to pool. *)
Theorem convolution_names_distinct (self0 : MACCNetGenerator)
    (lines : list string) (deploy : bool) :
  NoDup (conv_names (layers (fst (add_layers (reset self0) lines [] deploy)))) /\
  conv_names (layers (fst (add_layers (reset self0) lines [] deploy)))
    = List.map (fun p => conv_name_of (fst p) (snd p))
        (conv_ids (reset self0) lines deploy).
Proof.
  split; [|apply add_layers_conv_names].
  rewrite add_layers_conv_names.
  destruct (conv_ids_sorted lines (reset self0) deploy) as [Hnd Hin];
    [reflexivity | reflexivity |].
  assert (Hpos : forall p, In p (conv_ids (reset self0) lines deploy) -> 0 < fst p)
    by (intros p Hp; now apply Hin).
  clear Hin. induction Hnd as [|p l Hnotin Hnd IH]; cbn [List.map]; [constructor|].
  constructor.
  - rewrite list_elem_of_In, in_map_iff. intros (q & Hq & Hql).
    apply conv_name_of_inj in Hq as [Hf Hs].
    + apply Hnotin. rewrite list_elem_of_In.
      destruct p, q; cbn in *; now subst.
    + apply Hpos. now right.
    + apply Hpos. now left.
  - apply IH. intros q Hq. apply Hpos. now right.
Qed.

(** *** Lines that are no directive *)

Lemma add_layer_other_tag (self : MACCNetGenerator) (line : string)
    (outfile : list entry) (deploy : bool) :
  Py.take_str 4 line <> "conv"%string ->
  Py.take_str 4 line <> "pool"%string ->
  Py.take_str 4 line <> "macc"%string ->
  _add_layer self line outfile deploy = (outfile, Ok self).
Proof.
  intros Hc Hp Hm. unfold _add_layer.
  apply String.eqb_neq in Hc, Hp, Hm. now rewrite Hc, Hp, Hm.
Qed.

(** X14. Blank lines, comments and any other line that does not start with
    [conv], [pool] or [macc] can stand anywhere among the directives: the run
    is the one of the list without the line, in what it writes, in the
    generator it ends with and in the failure that stops it. *)
Theorem other_lines_do_not_matter (self : MACCNetGenerator)
    (pre post : list string) (line : string) (outfile : list entry)
    (deploy : bool) :
  Py.take_str 4 line <> "conv"%string ->
  Py.take_str 4 line <> "pool"%string ->
  Py.take_str 4 line <> "macc"%string ->
  add_layers self (pre ++ line :: post) outfile deploy
    = add_layers self (pre ++ post) outfile deploy.
Proof.
  intros Hc Hp Hm. rewrite !add_layers_app.
  destruct (add_layers self pre outfile deploy) as [o [s|f]]; [|reflexivity].
  cbn [add_layers]. now rewrite add_layer_other_tag.
Qed.

Lemma other_lines_do_not_matter_witness :
  Py.take_str 4 EmptyString <> "conv"%string /\
  Py.take_str 4 EmptyString <> "pool"%string /\
  Py.take_str 4 EmptyString <> "macc"%string /\
  add_layers (init "bbtxt") (["conv k3 o8"%string] ++ EmptyString :: ["pool"%string])
    [] true
  = add_layers (init "bbtxt") (["conv k3 o8"%string] ++ ["pool"%string]) [] true.
Proof.
  assert (H1 : Py.take_str 4 EmptyString <> "conv"%string) by (cbn; discriminate).
  assert (H2 : Py.take_str 4 EmptyString <> "pool"%string) by (cbn; discriminate).
  assert (H3 : Py.take_str 4 EmptyString <> "macc"%string) by (cbn; discriminate).
  split; [exact H1|]. split; [exact H2|]. split; [exact H3|].
  exact (other_lines_do_not_matter (init "bbtxt") ["conv k3 o8"%string]
           ["pool"%string] EmptyString [] true H1 H2 H3).
Defined.

(** *** What an accumulator reads *)

Lemma add_layer_tables (self self' : MACCNetGenerator) (line : string)
    (outfile out1 : list entry) (deploy : bool) :
  tables_in_document self outfile ->
  _add_layer self line outfile deploy = (out1, Ok self') ->
  tables_in_document self' out1.
Proof.
  intros Ht. rewrite add_layer_outfile.
  destruct (_add_layer self line [] deploy) as [chunk r] eqn:E. cbn [fst snd].
  intros [= <- ->].
  assert (Hmono : forall s, last_in_scale s = last_in_scale self ->
                            last_in_scale_fov s = last_in_scale_fov self ->
                            tables_in_document s (outfile ++ chunk)).
  { intros s H1 H2 k nm fov Hk Hf. rewrite H1 in Hk. rewrite H2 in Hf.
    destruct (Ht k nm fov Hk Hf) as (body & Hin & Hrest).
    exists body. split; [|exact Hrest]. rewrite layers_app, in_app_iff. now left. }
  revert E. unfold _add_layer.
  destruct (String.eqb _ "conv").
  { destruct (_layer_conv self line deploy) as [[out s]|f] eqn:E; [|discriminate].
    intros [= <- <-].
    apply layer_conv_emitted in E
      as (o & k & d & fov0 & ft & st & _ & _ & _ & _ & Hft & -> & ->).
    intros k0 nm fov. cbn [conv_state last_in_scale last_in_scale_fov].
    rewrite !lookup_insert. destruct (decide (downsampling self = k0)) as [_|Hne].
    - intros [= <-] [= <-]. eexists. split.
      + rewrite layers_app, in_app_iff. right. cbn. left. reflexivity.
      + split; [destruct deploy; reflexivity|].
        split; [destruct deploy; reflexivity|].
        exists ft. do 3 eexists. split; [exact Hft | reflexivity].
    - intros Hk Hf. destruct (Ht k0 nm fov Hk Hf) as (body & Hin & Hrest).
      exists body. split; [|exact Hrest]. rewrite layers_app, in_app_iff. now left. }
  destruct (String.eqb _ "pool").
  { unfold _layer_pool. intros [= <- <-]. now apply Hmono. }
  destruct (String.eqb _ "macc").
  { destruct (_layer_macc self line deploy) as [[out s]|f] eqn:E; [|discriminate].
    intros [= <- <-].
    apply layer_macc_inv in E
      as (scale & bb & fov & ft & bt & bottom & _ & _ & _ & _ & _ & _ & _ & ->).
    now apply Hmono. }
  intros [= <- <-]. now apply Hmono.
Qed.

Lemma add_layers_tables (lines : list string) :
  forall (self self' : MACCNetGenerator) (outfile out1 : list entry) (deploy : bool),
    tables_in_document self outfile ->
    add_layers self lines outfile deploy = (out1, Ok self') ->
    tables_in_document self' out1.
Proof.
  induction lines as [|line rest IH]; intros self self' outfile out1 deploy Ht; cbn.
  - now intros [= <- <-].
  - destruct (_add_layer self line outfile deploy) as [o [s|f]] eqn:E; [|discriminate].
    intros H. eapply IH; [|exact H]. eapply add_layer_tables; eassumption.
Qed.

(** X15. In a run, the block a [macc] directive writes reads a convolution
    block that is in the document already, and the field of view in its
    comment is the one that block reports. *)
Theorem accumulator_reads_written_layer (self0 self self' : MACCNetGenerator)
    (pre : list string) (out0 out : list entry) (deploy : bool)
    (specs : string) (blk : list entry) :
  add_layers (reset self0) pre out0 deploy = (out, Ok self) ->
  _layer_macc self specs deploy = Ok (blk, self') ->
  exists scale fov text body acc rest,
    get_value_int (Py.split (Py.drop_str 5 specs)) "x" true = Ok (Some scale) /\
    blk = [Sub "layer" acc] /\
    Py.fmt_d_num fov = Ok text /\
    acc = Comment "-----------------------  ACCUMULATOR"
          :: Comment (Py.cat [ "-----------------------  SCALE 1/"%string;
                               Py.fmt_d scale; "  (FOV "%string; text;
                               " x "%string; text; ")"%string ])
          :: rest /\
    In body (layers out) /\
    the_field "type" body = Some "Convolution"%string /\
    the_field "name" body = the_field "bottom" acc /\
    reported_fov fov body.
Proof.
  intros Hpre Hm.
  assert (Ht : tables_in_document self out).
  { eapply add_layers_tables; [|exact Hpre].
    intros k nm fov. cbn. rewrite lookup_empty. discriminate. }
  apply layer_macc_inv in Hm
    as (scale & bb & fov & ft & bt & bottom & Hx & _ & Hf & Hft & _ & Hb & -> & _).
  destruct (Ht scale bottom fov Hb Hf) as (body & Hin & Hname & Hty & Hfov).
  exists scale, fov, ft, body. do 2 eexists.
  split; [exact Hx|]. split; [reflexivity|]. split; [exact Hft|].
  split; [reflexivity|].
  split; [exact Hin|]. split; [exact Hty|]. split; [|exact Hfov].
  rewrite Hname. destruct deploy; reflexivity.
Qed.

Lemma accumulator_reads_written_layer_witness :
  exists out self blk self',
    add_layers (reset (configure (init "bbtxt") "demo" 1 (Py.FNum (Qmake 1 2))))
      ["conv k3 o8"; "pool"; "conv k3 o8"]%string [] true = (out, Ok self) /\
    _layer_macc self "macc x2" true = Ok (blk, self') /\
    exists body fov, In body (layers out) /\ reported_fov fov body.
Proof.
  destruct (add_layers (reset (configure (init "bbtxt") "demo" 1 (Py.FNum (Qmake 1 2))))
              ["conv k3 o8"; "pool"; "conv k3 o8"]%string [] true)
    as [out [self|f]] eqn:Hpre; [|vm_compute in Hpre; discriminate].
  pose proof Hpre as Hc. vm_compute in Hc. injection Hc as _ Hself.
  destruct (_layer_macc self "macc x2" true) as [[blk self']|f] eqn:Hm;
    [|rewrite <- Hself in Hm; vm_compute in Hm; discriminate].
  exists out, self, blk, self'. split; [reflexivity|]. split; [exact Hm|].
  destruct (accumulator_reads_written_layer _ _ _ _ _ _ _ _ _ Hpre Hm)
    as (scale & fov & text & body & acc & rest & _ & _ & _ & _ & Hin & _ & _ & Hfov).
  exists body, fov. split; [exact Hin | exact Hfov].
Defined.
